(** * Picha: the client-side scarcity cache, form validation and helpers

    A shallow embedding of the logic of [src/pages/Index.tsx] and
    [src/components/ScarcityIndicator.tsx].

    - JavaScript strings are sequences of UTF-16 code units ([list N]), so
      that [length], [slice], [padStart] and [trim] count what the engine
      counts.
    - JavaScript numbers that the code computes with are integer counts
      (slots, retries, milliseconds, versions) and are modelled by [Z];
      the non-integer quantities ([rarity_score], [price_multiplier], the
      genetic traits) are only transported and are modelled by [Q].
    - React state is an explicit record; a handler is a function from the
      state before to the state after, and the toasts it shows and the
      timers it schedules are appended to logs kept in that record.
    - A [try]/[catch] is modelled with an explicit completion type, and the
      platform calls whose result the program cannot predict
      ([crypto.getRandomValues], [Math.random], [Date.now]) read an oracle
      at the current call number.
    - A string cannot be longer than the engine allows: the two string
      operations whose result grows with an argument of the caller check
      the limit of the platform and throw beyond it. *)

From Stdlib Require Import String Ascii.
From Stdlib Require Import List ZArith NArith QArith Bool Lia.
Import ListNotations.

Local Open Scope Z_scope.

(** ** JavaScript values and string primitives *)

Module Js.

Definition jsstring := list N.

(** An ASCII literal of the source, as code units. *)
Definition lit (s : string) : jsstring :=
  map N_of_ascii (list_ascii_of_string s).

Fixpoint str_eqb (a b : jsstring) : bool :=
  match a, b with
  | [], [] => true
  | x :: a', y :: b' => N.eqb x y && str_eqb a' b'
  | _, _ => false
  end.

(** Truthiness: the empty string and the number 0 are falsy. *)
Definition truthy_str (s : jsstring) : bool :=
  match s with [] => false | _ :: _ => true end.

Definition truthy_num (x : Z) : bool := negb (x =? 0).

(** [a || b] on strings and on numbers. *)
Definition str_or (a b : jsstring) : jsstring :=
  if truthy_str a then a else b.

Definition num_or (x d : Z) : Z := if truthy_num x then x else d.

(** [a || b] where [a] may be [undefined]/[null] ([None]). *)
Definition opt_str_or (a : option jsstring) (b : jsstring) : jsstring :=
  match a with Some s => str_or s b | None => b end.

Definition opt_num_or (a : option Z) (d : Z) : Z :=
  match a with Some x => num_or x d | None => d end.

(** An object (record, array) is always truthy. *)
Definition opt_obj_or {A : Type} (a : option A) (d : A) : A :=
  match a with Some x => x | None => d end.

(** [s || null]. *)
Definition str_or_null (s : jsstring) : option jsstring :=
  if truthy_str s then Some s else None.

(** WhiteSpace and LineTerminator code units of ECMAScript, the ones
    [String.prototype.trim] strips. *)
Definition isWhiteSpace (c : N) : bool :=
  (((9 <=? c) && (c <=? 13))
   || (c =? 32) || (c =? 160) || (c =? 5760)
   || ((8192 <=? c) && (c <=? 8202))
   || (c =? 8232) || (c =? 8233) || (c =? 8239) || (c =? 8287)
   || (c =? 12288) || (c =? 65279))%N.

Fixpoint trimStart (s : jsstring) : jsstring :=
  match s with
  | c :: s' => if isWhiteSpace c then trimStart s' else s
  | [] => []
  end.

Definition trimEnd (s : jsstring) : jsstring := rev (trimStart (rev s)).

Definition trim (s : jsstring) : jsstring := trimEnd (trimStart s).

Definition len (s : jsstring) : Z := Z.of_nat (length s).

Definition clamp (lo hi x : Z) : Z := Z.max lo (Z.min hi x).

(** [s.slice(start)]: a negative [start] counts from the end. *)
Definition slice_from (s : jsstring) (start : Z) : jsstring :=
  let from := if start <? 0 then Z.max (len s + start) 0
              else Z.min start (len s) in
  skipn (Z.to_nat from) s.

(** [s.slice(0, n)] for [n >= 0]. *)
Definition slice_to (s : jsstring) (n : nat) : jsstring := firstn n s.

(** [s.substring(start, end)]: both ends are clamped to the string and
    swapped when out of order. *)
Definition substring (s : jsstring) (start stop : Z) : jsstring :=
  let a := clamp 0 (len s) start in
  let b := clamp 0 (len s) stop in
  let lo := Z.min a b in
  let hi := Z.max a b in
  firstn (Z.to_nat (hi - lo)) (skipn (Z.to_nat lo) s).

(** The filler of [padStart]/[padEnd]: [fill] repeated and cut to [n]
    code units. *)
Definition filler (fill : jsstring) (n : nat) : jsstring :=
  firstn n (concat (repeat fill n)).

Definition padStart (s : jsstring) (target : Z) (fill : jsstring) : jsstring :=
  if (target <=? len s) || negb (truthy_str fill) then s
  else filler fill (Z.to_nat (target - len s)) ++ s.

Definition padEnd (s : jsstring) (target : Z) (fill : jsstring) : jsstring :=
  if (target <=? len s) || negb (truthy_str fill) then s
  else s ++ filler fill (Z.to_nat (target - len s)).

(** Digits of [Number.prototype.toString(radix)]: 0-9 then a-z. *)
Definition digit_char (d : N) : N :=
  (if d <? 10 then 48 + d else 87 + d)%N.

Fixpoint digits_aux (fuel : nat) (radix n : N) (acc : jsstring) : jsstring :=
  match fuel with
  | O => acc
  | S fuel' =>
      let acc' := digit_char (n mod radix) :: acc in
      if (n / radix =? 0)%N then acc' else digits_aux fuel' radix (n / radix) acc'
  end.

(** [n.toString(radix)] for a natural number [n]. *)
Definition nat_toString (radix n : N) : jsstring :=
  digits_aux (S (N.to_nat (N.log2 n))) radix n [].

(** [x.toString()] for an integer [x]. *)
Definition toString (x : Z) : jsstring :=
  if x <? 0 then lit "-" ++ nat_toString 10 (Z.to_N (- x))
  else nat_toString 10 (Z.to_N x).

(** A template-literal slot [${v}] for a string that may be [null], as
    the result of [URLSearchParams.get] is. *)
Definition template_null (v : option jsstring) : jsstring :=
  match v with Some s => s | None => lit "null" end.

(** A property of a parsed JSON object: absent (reading it gives
    [undefined]), [null], or a value. Both [undefined] and [null] are
    falsy, and they print differently. *)
Inductive property (A : Type) :=
| Absent
| Null
| Present (a : A).
Arguments Absent {A}.
Arguments Null {A}.
Arguments Present {A} a.

(** A template-literal slot [${v}] for a string property. *)
Definition template_property (v : property jsstring) : jsstring :=
  match v with
  | Present s => s
  | Null => lit "null"
  | Absent => lit "undefined"
  end.

Definition isLowerHex (c : N) : bool :=
  (((48 <=? c) && (c <=? 57)) || ((97 <=? c) && (c <=? 102)))%N.

(** *** Abrupt completion *)

Record AxiosResponseData := {
  data_error : option jsstring;
  data_message : option jsstring
}.

Record AxiosResponse := {
  status : Z;
  data : option AxiosResponseData
}.

Record AxiosError := {
  ax_message : jsstring;
  ax_code : option jsstring;
  ax_response : option AxiosResponse
}.

(** What a [catch] clause can receive. *)
Inductive thrown :=
| ThrownAxios (e : AxiosError)
| ThrownError (message : jsstring)
| ThrownOther.

Inductive completion (A : Type) :=
| Normal (a : A)
| Throw (e : thrown).
Arguments Normal {A} a.
Arguments Throw {A} e.

(** *** Platform oracles

    The [k]-th platform call of a run reads the oracle at [k]. *)
Record Platform := {
  (** [crypto.getRandomValues] on a fresh [Uint8Array(n)]: the bytes, or
      what is thrown when [crypto] is missing or the call fails. *)
  getRandomValues : nat -> nat -> completion (list N);
  (** [Math.random().toString(16)] and [Math.random().toString(36)]. *)
  random_toString16 : nat -> jsstring;
  random_toString36 : nat -> jsstring;
  (** [Date.now()], in milliseconds. *)
  date_now : nat -> Z;
  (** By how much the longest string of the engine exceeds the shortest
      limit in use. *)
  string_headroom : N
}.

(** The longest string an engine allows. ECMAScript leaves the limit to
    the engine; the shortest one in use is V8's on 32-bit platforms,
    [2^28 - 16] code units (V8 on 64-bit platforms has [2^29 - 24],
    SpiderMonkey [2^30 - 2], JavaScriptCore [2^31 - 1]). *)
Definition shortest_string_limit : Z := 268435440.

Definition max_string_length (P : Platform) : Z :=
  shortest_string_limit + Z.of_N (string_headroom P).

(** The RangeError of a string that would be too long. *)
Definition invalid_string_length : thrown :=
  ThrownError (lit "Invalid string length").

(** Computations that call the platform and may throw. *)
Definition M (A : Type) : Type := Platform -> nat -> completion A * nat.

Definition ret {A} (a : A) : M A := fun _ k => (Normal a, k).

Definition bind {A B} (m : M A) (f : A -> M B) : M B :=
  fun P k =>
    match m P k with
    | (Normal a, k') => f a P k'
    | (Throw e, k') => (Throw e, k')
    end.

Definition throw {A} (e : thrown) : M A := fun _ k => (Throw e, k).

Definition try_catch {A} (body : M A) (handler : thrown -> M A) : M A :=
  fun P k =>
    match body P k with
    | (Normal a, k') => (Normal a, k')
    | (Throw e, k') => handler e P k'
    end.

Definition crypto_getRandomValues (n : nat) : M (list N) :=
  fun P k =>
    (getRandomValues P k n, S k).

Definition Math_random_toString16 : M jsstring :=
  fun P k => (Normal (random_toString16 P k), S k).

Definition Math_random_toString36 : M jsstring :=
  fun P k => (Normal (random_toString36 P k), S k).

Definition Date_now : M Z :=
  fun P k => (Normal (date_now P k), S k).

(** [parts.join('')]: the concatenation, or a RangeError when it would be
    longer than the engine allows. *)
Definition join_empty (parts : list jsstring) : M jsstring :=
  fun P k =>
    if max_string_length P <? len (concat parts)
    then (Throw invalid_string_length, k)
    else (Normal (concat parts), k).

(** [s.padEnd(target, fill)]: a RangeError when padding is due and the
    padded string would be longer than the engine allows. *)
Definition padEnd_checked (s : jsstring) (target : Z) (fill : jsstring)
  : M jsstring :=
  fun P k =>
    if (len s <? target) && truthy_str fill && (max_string_length P <? target)
    then (Throw invalid_string_length, k)
    else (Normal (padEnd s target fill), k).

End Js.

Import Js.

Notation "x <- m ;; f" := (Js.bind m (fun x => f))
(at level 61, m at next level, right associativity).

(** ** The main page, [src/pages/Index.tsx] *)

Module Index.

(** *** Interfaces *)

Record GeneticTraits := {
  luminosity : Q;
  architectural_complexity : Q;
  ethereal_quality : Q;
  evolution_speed : Q;
  style_intensity : Q;
  temporal_resonance : Q
}.

Record ScarcityInfo := {
  combination : jsstring;
  total_limit : Z;
  minted_count : Z;
  rarity_score : Q;
  price_multiplier : Q;
  is_sold_out : bool;
  remaining_slots : option Z;
  (** Not declared by the interface: the property that the page's
      [scarcity_update] handler writes into the object. *)
  total_supply : option Z
}.

Record EvolutionEntry := {
  entry_version : jsstring;
  entry_timestamp : Z;
  prompt_used : jsstring;
  image_url : jsstring;
  traits_changed : list jsstring;
  event : jsstring
}.

Record NFTData := {
  id : jsstring;
  image_uri : jsstring;
  nft_artist : jsstring;
  nft_event_type : jsstring;
  version : Z;
  timestamp : Z;
  genetic_traits : GeneticTraits;
  nft_scarcity_info : ScarcityInfo;
  prompt : jsstring;
  evolution_history : list EvolutionEntry;
  evolution_period_days : Z
}.

Record WalletInfo := {
  principal : jsstring;
  accountId : jsstring;
  isConnected : bool;
  balance : option Q
}.

Record CombinationScarcityAPI := {
  artist : jsstring;
  event_type : jsstring;
  is_available : bool;
  scarcity_info : ScarcityInfo;
  waitlist_count : Z;
  estimated_availability : jsstring;
  combo_price_multiplier : Q
}.

Record APIError := {
  message : jsstring;
  err_status : option Z;
  code : option jsstring
}.

Record LoadingStates := {
  initialData : bool;
  nftGeneration : bool;
  combinations : bool;
  xAuth : bool;
  loading_wallet : bool
}.

Record Errors := {
  err_initialization : option APIError;
  err_nftGeneration : option APIError;
  err_validation : option jsstring;
  err_wallet : option APIError;
  err_websocket : option jsstring;
  err_xAuth : option jsstring
}.

Record ScarcityUpdateMessage := {
  su_artist : jsstring;
  su_event_type : jsstring;
  su_remaining_slots : Z;
  su_total_supply : Z;
  su_is_available : bool;
  su_timestamp : Z
}.

Record NewMintMessage := {
  nm_nft_id : jsstring;
  nm_name : jsstring;
  nm_image_url : jsstring;
  nm_artist : jsstring;
  nm_event_type : jsstring;
  nm_owner_address : jsstring;
  nm_canister_id : jsstring;
  nm_timestamp : Z
}.

Inductive Mode := basic | advanced.

(** *** Effects kept as logs *)

Inductive ToastKind := toast_success | toast_error | toast_warning | toast_info.

Record Toast := { kind : ToastKind; title : jsstring }.

(** The only callback the page hands to [setTimeout] with a computed delay:
    [() => fetchInitialData(true)]. *)
Inductive TimerCallback := RefetchInitialData.

Record Timer := { delay : Z; callback : TimerCallback }.

(** *** The component state *)

Record State := {
  mode : Mode;
  customPrompt : jsstring;
  selectedArtist : jsstring;
  selectedEvent : jsstring;
  nftResult : option NFTData;
  evolutionPeriod : Z;
  wallet : option WalletInfo;
  loadingStates : LoadingStates;
  errors : Errors;
  artists : list jsstring;
  events : list jsstring;
  retryCount : Z;
  allCombinationsScarcity : list CombinationScarcityAPI;
  toasts : list Toast;
  timers : list Timer
}.

(** The state of the first render. *)
Definition initialState : State := {|
  mode := basic;
  customPrompt := [];
  selectedArtist := [];
  selectedEvent := [];
  nftResult := None;
  evolutionPeriod := 30;
  wallet := None;
  loadingStates := {| initialData := false; nftGeneration := false;
                      combinations := false; xAuth := false;
                      loading_wallet := false |};
  errors := {| err_initialization := None; err_nftGeneration := None;
               err_validation := None; err_wallet := None;
               err_websocket := None; err_xAuth := None |};
  artists := [];
  events := [];
  retryCount := 0;
  allCombinationsScarcity := [];
  toasts := [];
  timers := []
|}.

(** State setters; [setX f] is React's [setX(prev => f prev)]. *)

Definition setLoadingStates (f : LoadingStates -> LoadingStates) (st : State) : State :=
  {| mode := mode st; customPrompt := customPrompt st;
     selectedArtist := selectedArtist st; selectedEvent := selectedEvent st;
     nftResult := nftResult st; evolutionPeriod := evolutionPeriod st;
     wallet := wallet st; loadingStates := f (loadingStates st);
     errors := errors st; artists := artists st; events := events st;
     retryCount := retryCount st;
     allCombinationsScarcity := allCombinationsScarcity st;
     toasts := toasts st; timers := timers st |}.

Definition setErrors (f : Errors -> Errors) (st : State) : State :=
  {| mode := mode st; customPrompt := customPrompt st;
     selectedArtist := selectedArtist st; selectedEvent := selectedEvent st;
     nftResult := nftResult st; evolutionPeriod := evolutionPeriod st;
     wallet := wallet st; loadingStates := loadingStates st;
     errors := f (errors st); artists := artists st; events := events st;
     retryCount := retryCount st;
     allCombinationsScarcity := allCombinationsScarcity st;
     toasts := toasts st; timers := timers st |}.

Definition setRetryCount (n : Z) (st : State) : State :=
  {| mode := mode st; customPrompt := customPrompt st;
     selectedArtist := selectedArtist st; selectedEvent := selectedEvent st;
     nftResult := nftResult st; evolutionPeriod := evolutionPeriod st;
     wallet := wallet st; loadingStates := loadingStates st;
     errors := errors st; artists := artists st; events := events st;
     retryCount := n;
     allCombinationsScarcity := allCombinationsScarcity st;
     toasts := toasts st; timers := timers st |}.

Definition setAllCombinationsScarcity
    (f : list CombinationScarcityAPI -> list CombinationScarcityAPI)
    (st : State) : State :=
  {| mode := mode st; customPrompt := customPrompt st;
     selectedArtist := selectedArtist st; selectedEvent := selectedEvent st;
     nftResult := nftResult st; evolutionPeriod := evolutionPeriod st;
     wallet := wallet st; loadingStates := loadingStates st;
     errors := errors st; artists := artists st; events := events st;
     retryCount := retryCount st;
     allCombinationsScarcity := f (allCombinationsScarcity st);
     toasts := toasts st; timers := timers st |}.

Definition setNftResult (r : option NFTData) (st : State) : State :=
  {| mode := mode st; customPrompt := customPrompt st;
     selectedArtist := selectedArtist st; selectedEvent := selectedEvent st;
     nftResult := r; evolutionPeriod := evolutionPeriod st;
     wallet := wallet st; loadingStates := loadingStates st;
     errors := errors st; artists := artists st; events := events st;
     retryCount := retryCount st;
     allCombinationsScarcity := allCombinationsScarcity st;
     toasts := toasts st; timers := timers st |}.

(** [setArtists], [setEvents] and the default selections of a successful
    initial fetch. *)
Definition setFetchedLists (fetched_artists fetched_events : list jsstring)
    (st : State) : State :=
  {| mode := mode st; customPrompt := customPrompt st;
     selectedArtist := match fetched_artists with
                       | a :: _ => a
                       | [] => selectedArtist st
                       end;
     selectedEvent := match fetched_events with
                      | e :: _ => e
                      | [] => selectedEvent st
                      end;
     nftResult := nftResult st; evolutionPeriod := evolutionPeriod st;
     wallet := wallet st; loadingStates := loadingStates st;
     errors := errors st; artists := fetched_artists; events := fetched_events;
     retryCount := retryCount st;
     allCombinationsScarcity := allCombinationsScarcity st;
     toasts := toasts st; timers := timers st |}.

Definition showToast (k : ToastKind) (text : jsstring) (st : State) : State :=
  {| mode := mode st; customPrompt := customPrompt st;
     selectedArtist := selectedArtist st; selectedEvent := selectedEvent st;
     nftResult := nftResult st; evolutionPeriod := evolutionPeriod st;
     wallet := wallet st; loadingStates := loadingStates st;
     errors := errors st; artists := artists st; events := events st;
     retryCount := retryCount st;
     allCombinationsScarcity := allCombinationsScarcity st;
     toasts := toasts st ++ [ {| kind := k; title := text |} ];
     timers := timers st |}.

Definition setTimeout (cb : TimerCallback) (ms : Z) (st : State) : State :=
  {| mode := mode st; customPrompt := customPrompt st;
     selectedArtist := selectedArtist st; selectedEvent := selectedEvent st;
     nftResult := nftResult st; evolutionPeriod := evolutionPeriod st;
     wallet := wallet st; loadingStates := loadingStates st;
     errors := errors st; artists := artists st; events := events st;
     retryCount := retryCount st;
     allCombinationsScarcity := allCombinationsScarcity st;
     toasts := toasts st;
     timers := timers st ++ [ {| delay := ms; callback := cb |} ] |}.

Definition set_loading_initialData (b : bool) (l : LoadingStates) : LoadingStates :=
  {| initialData := b; nftGeneration := nftGeneration l;
     combinations := combinations l; xAuth := xAuth l;
     loading_wallet := loading_wallet l |}.

Definition set_loading_nftGeneration (b : bool) (l : LoadingStates) : LoadingStates :=
  {| initialData := initialData l; nftGeneration := b;
     combinations := combinations l; xAuth := xAuth l;
     loading_wallet := loading_wallet l |}.

Definition set_err_initialization (e : option APIError) (es : Errors) : Errors :=
  {| err_initialization := e; err_nftGeneration := err_nftGeneration es;
     err_validation := err_validation es; err_wallet := err_wallet es;
     err_websocket := err_websocket es; err_xAuth := err_xAuth es |}.

Definition set_err_nftGeneration (e : option APIError) (es : Errors) : Errors :=
  {| err_initialization := err_initialization es; err_nftGeneration := e;
     err_validation := err_validation es; err_wallet := err_wallet es;
     err_websocket := err_websocket es; err_xAuth := err_xAuth es |}.

Definition set_err_validation (e : option jsstring) (es : Errors) : Errors :=
  {| err_initialization := err_initialization es;
     err_nftGeneration := err_nftGeneration es;
     err_validation := e; err_wallet := err_wallet es;
     err_websocket := err_websocket es; err_xAuth := err_xAuth es |}.

(** *** Error objects *)

Definition createAPIError (error : thrown) (context : jsstring) : APIError :=
  match error with
  | ThrownAxios axiosError =>
      let response_data :=
        match ax_response axiosError with
        | Some r => data r
        | None => None
        end in
      let response_error :=
        match response_data with Some d => data_error d | None => None end in
      let response_message :=
        match response_data with Some d => data_message d | None => None end in
      {| message :=
           opt_str_or response_error
             (opt_str_or response_message
                (str_or (ax_message axiosError)
                   (lit "Network error occurred while " ++ context)));
         err_status := option_map status (ax_response axiosError);
         code := ax_code axiosError |}
  | ThrownError error_message =>
      {| message := error_message ++ lit " while " ++ context;
         err_status := None; code := None |}
  | ThrownOther =>
      {| message := lit "Unknown error occurred while " ++ context;
         err_status := None; code := None |}
  end.

(** [clearErrors('initialization')], [clearErrors('nftGeneration')] and
    [clearErrors('validation')]. *)
Definition clearErrors_initialization : State -> State :=
  setErrors (set_err_initialization None).

Definition clearErrors_nftGeneration : State -> State :=
  setErrors (set_err_nftGeneration None).

Definition clearErrors_validation : State -> State :=
  setErrors (set_err_validation None).

(** [axios.isAxiosError(error) && error.code === c]. *)
Definition axios_code_is (c : jsstring) (error : thrown) : bool :=
  match error with
  | ThrownAxios e =>
      match ax_code e with Some c' => str_eqb c' c | None => false end
  | _ => false
  end.

(** [axios.isAxiosError(error) && error.response?.status === n]. *)
Definition axios_status_is (n : Z) (error : thrown) : bool :=
  match error with
  | ThrownAxios e =>
      match ax_response e with Some r => status r =? n | None => false end
  | _ => false
  end.

(** *** Random hex strings and uniqueness factors *)

(** The [map] callback of [generateRandomHex]:
    [b => b.toString(16).padStart(2, '0')]. *)
Definition hex_pair (b : N) : jsstring :=
  padStart (nat_toString 16 b) 2 (lit "0").

(** The allocation of the [Uint8Array] and the call of
    [crypto.getRandomValues] are one oracle step: either may fail, and both
    failures land in the same [catch], as does a [join] whose result would
    be too long. The [padEnd] of the [catch] block is not guarded: what it
    throws leaves the function. *)
Definition generateRandomHex (length : Z) : M jsstring :=
  try_catch
    (if (length <=? 0) || negb (Z.rem length 2 =? 0)
     then throw (ThrownError (lit "Length must be a positive even number"))
     else
       bytes <- crypto_getRandomValues (Z.to_nat (length / 2)) ;;
       join_empty (map hex_pair bytes))
    (fun _ =>
       r <- Math_random_toString16 ;;
       padEnd_checked (substring r 2 (length + 2)) length (lit "0")).

Record UniquenessFactors := {
  location_hash : jsstring;
  timestamp_seed : jsstring;
  wallet_entropy : jsstring;
  wallet_principal : option jsstring;
  wallet_account_id : option jsstring;
  biometric_opt_in : bool;
  biometric_hash : option jsstring
}.

(** [walletInfo?.principal || null] and [walletInfo?.accountId || null]. *)
Definition principal_or_null (walletInfo : option WalletInfo) : option jsstring :=
  match walletInfo with Some w => str_or_null (principal w) | None => None end.

Definition accountId_or_null (walletInfo : option WalletInfo) : option jsstring :=
  match walletInfo with Some w => str_or_null (accountId w) | None => None end.

Definition generateUniquenessFactors (walletInfo : option WalletInfo)
  : M UniquenessFactors :=
  try_catch
    (locationHash <- generateRandomHex 16 ;;
     now <- Date_now ;;
     let timestampSeed := toString (now / 1000) in
     walletEntropy <-
       match walletInfo with
       | Some w =>
           if truthy_str (principal w)
           then ret (padStart (slice_from (principal w) (-16)) 16 (lit "0"))
           else generateRandomHex 16
       | None => generateRandomHex 16
       end ;;
     ret {| location_hash := locationHash;
            timestamp_seed := timestampSeed;
            wallet_entropy := walletEntropy;
            wallet_principal := principal_or_null walletInfo;
            wallet_account_id := accountId_or_null walletInfo;
            biometric_opt_in := false;
            biometric_hash := None |})
    (fun _ =>
       r1 <- Math_random_toString36 ;;
       now <- Date_now ;;
       r2 <- Math_random_toString36 ;;
       ret {| location_hash := substring r1 2 18;
              timestamp_seed := toString (now / 1000);
              wallet_entropy := substring r2 2 18;
              wallet_principal := principal_or_null walletInfo;
              wallet_account_id := accountId_or_null walletInfo;
              biometric_opt_in := false;
              biometric_hash := None |}).

(** *** The initial fetch and its retry *)

(** What [Promise.all] of the two GET requests resolves to: the [artists]
    and [events] arrays of the two bodies, [None] for a body without the
    property or with a property that is not an array. *)
Record FetchedLists := {
  fetched_artists : option (list jsstring);
  fetched_events : option (list jsstring)
}.

(** [fetchInitialData(isRetry)] up to its [await]. *)
Definition fetchInitialData_start (isRetry : bool) (st : State) : State :=
  clearErrors_initialization
    (if isRetry then st
     else setLoadingStates (set_loading_initialData true) st).

(** The [try] block after the [await]. No state is written before the last
    [throw]. *)
Definition fetchInitialData_try (outcome : completion FetchedLists)
    (st : State) : completion State :=
  match outcome with
  | Throw e => Throw e
  | Normal responses =>
      match fetched_artists responses with
      | None =>
          Throw (ThrownError (lit "Invalid artists data received from server"))
      | Some fa =>
          match fetched_events responses with
          | None =>
              Throw (ThrownError (lit "Invalid events data received from server"))
          | Some fe => Normal (setRetryCount 0 (setFetchedLists fa fe st))
          end
      end
  end.

Definition fetchInitialData_catch (error : thrown) (st : State) : State :=
  if axios_code_is (lit "ECONNABORTED") error then
    setErrors
      (set_err_initialization
         (Some {| message := lit "Request timed out. Please check your connection and try again.";
                  err_status := None;
                  code := Some (lit "TIMEOUT") |})) st
  else
    setErrors
      (set_err_initialization
         (Some (createAPIError error (lit "loading initial data")))) st.

(** [fetchInitialData] from the moment the requests settle. *)
Definition fetchInitialData_settle (outcome : completion FetchedLists)
    (st : State) : State :=
  setLoadingStates (set_loading_initialData false)
    (match fetchInitialData_try outcome st with
     | Normal st' => st'
     | Throw error => fetchInitialData_catch error st
     end).

(** [Math.pow(2, e)], exact for the exponents the page reaches:
    [retryCount] starts at 0 and is only incremented or reset to 0, so
    [e >= 0]. *)
Definition Math_pow2 (e : Z) : Z := 2 ^ e.

Definition retryFetchInitialData (st : State) : State :=
  let newRetryCount := retryCount st + 1 in
  let st1 := setRetryCount newRetryCount st in
  let delay := Z.min (1000 * Math_pow2 (newRetryCount - 1)) 5000 in
  setTimeout RefetchInitialData delay st1.

(** *** The scarcity cache *)

(** [combo.artist === a && combo.event_type === e]. *)
Definition is_combination (a e : jsstring) (combo : CombinationScarcityAPI) : bool :=
  str_eqb (artist combo) a && str_eqb (event_type combo) e.

(** The object literal [{ ...combo, scarcity_info: info, is_available: b }]. *)
Definition with_scarcity (combo : CombinationScarcityAPI)
    (info : ScarcityInfo) (available : bool) : CombinationScarcityAPI :=
  {| artist := artist combo;
     event_type := event_type combo;
     is_available := available;
     scarcity_info := info;
     waitlist_count := waitlist_count combo;
     estimated_availability := estimated_availability combo;
     combo_price_multiplier := combo_price_multiplier combo |}.

(** The [map] callback of [handleNewMint]. *)
Definition newMint_combo (data : NewMintMessage)
    (combo : CombinationScarcityAPI) : CombinationScarcityAPI :=
  if is_combination (nm_artist data) (nm_event_type data) combo then
    let currentMinted := num_or (minted_count (scarcity_info combo)) 0 in
    let currentTotal := num_or (total_limit (scarcity_info combo)) 0 in
    let newMintedCount := currentMinted + 1 in
    let newRemainingSlots := currentTotal - newMintedCount in
    with_scarcity combo
      {| combination := combination (scarcity_info combo);
         total_limit := total_limit (scarcity_info combo);
         minted_count := newMintedCount;
         rarity_score := rarity_score (scarcity_info combo);
         price_multiplier := price_multiplier (scarcity_info combo);
         is_sold_out := newRemainingSlots <=? 0;
         remaining_slots := Some newRemainingSlots;
         total_supply := total_supply (scarcity_info combo) |}
      (0 <? newRemainingSlots)
  else combo.

Definition handleNewMint (data : NewMintMessage) (st : State) : State :=
  let st1 :=
    showToast toast_success
      (lit "New NFT Minted: "
       ++ str_or (nm_name data) (slice_to (nm_nft_id data) 8)
       ++ lit "... by " ++ nm_artist data ++ lit "!") st in
  setAllCombinationsScarcity (map (newMint_combo data)) st1.

(** The [map] callback of the page's [handleScarcityUpdate]. *)
Definition scarcityUpdate_combo (data : ScarcityUpdateMessage)
    (combo : CombinationScarcityAPI) : CombinationScarcityAPI :=
  if is_combination (su_artist data) (su_event_type data) combo then
    let newMintedCount := su_total_supply data - su_remaining_slots data in
    with_scarcity combo
      {| combination := combination (scarcity_info combo);
         total_limit := total_limit (scarcity_info combo);
         minted_count := newMintedCount;
         rarity_score := rarity_score (scarcity_info combo);
         price_multiplier := price_multiplier (scarcity_info combo);
         is_sold_out := su_remaining_slots data <=? 0;
         remaining_slots := Some (su_remaining_slots data);
         total_supply := Some (su_total_supply data) |}
      (su_is_available data)
  else combo.

Definition handleScarcityUpdate (data : ScarcityUpdateMessage) (st : State) : State :=
  let st1 := setAllCombinationsScarcity (map (scarcityUpdate_combo data)) st in
  if su_remaining_slots data <=? 0 then
    showToast toast_warning
      (lit "SOLD OUT: " ++ su_artist data ++ lit " - "
       ++ su_event_type data ++ lit "!") st1
  else if (su_remaining_slots data <? 50) && (0 <? su_remaining_slots data) then
    showToast toast_info
      (lit "Limited Slots: " ++ su_artist data ++ lit " - "
       ++ su_event_type data ++ lit " has "
       ++ toString (su_remaining_slots data) ++ lit " left!") st1
  else st1.

(** The [map] callback of the [onScarcityChange] closure handed to
    [ScarcityIndicator]; [selArtist] and [selEvent] are the selection of the
    render that created the closure. *)
Definition scarcityChange_combo (selArtist selEvent : jsstring) (remaining : Z)
    (combo : CombinationScarcityAPI) : CombinationScarcityAPI :=
  if is_combination selArtist selEvent combo then
    let newMintedCount :=
      num_or (total_limit (scarcity_info combo)) 0 - remaining in
    let newRemainingSlots := remaining in
    with_scarcity combo
      {| combination := combination (scarcity_info combo);
         total_limit := total_limit (scarcity_info combo);
         minted_count := newMintedCount;
         rarity_score := rarity_score (scarcity_info combo);
         price_multiplier := price_multiplier (scarcity_info combo);
         is_sold_out := newRemainingSlots <=? 0;
         remaining_slots := Some newRemainingSlots;
         total_supply := total_supply (scarcity_info combo) |}
      (0 <? newRemainingSlots)
  else combo.

Definition onScarcityChange (selArtist selEvent : jsstring) (remaining : Z)
    (st : State) : State :=
  setAllCombinationsScarcity
    (map (scarcityChange_combo selArtist selEvent remaining)) st.

Definition getScarcityForCombination (a eventType : jsstring) (st : State)
  : option ScarcityInfo :=
  match allCombinationsScarcity st with
  | [] => None
  | _ :: _ =>
      let foundCombo :=
        find (is_combination a eventType) (allCombinationsScarcity st) in
      option_map scarcity_info foundCombo
  end.

(** *** Form validation *)

Definition validateForm (st : State) : option jsstring :=
  match wallet st with
  | None => Some (lit "Please connect your wallet to generate NFTs")
  | Some _ =>
      match mode st with
      | basic =>
          if negb (truthy_str (selectedArtist st)) then
            Some (lit "Please select an artist")
          else if negb (truthy_str (selectedEvent st)) then
            Some (lit "Please select an event")
          else
            let selectedComboScarcity :=
              getScarcityForCombination (selectedArtist st) (selectedEvent st) st in
            match selectedComboScarcity with
            | Some info =>
                if is_sold_out info then
                  Some (lit "The " ++ selectedArtist st ++ lit " - "
                        ++ selectedEvent st
                        ++ lit " combination is currently sold out.")
                else None
            | None => None
            end
      | advanced =>
          if negb (truthy_str (trim (customPrompt st))) then
            Some (lit "Please enter a custom prompt")
          else if len (trim (customPrompt st)) <? 10 then
            Some (lit "Custom prompt must be at least 10 characters long")
          else if 500 <? len (trim (customPrompt st)) then
            Some (lit "Custom prompt must be less than 500 characters")
          else None
      end
  end.

(** *** NFT generation *)

(** The NFT object of a create-nft response. A property that is absent (or
    [null]) is [None]; a present property has the type [NFTData] expects.
    [image_url] is printed in a template literal, where [null] and an
    absent property differ. *)
Record ServerNft := {
  srv_nft_id : option jsstring;
  srv_image_url : property jsstring;
  srv_image_uri : option jsstring;
  srv_artist : option jsstring;
  srv_event_type : option jsstring;
  srv_version : option Z;
  srv_timestamp : option Z;
  srv_genetic_traits : option GeneticTraits;
  srv_scarcity_info : option ScarcityInfo;
  srv_prompt : option jsstring;
  srv_evolution_history : option (list EvolutionEntry);
  srv_evolution_period_days : option Z
}.

(** [response.data]: an object with the key [nft_id]; or anything else, of
    which the code reads the [nft], [data] and [result] properties (here
    [None] when absent or falsy) and the keys. *)
Inductive ResponseData :=
| DataNft (nft : ServerNft)
| DataEnvelope (env_nft env_data env_result : option ServerNft)
               (keys : list jsstring).

Record RequestData := {
  req_mode : jsstring;
  req_artist : jsstring;
  req_event_type : jsstring;
  req_owner_address : jsstring;
  req_user_prompt : option jsstring;
  req_uniqueness_factors : UniquenessFactors;
  req_evolution_period_days : Z
}.

Definition zero_traits : GeneticTraits :=
  {| luminosity := 0; architectural_complexity := 0; ethereal_quality := 0;
     evolution_speed := 0; style_intensity := 0; temporal_resonance := 0 |}.

Definition zero_scarcity : ScarcityInfo :=
  {| combination := []; total_limit := 0; minted_count := 0;
     rarity_score := 0; price_multiplier := 0; is_sold_out := false;
     remaining_slots := Some 0; total_supply := None |}.

(** [a || m] where the right operand calls the platform: it is evaluated
    only when [a] is falsy. *)
Definition opt_str_orM (a : option jsstring) (m : M jsstring) : M jsstring :=
  match a with
  | Some s => if truthy_str s then ret s else m
  | None => m
  end.

Definition opt_num_orM (a : option Z) (m : M Z) : M Z :=
  match a with
  | Some x => if truthy_num x then ret x else m
  | None => m
  end.

(** The object literal [nftData] of [handleUpdatePreview]. *)
Definition buildNftData (nft : ServerNft) (st : State) : M NFTData :=
  nft_id <- opt_str_orM (srv_nft_id nft)
              (now <- Date_now ;; ret (lit "nft-" ++ toString now)) ;;
  nft_timestamp <- opt_num_orM (srv_timestamp nft)
                     (now <- Date_now ;; ret (now / 1000)) ;;
  ret {| id := nft_id;
         image_uri :=
           str_or (lit "http://localhost:5000"
                   ++ template_property (srv_image_url nft))
             (opt_str_or (srv_image_uri nft) []);
         nft_artist :=
           opt_str_or (srv_artist nft)
             (str_or (selectedArtist st) (lit "Unknown Artist"));
         nft_event_type :=
           opt_str_or (srv_event_type nft)
             (str_or (selectedEvent st) (lit "Unknown Event"));
         version := opt_num_or (srv_version nft) 1;
         timestamp := nft_timestamp;
         genetic_traits := opt_obj_or (srv_genetic_traits nft) zero_traits;
         nft_scarcity_info := opt_obj_or (srv_scarcity_info nft) zero_scarcity;
         prompt :=
           opt_str_or (srv_prompt nft)
             (match mode st with
              | advanced => customPrompt st
              | basic => selectedArtist st ++ lit " style " ++ selectedEvent st
              end);
         evolution_history := opt_obj_or (srv_evolution_history nft) [];
         evolution_period_days :=
           opt_num_or (srv_evolution_period_days nft) (evolutionPeriod st) |}.

Fixpoint join (sep : jsstring) (l : list jsstring) : jsstring :=
  match l with
  | [] => []
  | [x] => x
  | x :: l' => x ++ sep ++ join sep l'
  end.

(** The selection of the NFT object in the response. *)
Definition parseResponse (response : ResponseData) : M ServerNft :=
  match response with
  | DataNft nft => ret nft
  | DataEnvelope (Some nft) _ _ _ => ret nft
  | DataEnvelope None (Some nft) _ _ => ret nft
  | DataEnvelope None None (Some nft) _ => ret nft
  | DataEnvelope None None None keys =>
      throw (ThrownError
               (lit "Server returned unexpected response format. Response keys: "
                ++ join (lit ", ") keys))
  end.

(** The [catch] clause of [handleUpdatePreview]. *)
Definition handleUpdatePreview_catch (error : thrown) (st : State) : State :=
  let st1 :=
    match error with
    | ThrownAxios _ =>
        if axios_code_is (lit "ECONNABORTED") error then
          setErrors
            (set_err_nftGeneration
               (Some {| message := lit "NFT generation timed out. The server may be busy, please try again.";
                        err_status := None;
                        code := Some (lit "TIMEOUT") |})) st
        else if axios_status_is 429 error then
          setErrors
            (set_err_nftGeneration
               (Some {| message := lit "Too many requests. Please wait a moment before trying again.";
                        err_status := Some 429;
                        code := Some (lit "RATE_LIMIT") |})) st
        else if axios_status_is 500 error then
          setErrors
            (set_err_nftGeneration
               (Some {| message := lit "Server error occurred during NFT generation. Please try again.";
                        err_status := Some 500;
                        code := Some (lit "SERVER_ERROR") |})) st
        else
          setErrors
            (set_err_nftGeneration
               (Some (createAPIError error (lit "generating NFT")))) st
    | _ =>
        setErrors
          (set_err_nftGeneration
             (Some (createAPIError error (lit "generating NFT")))) st
    end in
  showToast toast_error (lit "Failed to generate NFT.") st1.

(** The [try] block of [handleUpdatePreview]; [post] is the outcome of
    [axios.post] for the request. The state is written only at the end of
    the block, so the [catch] clause starts from the state at its entry. *)
Definition handleUpdatePreview_try (w : WalletInfo)
    (post : RequestData -> completion ResponseData) (st : State) : M State :=
  let ownerAddress := str_or (principal w) (accountId w) in
  if negb (truthy_str ownerAddress) then
    throw (ThrownError
             (lit "Invalid wallet information - no principal or account ID available"))
  else
    factors <- generateUniquenessFactors (Some w) ;;
    let requestData :=
      {| req_mode := match mode st with
                     | basic => lit "selection"
                     | advanced => lit "prompt"
                     end;
         req_artist := str_or (selectedArtist st) (lit "Da Vinci");
         req_event_type := str_or (selectedEvent st) (lit "architecture");
         req_owner_address := ownerAddress;
         req_user_prompt := match mode st with
                            | advanced => Some (trim (customPrompt st))
                            | basic => None
                            end;
         req_uniqueness_factors := factors;
         req_evolution_period_days := evolutionPeriod st |} in
    if negb (truthy_str (req_artist requestData))
       || negb (truthy_str (req_event_type requestData)) then
      throw (ThrownError (lit "Missing required fields for NFT generation"))
    else
      response <- (fun _ k => (post requestData, k)) ;;
      nft <- parseResponse response ;;
      nftData <- buildNftData nft st ;;
      ret (showToast toast_success (lit "NFT generated successfully!")
             (setNftResult (Some nftData) st)).

Definition handleUpdatePreview
    (post : RequestData -> completion ResponseData) (st : State) : M State :=
  let st0 := clearErrors_validation (clearErrors_nftGeneration st) in
  match wallet st0 with
  | None =>
      ret (setErrors
             (set_err_validation
                (Some (lit "Please connect your wallet to generate NFTs"))) st0)
  | Some w =>
      let generate :=
        let st1 := setLoadingStates (set_loading_nftGeneration true) st0 in
        st2 <- try_catch (handleUpdatePreview_try w post st1)
                 (fun error => ret (handleUpdatePreview_catch error st1)) ;;
        ret (setLoadingStates (set_loading_nftGeneration false) st2) in
      match validateForm st0 with
      | Some validationError =>
          if truthy_str validationError then
            ret (setErrors (set_err_validation (Some validationError)) st0)
          else generate
      | None => generate
      end
  end.

End Index.

(** ** Socket.io client sockets *)

Module Socket.

(** What the code emits: the room of a combination or of an NFT. *)
Inductive payload :=
| RoomData (artist event_type : jsstring)
| NftRoom (nft_id : jsstring).

Section Handlers.

(** Listener functions, compared by identity. *)
Variable H : Type.
Variable same : H -> H -> bool.

Record t := {
  connected : bool;
  listeners : list (jsstring * H);
  emitted : list (jsstring * payload)
}.

(** A socket fresh from [io(url, options)]. *)
Definition io : t := {| connected := false; listeners := []; emitted := [] |}.

Definition on (ev : jsstring) (h : H) (s : t) : t :=
  {| connected := connected s;
     listeners := listeners s ++ [(ev, h)];
     emitted := emitted s |}.

(** [off(ev, h)] removes the first registration of [h] for [ev]. *)
Fixpoint remove_listener (ev : jsstring) (h : H) (l : list (jsstring * H))
  : list (jsstring * H) :=
  match l with
  | [] => []
  | (ev', h') :: l' =>
      if str_eqb ev' ev && same h' h then l'
      else (ev', h') :: remove_listener ev h l'
  end.

Definition off (ev : jsstring) (h : H) (s : t) : t :=
  {| connected := connected s;
     listeners := remove_listener ev h (listeners s);
     emitted := emitted s |}.

Definition emit (ev : jsstring) (p : payload) (s : t) : t :=
  {| connected := connected s;
     listeners := listeners s;
     emitted := emitted s ++ [(ev, p)] |}.

Definition disconnect (s : t) : t :=
  {| connected := false; listeners := listeners s; emitted := emitted s |}.

(** The transport comes up. *)
Definition connect (s : t) : t :=
  {| connected := true; listeners := listeners s; emitted := emitted s |}.

(** Does [h] listen to [ev]? *)
Definition listening (ev : jsstring) (h : H) (s : t) : bool :=
  existsb (fun r => str_eqb (fst r) ev && same (snd r) h) (listeners s).

End Handlers.

Arguments connected {H} _.
Arguments listeners {H} _.
Arguments emitted {H} _.
Arguments io {H}.
Arguments on {H} _ _ _.
Arguments off {H} _ _ _ _.
Arguments emit {H} _ _ _.
Arguments disconnect {H} _.
Arguments connect {H} _.
Arguments listening {H} _ _ _ _.

End Socket.

(** ** The WebSocket effect of the main page *)

Module IndexSocket.

(** The six listener functions that one run of the effect creates. *)
Inductive Listener :=
| onConnect | onDisconnect | onConnectError
| handleNewMint | handleScarcityUpdate | handleEvolutionUpdate.

Definition same (a b : Listener) : bool :=
  match a, b with
  | onConnect, onConnect | onDisconnect, onDisconnect
  | onConnectError, onConnectError | handleNewMint, handleNewMint
  | handleScarcityUpdate, handleScarcityUpdate
  | handleEvolutionUpdate, handleEvolutionUpdate => true
  | _, _ => false
  end.

(** The socket as the effect leaves it. *)
Definition subscribed : Socket.t Listener :=
  Socket.on (lit "evolution_update") handleEvolutionUpdate
    (Socket.on (lit "scarcity_update") handleScarcityUpdate
       (Socket.on (lit "new_mint") handleNewMint
          (Socket.on (lit "connect_error") onConnectError
             (Socket.on (lit "disconnect") onDisconnect
                (Socket.on (lit "connect") onConnect Socket.io))))).

(** The function the effect returns; [s] is the socket when React calls it. *)
Definition cleanup (s : Socket.t Listener) : Socket.t Listener :=
  Socket.disconnect
    (Socket.off same (lit "evolution_update") handleEvolutionUpdate
       (Socket.off same (lit "scarcity_update") handleScarcityUpdate
          (Socket.off same (lit "new_mint") handleNewMint s))).

(** The effect: nothing when [socketRef.current] is a connected socket;
    otherwise the new socket, stored in [socketRef.current], and the
    cleanup. *)
Definition webSocketEffect (socketRef : option (Socket.t Listener))
  : option (Socket.t Listener * (Socket.t Listener -> Socket.t Listener)) :=
  match socketRef with
  | Some current =>
      if Socket.connected current then None else Some (subscribed, cleanup)
  | None => Some (subscribed, cleanup)
  end.

End IndexSocket.

(** ** [src/components/ScarcityIndicator.tsx] *)

Module ScarcityIndicator.

Record Props := {
  artist : jsstring;
  eventType : jsstring;
  initialTotalSupply : Z;
  initialRemainingSlots : Z;
  (** The optional callback, acting on the state of the parent page. *)
  onScarcityChange : option (Z -> Index.State -> Index.State)
}.

Record State := {
  remainingSlots : Z;
  totalSupply : Z
}.

(** The two [useState] initialisers. *)
Definition initialState (props : Props) : State :=
  {| remainingSlots := initialRemainingSlots props;
     totalSupply := initialTotalSupply props |}.

(** The listener of [scarcity_update]: the state of the component and of
    the page after the message. *)
Definition handleScarcityUpdate (props : Props)
    (data : Index.ScarcityUpdateMessage) (st : State) (page : Index.State)
  : State * Index.State :=
  if str_eqb (Index.su_artist data) (artist props)
     && str_eqb (Index.su_event_type data) (eventType props) then
    ({| remainingSlots := Index.su_remaining_slots data;
        totalSupply := Index.su_total_supply data |},
     match onScarcityChange props with
     | Some callback => callback (Index.su_remaining_slots data) page
     | None => page
     end)
  else (st, page).

(** The props the page renders the component with. *)
Definition pageProps (page : Index.State) : Props :=
  let scarcity :=
    Index.getScarcityForCombination
      (Index.selectedArtist page) (Index.selectedEvent page) page in
  {| artist := Index.selectedArtist page;
     eventType := Index.selectedEvent page;
     initialTotalSupply :=
       match scarcity with
       | Some info => num_or (Index.total_limit info) 0
       | None => 0
       end;
     initialRemainingSlots :=
       match scarcity with
       | Some info => opt_num_or (Index.remaining_slots info) 0
       | None => 0
       end;
     onScarcityChange :=
       Some (Index.onScarcityChange
               (Index.selectedArtist page) (Index.selectedEvent page)) |}.

(** The listener functions on the component's socket: the three of the
    [useWebSocket] hook, and the [handleScarcityUpdate] closure of run [n]
    of the subscription effect, which captures the props of that run. *)
Inductive Listener :=
| onConnect | onDisconnect | onConnectError
| scarcityListener (n : nat) (listener_artist listener_eventType : jsstring).

Definition same (a b : Listener) : bool :=
  match a, b with
  | onConnect, onConnect | onDisconnect, onDisconnect
  | onConnectError, onConnectError => true
  | scarcityListener n a1 e1, scarcityListener m a2 e2 =>
      Nat.eqb n m && str_eqb a1 a2 && str_eqb e1 e2
  | _, _ => false
  end.

(** The socket that the [useWebSocket] hook creates and stores. *)
Definition useWebSocket_socket : Socket.t Listener :=
  Socket.on (lit "connect_error") onConnectError
    (Socket.on (lit "disconnect") onDisconnect
       (Socket.on (lit "connect") onConnect Socket.io)).

(** The [handleScarcityUpdate] closure that run [n] of the subscription
    effect creates. *)
Definition listener (props : Props) (n : nat) : Listener :=
  scarcityListener n (artist props) (eventType props).

(** The cleanup returned by run [n] of the effect; [s] is the socket when
    React calls it. *)
Definition cleanup (props : Props) (n : nat) (s : Socket.t Listener)
  : Socket.t Listener :=
  let roomData := Socket.RoomData (artist props) (eventType props) in
  if Socket.connected s then
    Socket.emit (lit "leave_scarcity_room") roomData
      (Socket.off same (lit "scarcity_update") (listener props n) s)
  else s.

(** Run [n] of the subscription effect, with the hook's [socket] and
    [isConnected]: the socket after the run and the cleanup, if any. *)
Definition subscriptionEffect (props : Props) (n : nat)
    (socket : option (Socket.t Listener)) (isConnected : bool)
  : option (Socket.t Listener)
    * option (Socket.t Listener -> Socket.t Listener) :=
  match socket with
  | Some s =>
      if isConnected then
        let roomData := Socket.RoomData (artist props) (eventType props) in
        (Some (Socket.on (lit "scarcity_update") (listener props n)
                 (Socket.emit (lit "join_scarcity_room") roomData s)),
         Some (cleanup props n))
      else (Some s, None)
  | None => (None, None)
  end.

(** *** The subscription over the life of the component *)











End ScarcityIndicator.

(** ** Vocabulary of the subscription property *)

Module SubscriptionSpec.



End SubscriptionSpec.

(** ** Vocabulary of the scarcity properties *)

Module ScarcitySpec.

Import Index.

(** The three derived fields of a cached combination agree with its limit
    and count. *)
Definition scarcity_consistent (combo : CombinationScarcityAPI) : Prop :=
  let info := scarcity_info combo in
  let remaining := total_limit info - minted_count info in
  remaining_slots info = Some remaining
  /\ (is_sold_out info = true <-> remaining <= 0)
  /\ (is_available combo = true <-> remaining > 0).

(** The page states reached from [st0] by [new_mint] events,
    [scarcity_update] events and calls of an [onScarcityChange] closure (of
    any render, so for any selection). *)
Inductive reachable (st0 : State) : State -> Prop :=
| reach_start : reachable st0 st0
| reach_new_mint (data : NewMintMessage) (st : State) :
    reachable st0 st -> reachable st0 (handleNewMint data st)
| reach_scarcity_update (data : ScarcityUpdateMessage) (st : State) :
    reachable st0 st -> reachable st0 (handleScarcityUpdate data st)
| reach_scarcity_change (selArtist selEvent : jsstring) (remaining : Z) (st : State) :
    reachable st0 st ->
    reachable st0 (onScarcityChange selArtist selEvent remaining st).

(** A [scarcity_update] message that agrees with the cached limit of the
    combinations it is for, and whose availability flag says that slots
    remain. *)
Definition agrees (data : ScarcityUpdateMessage) (st : State) : Prop :=
  forall combo,
    In combo (allCombinationsScarcity st) ->
    artist combo = su_artist data ->
    event_type combo = su_event_type data ->
    su_total_supply data = total_limit (scarcity_info combo)
    /\ (su_is_available data = true <-> su_remaining_slots data > 0).

(** As [reachable], with every [scarcity_update] message agreeing with the
    state it arrives in. *)
Inductive reachable_agreeing (st0 : State) : State -> Prop :=
| agreeing_start : reachable_agreeing st0 st0
| agreeing_new_mint (data : NewMintMessage) (st : State) :
    reachable_agreeing st0 st -> reachable_agreeing st0 (handleNewMint data st)
| agreeing_scarcity_update (data : ScarcityUpdateMessage) (st : State) :
    reachable_agreeing st0 st -> agrees data st ->
    reachable_agreeing st0 (handleScarcityUpdate data st)
| agreeing_scarcity_change (selArtist selEvent : jsstring) (remaining : Z) (st : State) :
    reachable_agreeing st0 st ->
    reachable_agreeing st0 (onScarcityChange selArtist selEvent remaining st).

(** Sample data: one combination with 10 slots of which 3 are minted. *)
Definition sample_combo : CombinationScarcityAPI :=
  {| artist := lit "Da Vinci";
     event_type := lit "architecture";
     is_available := true;
     scarcity_info :=
       {| combination := lit "Da Vinci-architecture";
          total_limit := 10; minted_count := 3;
          rarity_score := 0; price_multiplier := 1;
          is_sold_out := false; remaining_slots := Some 7;
          total_supply := None |};
     waitlist_count := 0;
     estimated_availability := [];
     combo_price_multiplier := 1 |}.

Definition other_combo : CombinationScarcityAPI :=
  {| artist := lit "Monet";
     event_type := lit "nature";
     is_available := true;
     scarcity_info :=
       {| combination := lit "Monet-nature";
          total_limit := 5; minted_count := 4;
          rarity_score := 0; price_multiplier := 1;
          is_sold_out := false; remaining_slots := Some 1;
          total_supply := None |};
     waitlist_count := 0;
     estimated_availability := [];
     combo_price_multiplier := 1 |}.

(** The page after [fetchAllCombinationsScarcity] stored the two. *)
Definition sample_page : State :=
  setAllCombinationsScarcity (fun _ => [sample_combo; other_combo]) initialState.

Definition sample_mint : NewMintMessage :=
  {| nm_nft_id := lit "nft-0001"; nm_name := lit "Study";
     nm_image_url := []; nm_artist := lit "Da Vinci";
     nm_event_type := lit "architecture"; nm_owner_address := lit "aaaaa-aa";
     nm_canister_id := []; nm_timestamp := 0 |}.

(** The server reports 5 of 10 slots left and the combination closed. *)
Definition sample_update_closed : ScarcityUpdateMessage :=
  {| su_artist := lit "Da Vinci"; su_event_type := lit "architecture";
     su_remaining_slots := 5; su_total_supply := 10;
     su_is_available := false; su_timestamp := 0 |}.

(** The server reports 12 slots left of a supply grown to 20. *)
Definition sample_update_resized : ScarcityUpdateMessage :=
  {| su_artist := lit "Da Vinci"; su_event_type := lit "architecture";
     su_remaining_slots := 12; su_total_supply := 20;
     su_is_available := true; su_timestamp := 0 |}.

(** The server reports 5 of 10 slots left and the combination open. *)
Definition sample_update : ScarcityUpdateMessage :=
  {| su_artist := lit "Da Vinci"; su_event_type := lit "architecture";
     su_remaining_slots := 5; su_total_supply := 10;
     su_is_available := true; su_timestamp := 0 |}.

End ScarcitySpec.

(** ** Vocabulary of the validation property *)

Module ValidationSpec.

Import Index.

(** The scarcity info that a list of combinations holds for an artist and
    an event type: that of the first combination with both. *)
Inductive cached (a e : jsstring)
  : list CombinationScarcityAPI -> ScarcityInfo -> Prop :=
| cached_here (c : CombinationScarcityAPI) (rest : list CombinationScarcityAPI) :
    artist c = a -> event_type c = e ->
    cached a e (c :: rest) (scarcity_info c)
| cached_later (c : CombinationScarcityAPI) (rest : list CombinationScarcityAPI)
    (info : ScarcityInfo) :
    ~ (artist c = a /\ event_type c = e) ->
    cached a e rest info ->
    cached a e (c :: rest) info.

(** No scarcity data is loaded for the artist and the event type. *)
Definition not_loaded (a e : jsstring)
    (combos : list CombinationScarcityAPI) : Prop :=
  forall c, In c combos -> ~ (artist c = a /\ event_type c = e).

(** [t] is [s] without its leading and its trailing white space. *)
Definition trimmed (s t : jsstring) : Prop :=
  exists before after,
    s = before ++ t ++ after
    /\ Forall (fun c => isWhiteSpace c = true) before
    /\ Forall (fun c => isWhiteSpace c = true) after
    /\ (forall c rest, t = c :: rest -> isWhiteSpace c = false)
    /\ (forall rest c, t = rest ++ [c] -> isWhiteSpace c = false).

End ValidationSpec.

(** ** Vocabulary of the retry property *)

Module RetrySpec.

Import Index.

(** What happens to the page between two presses of the retry button. *)
Inductive PageEvent :=
| PressRetry
| FetchStarts (isRetry : bool)
| FetchSettles (outcome : completion FetchedLists)
| NewMint (data : NewMintMessage)
| ScarcityUpdate (data : ScarcityUpdateMessage).

Definition handle (st : State) (ev : PageEvent) : State :=
  match ev with
  | PressRetry => retryFetchInitialData st
  | FetchStarts isRetry => fetchInitialData_start isRetry st
  | FetchSettles outcome => fetchInitialData_settle outcome st
  | NewMint data => handleNewMint data st
  | ScarcityUpdate data => handleScarcityUpdate data st
  end.

Definition run (trace : list PageEvent) (st : State) : State :=
  fold_left handle trace st.

(** A fetch succeeds when both requests resolve and both bodies carry their
    array. *)
Definition succeeds (outcome : completion FetchedLists) : bool :=
  match outcome with
  | Normal responses =>
      match fetched_artists responses, fetched_events responses with
      | Some _, Some _ => true
      | _, _ => false
      end
  | Throw _ => false
  end.

(** The number of presses since the last successful fetch, after [n]
    earlier ones. *)
Definition count_press (n : nat) (ev : PageEvent) : nat :=
  match ev with
  | PressRetry => S n
  | FetchSettles outcome => if succeeds outcome then O else n
  | _ => n
  end.

Definition presses_since_success (trace : list PageEvent) : nat :=
  fold_left count_press trace O.

(** The delay the specification gives to the [n]-th retry, [n >= 1]. *)
Definition backoff (n : Z) : Z := Z.min (1000 * 2 ^ (n - 1)) 5000.

End RetrySpec.

(** ** Sample platform and page *)

Module Samples.

Import Index.

(** A platform whose [crypto] fills with the byte 0xab (and refuses more
    than 65536 bytes at once, as Web Crypto prescribes), whose
    [Math.random()] prints as 0.8f3a in base 16 and as 0.k2x9 in base 36,
    whose clock stands at 1700000000000 ms and whose strings have at most
    [2^29 - 24] code units. *)
Definition platform : Platform :=
  {| getRandomValues :=
       fun _ n =>
         if Z.of_nat n <=? 65536 then Normal (repeat 171%N n)
         else Throw (ThrownError (lit "QuotaExceededError"));
     random_toString16 := fun _ => lit "0.8f3a";
     random_toString36 := fun _ => lit "0.k2x9";
     date_now := fun _ => 1700000000000;
     string_headroom := 268435448 |}.

(** The same platform without a usable [crypto]. *)
Definition platform_without_crypto : Platform :=
  {| getRandomValues :=
       fun _ _ => Throw (ThrownError (lit "crypto is not defined"));
     random_toString16 := fun _ => lit "0.8f3a";
     random_toString36 := fun _ => lit "0.k2x9";
     date_now := fun _ => 1700000000000;
     string_headroom := 268435448 |}.

Definition wallet_full : WalletInfo :=
  {| principal := lit "rrkah-fqaaa-aaaaa-aaaaq-cai";
     accountId := lit "a4f1c0de";
     isConnected := true;
     balance := None |}.

(** A wallet restored with a principal and no account id. *)
Definition wallet_principal_only : WalletInfo :=
  {| principal := lit "2vxsx-fae";
     accountId := [];
     isConnected := true;
     balance := None |}.

(** The page of [ScarcitySpec.sample_page] with a connected wallet and the
    first combination selected. *)
Definition ready_page : State :=
  {| mode := basic;
     customPrompt := [];
     selectedArtist := lit "Da Vinci";
     selectedEvent := lit "architecture";
     nftResult := None;
     evolutionPeriod := 30;
     wallet := Some wallet_full;
     loadingStates := loadingStates initialState;
     errors := errors initialState;
     artists := [lit "Da Vinci"; lit "Monet"];
     events := [lit "architecture"; lit "nature"];
     retryCount := 0;
     allCombinationsScarcity :=
       [ScarcitySpec.sample_combo; ScarcitySpec.other_combo];
     toasts := [];
     timers := [] |}.

(** The same page in advanced mode, with a prompt of five letters between
    blanks. *)
Definition advanced_page : State :=
  {| mode := advanced;
     customPrompt := lit "      a cat      ";
     selectedArtist := lit "Da Vinci";
     selectedEvent := lit "architecture";
     nftResult := None;
     evolutionPeriod := 30;
     wallet := Some wallet_full;
     loadingStates := loadingStates initialState;
     errors := errors initialState;
     artists := [lit "Da Vinci"; lit "Monet"];
     events := [lit "architecture"; lit "nature"];
     retryCount := 0;
     allCombinationsScarcity :=
       [ScarcitySpec.sample_combo; ScarcitySpec.other_combo];
     toasts := [];
     timers := [] |}.

Definition timeout_error : thrown :=
  ThrownAxios {| ax_message := lit "timeout of 25000ms exceeded";
                 ax_code := Some (lit "ECONNABORTED");
                 ax_response := None |}.

Definition rate_limit_error : thrown :=
  ThrownAxios {| ax_message := lit "Request failed with status code 429";
                 ax_code := Some (lit "ERR_BAD_REQUEST");
                 ax_response :=
                   Some {| status := 429;
                           data := Some {| data_error := Some (lit "slow down");
                                           data_message := None |} |} |}.

Definition server_error : thrown :=
  ThrownAxios {| ax_message := lit "Request failed with status code 500";
                 ax_code := Some (lit "ERR_BAD_RESPONSE");
                 ax_response := Some {| status := 500; data := None |} |}.

(** A 404 whose body explains itself in [message]. *)
Definition not_found_error : thrown :=
  ThrownAxios {| ax_message := lit "Request failed with status code 404";
                 ax_code := Some (lit "ERR_BAD_REQUEST");
                 ax_response :=
                   Some {| status := 404;
                           data := Some {| data_error := Some [];
                                           data_message :=
                                             Some (lit "no such route") |} |} |}.

(** A create-nft response that carries the id and nothing else. *)
Definition bare_nft : ServerNft :=
  {| srv_nft_id := Some (lit "nft-42");
     srv_image_url := Absent;
     srv_image_uri := None;
     srv_artist := None;
     srv_event_type := None;
     srv_version := None;
     srv_timestamp := None;
     srv_genetic_traits := None;
     srv_scarcity_info := None;
     srv_prompt := None;
     srv_evolution_history := None;
     srv_evolution_period_days := None |}.

(** One that names its image by [image_uri] instead of [image_url]. *)
Definition nft_with_image_uri : ServerNft :=
  {| srv_nft_id := Some (lit "nft-42");
     srv_image_url := Absent;
     srv_image_uri := Some (lit "ipfs://bafy42");
     srv_artist := None;
     srv_event_type := None;
     srv_version := None;
     srv_timestamp := None;
     srv_genetic_traits := None;
     srv_scarcity_info := None;
     srv_prompt := None;
     srv_evolution_history := None;
     srv_evolution_period_days := None |}.

End Samples.

(** ** Vocabulary of the NFT generation properties *)

Module GenerationSpec.

Import Index.

(** The state in which [handleUpdatePreview] enters its [try] block. *)
Definition entry_state (st : State) : State :=
  setLoadingStates (set_loading_nftGeneration true)
    (clearErrors_validation (clearErrors_nftGeneration st)).

Definition failure_toast : Toast :=
  {| kind := toast_error; title := lit "Failed to generate NFT." |}.

(** The failure is an axios error with code ECONNABORTED. *)
Definition timed_out (error : thrown) : Prop :=
  exists e, error = ThrownAxios e /\ ax_code e = Some (lit "ECONNABORTED").

(** The failure is an axios error that carries an HTTP response with the
    status [n]. *)
Definition answered_with (n : Z) (error : thrown) : Prop :=
  exists e r,
    error = ThrownAxios e /\ ax_response e = Some r /\ status r = n.

(** The first of the texts that is present and not empty. *)
Fixpoint first_text (candidates : list (option jsstring))
    (otherwise : jsstring) : jsstring :=
  match candidates with
  | [] => otherwise
  | Some (c :: text) :: _ => c :: text
  | _ :: rest => first_text rest otherwise
  end.

(** The [error] and the [message] of the body of the response of an axios
    error, when there are a response, a body and the property. *)
Definition body_text (field : AxiosResponseData -> option jsstring)
    (e : AxiosError) : option jsstring :=
  match ax_response e with
  | Some r => match data r with Some body => field body | None => None end
  | None => None
  end.

(** The three errors with a fixed text. *)
Definition timeout_stored : APIError :=
  {| message := lit "NFT generation timed out. The server may be busy, please try again.";
     err_status := None;
     code := Some (lit "TIMEOUT") |}.

Definition rate_limit_stored : APIError :=
  {| message := lit "Too many requests. Please wait a moment before trying again.";
     err_status := Some 429;
     code := Some (lit "RATE_LIMIT") |}.

Definition server_error_stored : APIError :=
  {| message := lit "Server error occurred during NFT generation. Please try again.";
     err_status := Some 500;
     code := Some (lit "SERVER_ERROR") |}.

(** The generic error of the specification: for an axios error, the text
    of the response (its [error], else its [message]), else the message of
    the exception, with the status of the response and the code of the
    error; for another exception its message and the context; a fixed
    text for what is not an exception. *)
Definition generic (error : thrown) (stored : APIError) : Prop :=
  message stored <> []
  /\ (forall e, error = ThrownAxios e ->
      message stored
      = first_text [body_text data_error e; body_text data_message e;
                    Some (ax_message e)]
          (lit "Network error occurred while generating NFT")
      /\ err_status stored = option_map status (ax_response e)
      /\ code stored = ax_code e)
  /\ (forall text, error = ThrownError text ->
      stored = {| message := text ++ lit " while generating NFT";
                  err_status := None; code := None |})
  /\ (error = ThrownOther ->
      stored = {| message := lit "Unknown error occurred while generating NFT";
                  err_status := None; code := None |}).

End GenerationSpec.

(** ** Vocabulary of the random-hex and uniqueness properties *)

Module PlatformSpec.

Import Index.

(** [crypto.getRandomValues], when it returns, has filled the whole array
    with bytes. *)
Definition bytes_ok (P : Platform) : Prop :=
  forall k n bytes,
    getRandomValues P k n = Normal bytes ->
    length bytes = n /\ Forall (fun b => (b < 256)%N) bytes.

(** [Math.random()] is in [0, 1), so in base 16 it prints as 0, or as 0.
    followed by lowercase hexadecimal digits. *)
Definition random16_ok (P : Platform) : Prop :=
  forall k,
    random_toString16 P k = lit "0"
    \/ exists digits,
        random_toString16 P k = lit "0." ++ digits
        /\ Forall (fun c => isLowerHex c = true) digits.

(** The last 16 code units of a string (all of it when it is shorter). *)
Definition last16 (s : jsstring) : jsstring := skipn (length s - 16) s.

(** The last 16 code units, left-padded with the digit 0 to length 16. *)
Definition padded_last16 (s : jsstring) : jsstring :=
  repeat 48%N (16 - length (last16 s)) ++ last16 s.

End PlatformSpec.

(** ** The form of the main page: selections and the generate button *)

Module IndexForm.

Import Index.

(** The remaining [useState] setters of the page. *)

Definition setMode (m : Mode) (st : State) : State :=
  {| mode := m; customPrompt := customPrompt st;
     selectedArtist := selectedArtist st; selectedEvent := selectedEvent st;
     nftResult := nftResult st; evolutionPeriod := evolutionPeriod st;
     wallet := wallet st; loadingStates := loadingStates st;
     errors := errors st; artists := artists st; events := events st;
     retryCount := retryCount st;
     allCombinationsScarcity := allCombinationsScarcity st;
     toasts := toasts st; timers := timers st |}.

Definition setCustomPrompt (p : jsstring) (st : State) : State :=
  {| mode := mode st; customPrompt := p;
     selectedArtist := selectedArtist st; selectedEvent := selectedEvent st;
     nftResult := nftResult st; evolutionPeriod := evolutionPeriod st;
     wallet := wallet st; loadingStates := loadingStates st;
     errors := errors st; artists := artists st; events := events st;
     retryCount := retryCount st;
     allCombinationsScarcity := allCombinationsScarcity st;
     toasts := toasts st; timers := timers st |}.

Definition setSelectedArtist (a : jsstring) (st : State) : State :=
  {| mode := mode st; customPrompt := customPrompt st;
     selectedArtist := a; selectedEvent := selectedEvent st;
     nftResult := nftResult st; evolutionPeriod := evolutionPeriod st;
     wallet := wallet st; loadingStates := loadingStates st;
     errors := errors st; artists := artists st; events := events st;
     retryCount := retryCount st;
     allCombinationsScarcity := allCombinationsScarcity st;
     toasts := toasts st; timers := timers st |}.

Definition setSelectedEvent (e : jsstring) (st : State) : State :=
  {| mode := mode st; customPrompt := customPrompt st;
     selectedArtist := selectedArtist st; selectedEvent := e;
     nftResult := nftResult st; evolutionPeriod := evolutionPeriod st;
     wallet := wallet st; loadingStates := loadingStates st;
     errors := errors st; artists := artists st; events := events st;
     retryCount := retryCount st;
     allCombinationsScarcity := allCombinationsScarcity st;
     toasts := toasts st; timers := timers st |}.

Definition setEvolutionPeriod (days : Z) (st : State) : State :=
  {| mode := mode st; customPrompt := customPrompt st;
     selectedArtist := selectedArtist st; selectedEvent := selectedEvent st;
     nftResult := nftResult st; evolutionPeriod := days;
     wallet := wallet st; loadingStates := loadingStates st;
     errors := errors st; artists := artists st; events := events st;
     retryCount := retryCount st;
     allCombinationsScarcity := allCombinationsScarcity st;
     toasts := toasts st; timers := timers st |}.

Definition setWallet (w : option WalletInfo) (st : State) : State :=
  {| mode := mode st; customPrompt := customPrompt st;
     selectedArtist := selectedArtist st; selectedEvent := selectedEvent st;
     nftResult := nftResult st; evolutionPeriod := evolutionPeriod st;
     wallet := w; loadingStates := loadingStates st;
     errors := errors st; artists := artists st; events := events st;
     retryCount := retryCount st;
     allCombinationsScarcity := allCombinationsScarcity st;
     toasts := toasts st; timers := timers st |}.

(** The [onChange] handlers of the two selects and of the prompt. *)
Definition onArtistChange (value : jsstring) (st : State) : State :=
  clearErrors_validation (setSelectedArtist value st).

Definition onEventChange (value : jsstring) (st : State) : State :=
  clearErrors_validation (setSelectedEvent value st).

Definition onPromptChange (value : jsstring) (st : State) : State :=
  clearErrors_validation (setCustomPrompt value st).

(** The [disabled] flag of the option that the event select renders for
    [event]: [comboScarcityInfo?.is_sold_out || false]. *)
Definition eventOptionDisabled (event : jsstring) (st : State) : bool :=
  match getScarcityForCombination (selectedArtist st) event st with
  | Some info => is_sold_out info || false
  | None => false
  end.

(** The [disabled] expression of the generate button. *)
Definition generateDisabled (st : State) : bool :=
  match wallet st with None => true | Some _ => false end
  || initialData (loadingStates st)
  || nftGeneration (loadingStates st)
  || match mode st with
     | basic =>
         negb (truthy_str (selectedArtist st))
         || negb (truthy_str (selectedEvent st))
         || match getScarcityForCombination
                    (selectedArtist st) (selectedEvent st) st with
            | Some info => is_sold_out info
            | None => true
            end
     | advanced => false
     end
  || match mode st with
     | advanced => negb (truthy_str (trim (customPrompt st)))
     | basic => false
     end.

(** [fetchAllCombinationsScarcity] from the moment the request settles:
    the [combinations] array of the body ([None] when the property is
    missing or not an array), or what [axios.get] throws. *)
Definition fetchAllCombinationsScarcity_settle
    (outcome : completion (option (list CombinationScarcityAPI)))
    (st : State) : State :=
  let set_combinations (b : bool) (l : LoadingStates) :=
    {| initialData := initialData l; nftGeneration := nftGeneration l;
       combinations := b; xAuth := xAuth l;
       loading_wallet := loading_wallet l |} in
  setLoadingStates (set_combinations false)
    (match outcome with
     | Normal (Some fetched) => setAllCombinationsScarcity (fun _ => fetched) st
     | Normal None => st
     | Throw _ =>
         showToast toast_error
           (lit "Failed to load combination scarcity data.") st
     end).

End IndexForm.

(** ** More sample data *)

Module MoreSamples.

Import Index IndexForm.

(** The sample page with the second combination selected: one slot left. *)
Definition monet_page : State :=
  onEventChange (lit "nature") (onArtistChange (lit "Monet") Samples.ready_page).

Definition monet_mint : NewMintMessage :=
  {| nm_nft_id := lit "nft-0002"; nm_name := [];
     nm_image_url := []; nm_artist := lit "Monet";
     nm_event_type := lit "nature"; nm_owner_address := lit "bbbbb-bb";
     nm_canister_id := []; nm_timestamp := 0 |}.

(** The sample page with an event selected for which nothing is cached. *)
Definition uncached_page : State :=
  onEventChange (lit "portrait") Samples.ready_page.

(** A create-nft response with every property. *)
Definition full_nft : ServerNft :=
  {| srv_nft_id := Some (lit "nft-77");
     srv_image_url := Present (lit "/images/nft-77.png");
     srv_image_uri := None;
     srv_artist := Some (lit "Da Vinci");
     srv_event_type := Some (lit "architecture");
     srv_version := Some 1;
     srv_timestamp := Some 1700000000;
     srv_genetic_traits := Some zero_traits;
     srv_scarcity_info := Some (scarcity_info ScarcitySpec.sample_combo);
     srv_prompt := Some (lit "Da Vinci style architecture");
     srv_evolution_history := Some [];
     srv_evolution_period_days := Some 30 |}.

End MoreSamples.

(** ** Vocabulary of the response property *)

Module ResponseSpec.

Import Index.

(** The NFT object that [handleUpdatePreview] takes from a response: the
    body itself when it has the key [nft_id], else its [nft], [data] or
    [result] property, in that order. *)
Definition carries (resp : ResponseData) (nft : ServerNft) : Prop :=
  resp = DataNft nft
  \/ (exists d r keys, resp = DataEnvelope (Some nft) d r keys)
  \/ (exists r keys, resp = DataEnvelope None (Some nft) r keys)
  \/ (exists keys, resp = DataEnvelope None None (Some nft) keys).

End ResponseSpec.

(** ** The page with its browser session

    The state of [Index] that the scarcity and generation code does not
    read (the X connection, the WebSocket flag), together with what the
    page keeps outside React: the two items of [localStorage], the query
    string, and the address it navigates to. An item of [localStorage] is
    modelled by what [JSON.parse] makes of it: [JSON.stringify] of a record
    of strings, booleans and numbers parses back to that record. *)

Module Session.

Import Index IndexForm.

Inductive Item (A : Type) :=
| Parsed (a : A)
| Unparsable.
Arguments Parsed {A} a.
Arguments Unparsable {A}.

(** The object stored under [x-auth-status]. *)
Record XAuthStatus := {
  stored_isConnected : bool;
  stored_username : jsstring;
  stored_userId : jsstring;
  stored_walletPrincipal : jsstring;
  stored_timestamp : Z
}.

Record Storage := {
  connected_wallet : option (Item WalletInfo);
  x_auth_status : option (Item XAuthStatus)
}.

(** [URLSearchParams.get] of the seven parameters the page reads. *)
Record SearchParams := {
  auth_status : option jsstring;
  platform : option jsstring;
  username : option jsstring;
  user_id : option jsstring;
  wallet_principal : option jsstring;
  error_message : option jsstring;
  details : option jsstring
}.

Definition no_params : SearchParams :=
  {| auth_status := None; platform := None; username := None;
     user_id := None; wallet_principal := None; error_message := None;
     details := None |}.

Record t := {
  page : State;
  isXConnected : bool;
  xUsername : option jsstring;
  xUserId : option jsstring;
  isWebSocketConnected : bool;
  localStorage : Storage;
  search : SearchParams;
  location_href : option jsstring;
  (** An effect of the page threw. No error boundary catches what an
      effect throws, so React then takes the page down. *)
  effect_threw : bool
}.

(** A page that has just been loaded. *)
Definition fresh (storage : Storage) (params : SearchParams) : t :=
  {| page := initialState;
     isXConnected := false; xUsername := None; xUserId := None;
     isWebSocketConnected := false;
     localStorage := storage; search := params; location_href := None;
     effect_threw := false |}.

Definition onPage (f : State -> State) (s : t) : t :=
  {| page := f (page s);
     isXConnected := isXConnected s; xUsername := xUsername s;
     xUserId := xUserId s; isWebSocketConnected := isWebSocketConnected s;
     localStorage := localStorage s; search := search s;
     location_href := location_href s;
     effect_threw := effect_threw s |}.

(** [setIsXConnected], [setXUsername] and [setXUserId] together. *)
Definition setX (connected : bool) (name userId : option jsstring) (s : t) : t :=
  {| page := page s;
     isXConnected := connected; xUsername := name; xUserId := userId;
     isWebSocketConnected := isWebSocketConnected s;
     localStorage := localStorage s; search := search s;
     location_href := location_href s;
     effect_threw := effect_threw s |}.

Definition setIsWebSocketConnected (b : bool) (s : t) : t :=
  {| page := page s;
     isXConnected := isXConnected s; xUsername := xUsername s;
     xUserId := xUserId s; isWebSocketConnected := b;
     localStorage := localStorage s; search := search s;
     location_href := location_href s;
     effect_threw := effect_threw s |}.

Definition setStorage (f : Storage -> Storage) (s : t) : t :=
  {| page := page s;
     isXConnected := isXConnected s; xUsername := xUsername s;
     xUserId := xUserId s; isWebSocketConnected := isWebSocketConnected s;
     localStorage := f (localStorage s); search := search s;
     location_href := location_href s;
     effect_threw := effect_threw s |}.

(** [window.history.replaceState({}, title, pathname)]: the query string
    is dropped. *)
Definition clearSearch (s : t) : t :=
  {| page := page s;
     isXConnected := isXConnected s; xUsername := xUsername s;
     xUserId := xUserId s; isWebSocketConnected := isWebSocketConnected s;
     localStorage := localStorage s; search := no_params;
     location_href := location_href s;
     effect_threw := effect_threw s |}.

Definition navigate (url : jsstring) (s : t) : t :=
  {| page := page s;
     isXConnected := isXConnected s; xUsername := xUsername s;
     xUserId := xUserId s; isWebSocketConnected := isWebSocketConnected s;
     localStorage := localStorage s; search := search s;
     location_href := Some url;
     effect_threw := effect_threw s |}.

Definition throwInEffect (s : t) : t :=
  {| page := page s;
     isXConnected := isXConnected s; xUsername := xUsername s;
     xUserId := xUserId s; isWebSocketConnected := isWebSocketConnected s;
     localStorage := localStorage s; search := search s;
     location_href := location_href s;
     effect_threw := true |}.

Definition store_wallet (item : option (Item WalletInfo)) (st : Storage) : Storage :=
  {| connected_wallet := item; x_auth_status := x_auth_status st |}.

Definition store_x_auth (item : option (Item XAuthStatus)) (st : Storage) : Storage :=
  {| connected_wallet := connected_wallet st; x_auth_status := item |}.

Definition set_loading_wallet (b : bool) (l : LoadingStates) : LoadingStates :=
  {| initialData := initialData l; nftGeneration := nftGeneration l;
     combinations := combinations l; xAuth := xAuth l; loading_wallet := b |}.

Definition set_loading_xAuth (b : bool) (l : LoadingStates) : LoadingStates :=
  {| initialData := initialData l; nftGeneration := nftGeneration l;
     combinations := combinations l; xAuth := b;
     loading_wallet := loading_wallet l |}.

Definition set_err_xAuth (e : option jsstring) (es : Errors) : Errors :=
  {| err_initialization := err_initialization es;
     err_nftGeneration := err_nftGeneration es;
     err_validation := err_validation es; err_wallet := err_wallet es;
     err_websocket := err_websocket es; err_xAuth := e |}.

Definition set_err_websocket (e : option jsstring) (es : Errors) : Errors :=
  {| err_initialization := err_initialization es;
     err_nftGeneration := err_nftGeneration es;
     err_validation := err_validation es; err_wallet := err_wallet es;
     err_websocket := e; err_xAuth := err_xAuth es |}.

(** *** The wallet and [localStorage] *)

(** The effect [checkWalletState]: a parse failure is caught and logged. *)
Definition checkWalletState (s : t) : t :=
  match connected_wallet (localStorage s) with
  | Some (Parsed walletData) =>
      if truthy_str (principal walletData)
         || truthy_str (accountId walletData)
      then onPage (setWallet (Some walletData)) s
      else s
  | Some Unparsable => s
  | None => s
  end.

(** [handleWalletConnected]; [quota] tells whether [localStorage.setItem]
    returns ([true]) or throws. *)
Definition handleWalletConnected (walletInfo : WalletInfo) (quota : bool)
    (s : t) : t :=
  let s1 :=
    onPage (fun st => setLoadingStates (set_loading_wallet false)
                        (setWallet (Some walletInfo) st)) s in
  if quota then
    onPage (showToast toast_success (lit "Wallet connected successfully!"))
      (setStorage (store_wallet (Some (Parsed walletInfo))) s1)
  else
    onPage (showToast toast_error
              (lit "Failed to save wallet connection. Please try again.")) s1.

Definition handleWalletDisconnected (s : t) : t :=
  let s1 :=
    onPage (fun st => setLoadingStates (set_loading_wallet false)
                        (setWallet None st)) s in
  let s2 := setX false None None s1 in
  let s3 := setStorage (store_x_auth None)
              (setStorage (store_wallet None) s2) in
  onPage (showToast toast_info (lit "Wallet disconnected."))
    (setStorage (store_wallet None) s3).

(** *** The X account *)

Definition is_str (expected : jsstring) (v : option jsstring) : bool :=
  match v with Some s => str_eqb s expected | None => false end.

Definition truthy_opt (v : option jsstring) : bool :=
  match v with Some s => truthy_str s | None => false end.

(** The effect that handles the OAuth redirect, run at the clock [now];
    [quota] tells whether its [localStorage.setItem] returns ([true]) or
    throws. The call is not guarded: when it throws, the effect throws
    after its three state setters, before the toast and before
    [replaceState]. *)
Definition oauthEffect (now : Z) (quota : bool) (s : t) : t :=
  let params := search s in
  if is_str (lit "success") (auth_status params)
     && is_str (lit "x") (platform params)
     && truthy_opt (username params)
     && truthy_opt (user_id params)
     && truthy_opt (wallet_principal params)
  then
    let s1 := setX true (username params) (user_id params) s in
    let item :=
      {| stored_isConnected := true;
         stored_username := template_null (username params);
         stored_userId := template_null (user_id params);
         stored_walletPrincipal := template_null (wallet_principal params);
         stored_timestamp := now |} in
    if quota then
      clearSearch
        (onPage (showToast toast_success
                   (lit "Connected to X as @"
                    ++ template_null (username params) ++ lit "!"))
           (setStorage (store_x_auth (Some (Parsed item))) s1))
    else throwInEffect s1
  else if is_str (lit "error") (auth_status params)
          && is_str (lit "x") (platform params)
  then
    let errorMsg :=
      opt_str_or (error_message params)
        (lit "Unknown error during X authentication.") in
    let detailedError :=
      if truthy_opt (details params)
      then errorMsg ++ lit " Details: " ++ template_null (details params)
      else errorMsg in
    clearSearch
      (onPage (fun st =>
                 showToast toast_error (lit "Failed to connect to X.")
                   (setErrors (set_err_xAuth (Some detailedError)) st))
         (setStorage (store_x_auth None) (setX false None None s)))
  else
    match x_auth_status (localStorage s) with
    | Some (Parsed authData) =>
        if stored_isConnected authData
           && truthy_str (stored_username authData)
           && truthy_str (stored_userId authData)
        then setX true (Some (stored_username authData))
               (Some (stored_userId authData)) s
        else s
    | Some Unparsable => setStorage (store_x_auth None) s
    | None => s
    end.

(** The two effects that read [localStorage], in the order of the source,
    on a page that has just been loaded. *)
Definition mount (now : Z) (quota : bool) (storage : Storage)
    (params : SearchParams) : t :=
  oauthEffect now quota (checkWalletState (fresh storage params)).

Definition handleConnectXAccount (s : t) : t :=
  match wallet (page s) with
  | Some w =>
      if truthy_str (principal w) then
        let s1 :=
          onPage (fun st =>
                    setErrors (set_err_xAuth None)
                      (setLoadingStates (set_loading_xAuth true) st)) s in
        let s2 :=
          navigate (lit "http://localhost:5000/api/auth/x-initiate?wallet_principal="
                    ++ principal w) s1 in
        onPage (setLoadingStates (set_loading_xAuth false)) s2
      else
        onPage (showToast toast_error
                  (lit "Please connect your wallet first to link your X account.")) s
  | None =>
      onPage (showToast toast_error
                (lit "Please connect your wallet first to link your X account.")) s
  end.

(** *** The connection events of the page's socket *)

Inductive SocketEvent :=
| Connect
| Disconnect (reason : jsstring)
| ConnectError (err_message : jsstring).

Definition onSocketEvent (ev : SocketEvent) (s : t) : t :=
  match ev with
  | Connect =>
      onPage (setErrors (set_err_websocket None))
        (setIsWebSocketConnected true s)
  | Disconnect reason =>
      onPage (setErrors
                (set_err_websocket
                   (Some (lit "WebSocket disconnected: " ++ reason
                          ++ lit ". Attempting to reconnect..."))))
        (setIsWebSocketConnected false s)
  | ConnectError err_message =>
      onPage (setErrors
                (set_err_websocket
                   (Some (lit "WebSocket connection error: " ++ err_message
                          ++ lit ". Retrying..."))))
        (setIsWebSocketConnected false s)
  end.

(** What can happen to the page: a connection event of its socket, or one
    of the page events of [RetrySpec]. *)
Inductive Event :=
| OfSocket (ev : SocketEvent)
| OfPage (ev : RetrySpec.PageEvent).

Definition handle (s : t) (ev : Event) : t :=
  match ev with
  | OfSocket e => onSocketEvent e s
  | OfPage e => onPage (fun st => RetrySpec.handle st e) s
  end.

Definition run (trace : list Event) (s : t) : t := fold_left handle trace s.

(** The last connection event of a trace, if any. *)
Fixpoint last_socket_event (trace : list Event) : option SocketEvent :=
  match trace with
  | [] => None
  | OfSocket e :: rest =>
      match last_socket_event rest with
      | Some e' => Some e'
      | None => Some e
      end
  | OfPage _ :: rest => last_socket_event rest
  end.

(** *** The evolution room of the NFT on display *)

(** [nftResult?.id], as a truthy string or nothing. *)
Definition displayed_id (st : State) : option jsstring :=
  match nftResult st with
  | Some nft => str_or_null (id nft)
  | None => None
  end.

(** The effect that joins the room: [socketRef.current] after the run. *)
Definition evolutionRoomEffect {H : Type} (s : t)
    (socketRef : option (Socket.t H)) : option (Socket.t H) :=
  match displayed_id (page s), socketRef with
  | Some nft_id, Some socket =>
      if isWebSocketConnected s
      then Some (Socket.emit (lit "join_evolution_room")
                   (Socket.NftRoom nft_id) socket)
      else Some socket
  | _, _ => socketRef
  end.

(** Its cleanup, for the render [s] that created it and the
    [socketRef.current] of the time it is called. *)
Definition evolutionRoomCleanup {H : Type} (s : t)
    (socketRef : option (Socket.t H)) : option (Socket.t H) :=
  match socketRef, displayed_id (page s) with
  | Some socket, Some nft_id =>
      Some (Socket.emit (lit "leave_evolution_room")
              (Socket.NftRoom nft_id) socket)
  | _, _ => socketRef
  end.

End Session.

(** ** Sample sessions *)

Module SessionSamples.

Import Index Session.

Definition empty_storage : Storage :=
  {| connected_wallet := None; x_auth_status := None |}.

(** The query string of a successful OAuth redirect. *)
Definition success_params : SearchParams :=
  {| auth_status := Some (lit "success");
     platform := Some (lit "x");
     username := Some (lit "picha_fan");
     user_id := Some (lit "4711");
     wallet_principal := Some (lit "2vxsx-fae");
     error_message := None;
     details := None |}.

(** The query string of a failed one. *)
Definition error_params : SearchParams :=
  {| auth_status := Some (lit "error");
     platform := Some (lit "x");
     username := None;
     user_id := None;
     wallet_principal := None;
     error_message := Some (lit "access_denied");
     details := Some (lit "user cancelled") |}.

(** The page loaded by the successful redirect, nothing stored yet. *)
Definition redirected : t := fresh empty_storage success_params.

(** A page whose stored X connection is from an earlier visit. *)
Definition linked_storage : Storage :=
  {| connected_wallet := None;
     x_auth_status :=
       Some (Parsed {| stored_isConnected := true;
                       stored_username := lit "picha_fan";
                       stored_userId := lit "4711";
                       stored_walletPrincipal := lit "2vxsx-fae";
                       stored_timestamp := 1700000000000 |}) |}.

End SessionSamples.

(** ** Vocabulary of the socket status property *)

Module SocketStatusSpec.

Import Index Session.

(** What the page shows of its socket after the connection event [ev]. *)
Definition shows (ev : SocketEvent) (s : t) : Prop :=
  match ev with
  | Connect =>
      isWebSocketConnected s = true
      /\ err_websocket (errors (page s)) = None
  | Disconnect reason =>
      isWebSocketConnected s = false
      /\ err_websocket (errors (page s))
         = Some (lit "WebSocket disconnected: " ++ reason
                 ++ lit ". Attempting to reconnect...")
  | ConnectError err_message =>
      isWebSocketConnected s = false
      /\ err_websocket (errors (page s))
         = Some (lit "WebSocket connection error: " ++ err_message
                 ++ lit ". Retrying...")
  end.

End SocketStatusSpec.

(** ** [WalletConnector] and its mock authentication client *)

Module WalletConnector.

(** [s.charAt(i)]: the empty string out of range. *)
Definition charAt (s : jsstring) (i : nat) : jsstring :=
  match nth_error s i with
  | Some c => [c]
  | None => []
  end.

Definition chars : jsstring := lit "abcdefghijklmnopqrstuvwxyz234567".

(** The test after which iteration [i] appends a hyphen. *)
Definition hyphen_after (i : nat) : bool :=
  Nat.eqb i 4 || Nat.eqb i 9 || Nat.eqb i 14 || Nat.eqb i 19 || Nat.eqb i 24.

(** One iteration of the loop of [generateMockPrincipal]; [draw i] is
    [Math.floor(Math.random() * chars.length)] of iteration [i]. *)
Definition mockPrincipal_step (draw : nat -> nat) (result : jsstring) (i : nat)
  : jsstring :=
  let result := result ++ charAt chars (draw i) in
  if hyphen_after i then result ++ lit "-" else result.

Definition generateMockPrincipal (draw : nat -> nat) : jsstring :=
  fold_left (mockPrincipal_step draw) (seq 0 27) [] ++ lit "-cai".

(** The mutable state of a [MockAuthClient]; the identity is kept by its
    principal text. *)
Record MockAuthClient := {
  authenticated : bool;
  identity : option jsstring
}.

Definition create : MockAuthClient :=
  {| authenticated := false; identity := None |}.

(** [client.getIdentity().getPrincipal().toString()], and the client
    after the call. *)
Definition getIdentity (draw : nat -> nat) (client : MockAuthClient)
  : jsstring * MockAuthClient :=
  match identity client with
  | Some principal => (principal, client)
  | None =>
      let mockPrincipalId := generateMockPrincipal draw in
      (mockPrincipalId,
       {| authenticated := authenticated client;
          identity := Some mockPrincipalId |})
  end.

(** The client once the timer of [login] has fired. *)
Definition login (draw : nat -> nat) (client : MockAuthClient) : MockAuthClient :=
  {| authenticated := true; identity := Some (generateMockPrincipal draw) |}.

Definition logout (client : MockAuthClient) : MockAuthClient :=
  {| authenticated := false; identity := None |}.

(** Both branches of [generateAccountId] end in [substring(0, 32)];
    [MockPrincipal.fromText] does not throw. *)
Definition generateAccountId (principalId : jsstring) : jsstring :=
  substring principalId 0 32.

Definition formatPrincipal (principal : jsstring) : jsstring :=
  if len principal <=? 12 then principal
  else substring principal 0 8 ++ lit "..."
       ++ substring principal (len principal - 4) (len principal).

Record WalletError := {
  error_code : jsstring;
  error_text : jsstring
}.

Record AuthState := {
  isConnected : bool;
  principal : option jsstring;
  loading : bool;
  error : option WalletError
}.

(** The component: its client object and its [authState]. *)
Record t := {
  authClient : option MockAuthClient;
  authState : AuthState
}.

Definition initial : t :=
  {| authClient := None;
     authState := {| isConnected := false; principal := None;
                     loading := true; error := None |} |}.

(** The [WalletInfo] that the component hands to its parent. *)
Definition walletInfoOf (principalText : jsstring) : Index.WalletInfo :=
  {| Index.principal := principalText;
     Index.accountId := generateAccountId principalText;
     Index.isConnected := true;
     Index.balance := None |}.

Section Callbacks.

(** The parent and the two callbacks it passes as props. *)
Variable Parent : Type.
Variable onWalletConnected : Index.WalletInfo -> Parent -> Parent.
Variable onWalletDisconnected : Parent -> Parent.

(** [checkAuthStatus(client)] for the client the component holds. *)
Definition checkAuthStatus (draw : nat -> nat) (c : t) (parent : Parent)
  : t * Parent :=
  match authClient c with
  | Some client =>
      if authenticated client then
        let (principalText, client') := getIdentity draw client in
        ({| authClient := Some client';
            authState := {| isConnected := true;
                            principal := Some principalText;
                            loading := false; error := None |} |},
         onWalletConnected (walletInfoOf principalText) parent)
      else
        ({| authClient := Some client;
            authState := {| isConnected := isConnected (authState c);
                            principal := principal (authState c);
                            loading := false;
                            error := error (authState c) |} |},
         parent)
  | None => (c, parent)
  end.

(** The mount effect: a new client, then [checkAuthStatus]. *)
Definition initializeAuth (draw : nat -> nat) (c : t) (parent : Parent)
  : t * Parent :=
  checkAuthStatus draw
    {| authClient := Some create; authState := authState c |} parent.

(** [handleConnect] up to the end of its [try] block; the mock [login]
    always calls [onSuccess]. *)
Definition handleConnect (draw : nat -> nat) (c : t) (parent : Parent)
  : t * Parent :=
  match authClient c with
  | None =>
      ({| authClient := None;
          authState :=
            {| isConnected := isConnected (authState c);
               principal := principal (authState c);
               loading := loading (authState c);
               error := Some {| error_code := lit "CLIENT_NOT_READY";
                                error_text := lit "Authentication client is not ready" |} |} |},
       parent)
  | Some client =>
      let client1 := login draw client in
      let (principalText, client2) := getIdentity draw client1 in
      ({| authClient := Some client2;
          authState := {| isConnected := true;
                          principal := Some principalText;
                          loading := false; error := None |} |},
       onWalletConnected (walletInfoOf principalText) parent)
  end.

Definition handleDisconnect (c : t) (parent : Parent) : t * Parent :=
  match authClient c with
  | None => (c, parent)
  | Some client =>
      ({| authClient := Some (logout client);
          authState := {| isConnected := false; principal := None;
                          loading := false; error := None |} |},
       onWalletDisconnected parent)
  end.

End Callbacks.

Arguments checkAuthStatus {Parent} _ _ _ _.
Arguments initializeAuth {Parent} _ _ _ _.
Arguments handleConnect {Parent} _ _ _ _.
Arguments handleDisconnect {Parent} _ _ _.

(** The code unit drawn by iteration [i], and a run of them. *)
Definition drawn (draw : nat -> nat) (i : nat) : N := nth (draw i) chars 0%N.

Definition group (draw : nat -> nat) (first count : nat) : jsstring :=
  map (drawn draw) (seq first count).

(** The component inside the page: the parent is the session, the
    callbacks are the page's handlers. A component that has just been
    mounted has run its mount effect. *)
Definition mounted (draw : nat -> nat) (quota : bool) (s : Session.t)
  : t * Session.t :=
  initializeAuth (fun w => Session.handleWalletConnected w quota) draw initial s.

(** [!!wallet], the [isConnected] prop of the [ConnectionCard] around the
    component. *)
Definition hasWallet (s : Session.t) : bool :=
  match Index.wallet (Session.page s) with Some _ => true | None => false end.

(** The page renders again after a callback. [ConnectionCard] puts its
    children under a [div] when [isConnected] is true and under a fragment
    when it is false: when the wallet of the page has appeared or
    disappeared, the element above the component has changed its type, so
    React unmounts the component and mounts a new one in its place. *)
Definition rerender (draw : nat -> nat) (quota : bool) (before : Session.t)
    (after : t * Session.t) : t * Session.t :=
  if Bool.eqb (hasWallet before) (hasWallet (snd after)) then after
  else mounted draw quota (snd after).

(** A press of the component's connect button, and of its disconnect
    button, up to the next render of the page. *)
Definition connect (draw : nat -> nat) (quota : bool) (c : t) (s : Session.t)
  : t * Session.t :=
  rerender draw quota s
    (handleConnect (fun w => Session.handleWalletConnected w quota) draw c s).

Definition disconnect (draw : nat -> nat) (quota : bool) (c : t)
    (s : Session.t) : t * Session.t :=
  rerender draw quota s
    (handleDisconnect Session.handleWalletDisconnected c s).

(** The component shows its disconnect button when
    [authState.isConnected && authState.principal], and its connect button
    otherwise. *)
Definition showsDisconnect (c : t) : bool :=
  isConnected (authState c)
  && match principal (authState c) with
     | Some p => truthy_str p
     | None => false
     end.

End WalletConnector.

(** ** [ScarcityIndicator]: the effect that follows the props *)

Module ScarcityIndicatorSync.

Import ScarcityIndicator.

(** The effect with the dependencies [initialRemainingSlots] and
    [initialTotalSupply]: after a render whose two props are those of the
    previous render it does not run; otherwise it copies both into the
    state. *)
Definition syncInitial (previous current : Props) (st : State) : State :=
  if (initialRemainingSlots previous =? initialRemainingSlots current)
     && (initialTotalSupply previous =? initialTotalSupply current)
  then st
  else {| remainingSlots := initialRemainingSlots current;
          totalSupply := initialTotalSupply current |}.

(** A [scarcity_update] message handled by the component rendered by
    [page], followed by the render of the page that the callback changed:
    the state of the component and the page after both. *)
Definition update_and_rerender (data : Index.ScarcityUpdateMessage)
    (st : State) (page : Index.State) : State * Index.State :=
  let (st', page') := handleScarcityUpdate (pageProps page) data st page in
  (syncInitial (pageProps page) (pageProps page') st', page').

End ScarcityIndicatorSync.

(** ** [parseInt] and the evolution-interval select *)

Module EvolutionSelect.

Import Index IndexForm.

(** The value of a code unit as a digit of the radix, if it is one. *)
Definition digit_value (radix c : N) : option N :=
  let v :=
    if ((48 <=? c) && (c <=? 57))%N then Some (c - 48)%N
    else if ((97 <=? c) && (c <=? 122))%N then Some (c - 87)%N
    else if ((65 <=? c) && (c <=? 90))%N then Some (c - 55)%N
    else None in
  match v with
  | Some d => if (d <? radix)%N then Some d else None
  | None => None
  end.

(** The value of the longest prefix of digits, [acc] being the value of
    the digits read so far ([None]: none yet). *)
Fixpoint parse_digits (radix : N) (s : jsstring) (acc : option N) : option N :=
  match s with
  | c :: s' =>
      match digit_value radix c with
      | Some d =>
          parse_digits radix s'
            (Some (match acc with
                   | Some a => a * radix + d
                   | None => d
                   end)%N)
      | None => acc
      end
  | [] => acc
  end.

(** [parseInt(s)] without a radix argument; [None] is [NaN]. Leading white
    space is skipped, a sign is read, a prefix 0x or 0X selects radix 16. *)
Definition parseInt (s : jsstring) : option Z :=
  let s1 := trimStart s in
  let (negative, s2) :=
    match s1 with
    | c :: r =>
        if (c =? 45)%N then (true, r)
        else if (c =? 43)%N then (false, r)
        else (false, s1)
    | [] => (false, s1)
    end in
  let (radix, s3) :=
    match s2 with
    | c1 :: c2 :: r =>
        if ((c1 =? 48) && ((c2 =? 120) || (c2 =? 88)))%N then (16%N, r)
        else (10%N, s2)
    | _ => (10%N, s2)
    end in
  match parse_digits radix s3 None with
  | Some n => Some (if negative then - Z.of_N n else Z.of_N n)
  | None => None
  end.

(** The value read so far, as a number. *)
Definition acc_value (acc : option N) : N :=
  match acc with Some a => a | None => 0%N end.

(** The [value] of the options of the select. *)
Definition intervalOptions : list jsstring :=
  [lit "7"; lit "15"; lit "30"; lit "90"; lit "180"; lit "365"].

(** The [value] prop of the select: [String(evolutionPeriod)]. *)
Definition selectValue (st : State) : jsstring := toString (evolutionPeriod st).

(** Its [onChange]: [setEvolutionPeriod(parseInt(value))]; [None] when the
    value does not parse, where the period becomes [NaN]. *)
Definition onIntervalChange (value : jsstring) (st : State) : option State :=
  option_map (fun days => setEvolutionPeriod days st) (parseInt value).

End EvolutionSelect.

(** ** The NFT card: [NFTPreview] of the page and [NFTPreviewCard] *)

Module NFTPreview.

Section Scores.

(** The rarity score is a floating-point number: the type of numbers, the
    comparison [>=] on it and the four literals are those of the
    platform. *)
Variable number : Type.
Variable ge : number -> number -> bool.
Variables lit_0_8 lit_0_6 lit_0_4 lit_0_2 : number.

Definition getRarityColor (score : number) : jsstring :=
  if ge score lit_0_8 then lit "text-[--hot-pink]"
  else if ge score lit_0_6 then lit "text-[--neon-purple]"
  else if ge score lit_0_4 then lit "text-[--electric-blue]"
  else if ge score lit_0_2 then lit "text-[--warning]"
  else lit "text-[--muted-text]".

Definition getRarityLabel (score : number) : jsstring :=
  if ge score lit_0_8 then lit "Legendary"
  else if ge score lit_0_6 then lit "Epic"
  else if ge score lit_0_4 then lit "Rare"
  else if ge score lit_0_2 then lit "Uncommon"
  else lit "Common".

End Scores.

(** [s.replace(/\s+/g, '-')]: every maximal run of white space becomes one
    hyphen; [in_run] tells that the code unit before was white space. *)
Fixpoint replace_whitespace_runs (in_run : bool) (s : jsstring) : jsstring :=
  match s with
  | [] => []
  | c :: s' =>
      if isWhiteSpace c then
        if in_run then replace_whitespace_runs true s'
        else 45%N :: replace_whitespace_runs true s'
      else c :: replace_whitespace_runs false s'
  end.

Section Download.

(** [String.prototype.toLowerCase], the case mapping of the platform. *)
Variable toLowerCase : jsstring -> jsstring.

(** The [download] attribute that [handleDownload] sets, at the clock
    [now]. *)
Definition downloadName (artistStyle : jsstring) (now : Z) : jsstring :=
  lit "nft-" ++ replace_whitespace_runs false (toLowerCase artistStyle)
  ++ lit "-" ++ toString now ++ lit ".jpg".

(** [handleDownload]: the [href] and the [download] of the link it clicks,
    or nothing without an image. *)
Definition handleDownload (imageURI : option jsstring) (artistStyle : jsstring)
    (now : Z) : option (jsstring * jsstring) :=
  match imageURI with
  | Some uri =>
      if truthy_str uri then Some (uri, downloadName artistStyle now) else None
  | None => None
  end.

End Download.

End NFTPreview.

(** * Properties *)

(** ** Strings and numbers *)

Section JsFacts.

Lemma str_eqb_refl (a : jsstring) : str_eqb a a = true.
Proof.
  induction a as [|x a IH]; simpl; [reflexivity|].
  now rewrite N.eqb_refl, IH.
Qed.

Lemma str_eqb_eq (a b : jsstring) : str_eqb a b = true <-> a = b.
Proof.
  split.
  - revert b; induction a as [|x a IH]; intros [|y b]; simpl; try easy.
    intros H. apply andb_true_iff in H as [Hx Hab].
    apply N.eqb_eq in Hx. apply IH in Hab. now subst.
  - intros ->. apply str_eqb_refl.
Qed.

Lemma str_eqb_neq (a b : jsstring) : str_eqb a b = false <-> a <> b.
Proof.
  rewrite <- str_eqb_eq. destruct (str_eqb a b); split; congruence.
Qed.

(** On integers [x || 0] is [x]. *)
Lemma num_or_zero (x : Z) : num_or x 0 = x.
Proof.
  unfold num_or, truthy_num. destruct (Z.eqb_spec x 0); simpl; congruence.
Qed.

Lemma truthy_str_iff (s : jsstring) : truthy_str s = true <-> s <> [].
Proof. destruct s; simpl; split; congruence. Qed.

Lemma In_firstn {A : Type} (x : A) (n : nat) (l : list A) :
  In x (firstn n l) -> In x l.
Proof.
  intros H. rewrite <- (firstn_skipn n l). apply in_or_app. now left.
Qed.

Lemma In_skipn {A : Type} (x : A) (n : nat) (l : list A) :
  In x (skipn n l) -> In x l.
Proof.
  intros H. rewrite <- (firstn_skipn n l). apply in_or_app. now right.
Qed.

End JsFacts.

(** ** The scarcity cache *)

Section ScarcityCache.

Import Index.

Lemma is_combination_iff (a e : jsstring) (combo : CombinationScarcityAPI) :
  is_combination a e combo = true <-> artist combo = a /\ event_type combo = e.
Proof.
  unfold is_combination. now rewrite andb_true_iff, !str_eqb_eq.
Qed.

Lemma is_combination_false (a e : jsstring) (combo : CombinationScarcityAPI) :
  is_combination a e combo = false <-> ~ (artist combo = a /\ event_type combo = e).
Proof.
  rewrite <- is_combination_iff. destruct (is_combination a e combo); split; congruence.
Qed.

Lemma allCombinations_handleNewMint (data : NewMintMessage) (st : State) :
  allCombinationsScarcity (handleNewMint data st)
  = map (newMint_combo data) (allCombinationsScarcity st).
Proof. reflexivity. Qed.

Lemma allCombinations_handleScarcityUpdate (data : ScarcityUpdateMessage) (st : State) :
  allCombinationsScarcity (handleScarcityUpdate data st)
  = map (scarcityUpdate_combo data) (allCombinationsScarcity st).
Proof.
  unfold handleScarcityUpdate.
  destruct (su_remaining_slots data <=? 0); [reflexivity|].
  destruct ((su_remaining_slots data <? 50) && (0 <? su_remaining_slots data));
    reflexivity.
Qed.

Lemma allCombinations_onScarcityChange (a e : jsstring) (remaining : Z) (st : State) :
  allCombinationsScarcity (onScarcityChange a e remaining st)
  = map (scarcityChange_combo a e remaining) (allCombinationsScarcity st).
Proof. reflexivity. Qed.

(** C2. A [new_mint] message for artist A and event type E keeps the list
    position by position: the combination at a position is replaced by one
    with the same artist, event type and limit, and, when its artist is A
    and its event type is E, with [minted_count] one higher,
    [remaining_slots] the limit minus the new count, [is_sold_out] true
    exactly when that is at most 0 and [is_available] true exactly when it
    is positive; any other combination is left as it was. *)
Theorem handleNewMint_updates_exactly_matching
    (data : NewMintMessage) (st : State) (i : nat) (combo : CombinationScarcityAPI)
    (Hi : nth_error (allCombinationsScarcity st) i = Some combo) :
  length (allCombinationsScarcity (handleNewMint data st))
  = length (allCombinationsScarcity st)
  /\ exists combo',
      nth_error (allCombinationsScarcity (handleNewMint data st)) i = Some combo'
      /\ (artist combo = nm_artist data /\ event_type combo = nm_event_type data ->
          let remaining :=
            total_limit (scarcity_info combo)
            - (minted_count (scarcity_info combo) + 1) in
          minted_count (scarcity_info combo')
          = minted_count (scarcity_info combo) + 1
          /\ remaining_slots (scarcity_info combo') = Some remaining
          /\ (is_sold_out (scarcity_info combo') = true <-> remaining <= 0)
          /\ (is_available combo' = true <-> remaining > 0)
          /\ total_limit (scarcity_info combo') = total_limit (scarcity_info combo)
          /\ artist combo' = artist combo
          /\ event_type combo' = event_type combo)
      /\ (~ (artist combo = nm_artist data /\ event_type combo = nm_event_type data) ->
          combo' = combo).
Proof.
  rewrite allCombinations_handleNewMint. split; [apply length_map|].
  exists (newMint_combo data combo). split.
  - now rewrite nth_error_map, Hi.
  - unfold newMint_combo. split; intros Hm.
    + apply is_combination_iff in Hm. rewrite Hm. cbn.
      rewrite !num_or_zero.
      repeat split; try (apply Z.leb_le || apply Z.ltb_lt); auto;
        try (now intros ?%Z.leb_le); try lia.
    + apply is_combination_false in Hm. now rewrite Hm.
Qed.

Lemma handleNewMint_sample :
  nth_error (allCombinationsScarcity
               (handleNewMint ScarcitySpec.sample_mint ScarcitySpec.sample_page)) 0
  = Some (with_scarcity ScarcitySpec.sample_combo
            {| combination := lit "Da Vinci-architecture";
               total_limit := 10; minted_count := 4;
               rarity_score := 0; price_multiplier := 1;
               is_sold_out := false; remaining_slots := Some 6;
               total_supply := None |} true).
Proof. reflexivity. Qed.

Lemma handleNewMint_updates_exactly_matching_witness :
  nth_error (allCombinationsScarcity ScarcitySpec.sample_page) 0
  = Some ScarcitySpec.sample_combo
  /\ exists combo',
      nth_error (allCombinationsScarcity
                   (handleNewMint ScarcitySpec.sample_mint ScarcitySpec.sample_page)) 0
      = Some combo'
      /\ minted_count (scarcity_info combo') = 4
      /\ remaining_slots (scarcity_info combo') = Some 6.
Proof.
  split; [reflexivity|].
  destruct (handleNewMint_updates_exactly_matching
              ScarcitySpec.sample_mint ScarcitySpec.sample_page 0
              ScarcitySpec.sample_combo eq_refl)
    as [_ [combo' [Hn [Hm _]]]].
  exists combo'. split; [exact Hn|].
  destruct (Hm (conj eq_refl eq_refl)) as [H1 [H2 _]].
  split; [exact H1 | exact H2].
Defined.

(** *** Consistency of the derived fields *)

Import ScarcitySpec.

(** After a [new_mint] for it, a combination is consistent whatever it was. *)
Lemma newMint_combo_establishes (data : NewMintMessage) (combo : CombinationScarcityAPI) :
  artist combo = nm_artist data -> event_type combo = nm_event_type data ->
  scarcity_consistent (newMint_combo data combo).
Proof.
  intros Ha He. unfold newMint_combo.
  rewrite (proj2 (is_combination_iff _ _ _) (conj Ha He)).
  unfold scarcity_consistent; cbn. rewrite !num_or_zero.
  split; [reflexivity|]. rewrite Z.leb_le, Z.ltb_lt. split; split; lia.
Qed.

Lemma newMint_combo_consistent (data : NewMintMessage) (combo : CombinationScarcityAPI) :
  scarcity_consistent combo -> scarcity_consistent (newMint_combo data combo).
Proof.
  intros Hc.
  destruct (is_combination (nm_artist data) (nm_event_type data) combo) eqn:E.
  - apply is_combination_iff in E as [Ha He].
    now apply newMint_combo_establishes.
  - unfold newMint_combo. now rewrite E.
Qed.

(** So is it after an [onScarcityChange] for it. *)
Lemma scarcityChange_combo_establishes (a e : jsstring) (remaining : Z)
    (combo : CombinationScarcityAPI) :
  artist combo = a -> event_type combo = e ->
  scarcity_consistent (scarcityChange_combo a e remaining combo).
Proof.
  intros Ha He. unfold scarcityChange_combo.
  rewrite (proj2 (is_combination_iff _ _ _) (conj Ha He)).
  unfold scarcity_consistent; cbn. rewrite !num_or_zero.
  split; [f_equal; lia|]. rewrite Z.leb_le, Z.ltb_lt. split; split; lia.
Qed.

Lemma scarcityChange_combo_consistent (a e : jsstring) (remaining : Z)
    (combo : CombinationScarcityAPI) :
  scarcity_consistent combo ->
  scarcity_consistent (scarcityChange_combo a e remaining combo).
Proof.
  intros Hc. destruct (is_combination a e combo) eqn:E.
  - apply is_combination_iff in E as [Ha He].
    now apply scarcityChange_combo_establishes.
  - unfold scarcityChange_combo. now rewrite E.
Qed.

(** A [scarcity_update] keeps a combination consistent when the message
    agrees with it. *)
Lemma scarcityUpdate_combo_consistent (data : ScarcityUpdateMessage)
    (combo : CombinationScarcityAPI) :
  (artist combo = su_artist data -> event_type combo = su_event_type data ->
   su_total_supply data = total_limit (scarcity_info combo)
   /\ (su_is_available data = true <-> su_remaining_slots data > 0)) ->
  scarcity_consistent combo ->
  scarcity_consistent (scarcityUpdate_combo data combo).
Proof.
  intros Hag Hc. unfold scarcityUpdate_combo.
  destruct (is_combination (su_artist data) (su_event_type data) combo) eqn:E;
    [|exact Hc].
  apply is_combination_iff in E as [Ha He].
  destruct (Hag Ha He) as [Ht Hav].
  unfold scarcity_consistent; cbn. rewrite Z.leb_le, <- Ht.
  split; [f_equal; lia|]. split; [split; lia|].
  rewrite Hav. split; lia.
Qed.

(** C1, amended. When every combination of the fetched snapshot is
    consistent ([remaining_slots] is the limit minus the count,
    [is_sold_out] says that it is at most 0 and [is_available] that it is
    positive), so is every combination of every state reached by [new_mint]
    events, [onScarcityChange] calls and those [scarcity_update] events
    whose [total_supply] is the cached limit of the combinations they are
    for and whose [is_available] says that [remaining_slots] is
    positive. *)
Theorem consistency_preserved (st0 st : State)
    (Hsnapshot : Forall scarcity_consistent (allCombinationsScarcity st0))
    (Hreach : reachable_agreeing st0 st) :
  Forall scarcity_consistent (allCombinationsScarcity st).
Proof.
  induction Hreach as [|data st _ IH|data st _ IH Hag|a e remaining st _ IH].
  - exact Hsnapshot.
  - rewrite allCombinations_handleNewMint. apply Forall_map.
    revert IH. apply Forall_impl. intros combo. apply newMint_combo_consistent.
  - rewrite allCombinations_handleScarcityUpdate. apply Forall_map.
    rewrite Forall_forall in *. intros combo Hin.
    apply scarcityUpdate_combo_consistent; [|now apply IH].
    intros Ha He. now apply Hag.
  - rewrite allCombinations_onScarcityChange. apply Forall_map.
    revert IH. apply Forall_impl. intros combo.
    apply scarcityChange_combo_consistent.
Qed.

Lemma sample_page_consistent :
  Forall scarcity_consistent (allCombinationsScarcity sample_page).
Proof.
  repeat constructor; cbn; try reflexivity; try lia; try discriminate.
Qed.

Lemma consistency_preserved_witness :
  let st :=
    onScarcityChange (lit "Monet") (lit "nature") 0
      (handleScarcityUpdate sample_update (handleNewMint sample_mint sample_page)) in
  Forall scarcity_consistent (allCombinationsScarcity sample_page)
  /\ reachable_agreeing sample_page st
  /\ Forall scarcity_consistent (allCombinationsScarcity st).
Proof.
  intros st.
  assert (Hreach : reachable_agreeing sample_page st).
  { apply agreeing_scarcity_change, agreeing_scarcity_update;
      [apply agreeing_new_mint, agreeing_start|].
    intros combo [<-|[<-|[]]] Ha He; cbn in *; try discriminate.
    split; [reflexivity|]. split; [lia | reflexivity]. }
  split; [exact sample_page_consistent|].
  split; [exact Hreach|].
  exact (consistency_preserved sample_page st sample_page_consistent Hreach).
Defined.

(** C1 as stated fails: the snapshot is consistent, and after one
    [scarcity_update] that reports 5 remaining slots and the combination as
    unavailable, the cached combination has [is_available] false with 5
    remaining slots; and after one that reports 12 remaining slots of a
    supply of 20, it has 12 remaining slots with a limit of 10 and a count
    of 8. *)
Lemma scarcity_update_breaks_consistency :
  let st := handleScarcityUpdate sample_update_closed sample_page in
  let st' := handleScarcityUpdate sample_update_resized sample_page in
  Forall scarcity_consistent (allCombinationsScarcity sample_page)
  /\ reachable sample_page st
  /\ ~ Forall scarcity_consistent (allCombinationsScarcity st)
  /\ reachable sample_page st'
  /\ ~ Forall scarcity_consistent (allCombinationsScarcity st').
Proof.
  intros st st'. split; [exact sample_page_consistent|].
  split; [apply reach_scarcity_update, reach_start|].
  split; [|split; [apply reach_scarcity_update, reach_start|]].
  - intros H. inversion H as [|c l [_ [_ Hav]] _]; subst.
    cbn in Hav. destruct Hav as [_ Hav].
    assert (false = true) by (apply Hav; lia). discriminate.
  - intros H. inversion H as [|c l [Hrem _] _]; subst.
    cbn in Hrem. discriminate.
Qed.

(** The limit of a combination, like its artist and event type, is never
    written by the three handlers. *)
Lemma limits_reachable (st0 st : State) :
  reachable st0 st ->
  map (fun c => (artist c, event_type c, total_limit (scarcity_info c)))
    (allCombinationsScarcity st)
  = map (fun c => (artist c, event_type c, total_limit (scarcity_info c)))
      (allCombinationsScarcity st0).
Proof.
  induction 1 as [|data st _ IH|data st _ IH|a e remaining st _ IH];
    [reflexivity| | |].
  - rewrite allCombinations_handleNewMint, map_map, <- IH.
    apply map_ext. intros c. unfold newMint_combo.
    now destruct (is_combination (nm_artist data) (nm_event_type data) c).
  - rewrite allCombinations_handleScarcityUpdate, map_map, <- IH.
    apply map_ext. intros c. unfold scarcityUpdate_combo.
    now destruct (is_combination (su_artist data) (su_event_type data) c).
  - rewrite allCombinations_onScarcityChange, map_map, <- IH.
    apply map_ext. intros c. unfold scarcityChange_combo.
    now destruct (is_combination a e c).
Qed.

(** The callback that [ScarcityIndicator] calls on a matching message is
    the page's [onScarcityChange] for the selection it was rendered with. *)
Lemma indicator_calls_onScarcityChange (rendered page : State)
    (data : ScarcityUpdateMessage) (cs : ScarcityIndicator.State) :
  su_artist data = selectedArtist rendered ->
  su_event_type data = selectedEvent rendered ->
  snd (ScarcityIndicator.handleScarcityUpdate
         (ScarcityIndicator.pageProps rendered) data cs page)
  = onScarcityChange (selectedArtist rendered) (selectedEvent rendered)
      (su_remaining_slots data) page.
Proof.
  intros Ha He. unfold ScarcityIndicator.handleScarcityUpdate.
  cbn [ScarcityIndicator.pageProps ScarcityIndicator.artist
       ScarcityIndicator.eventType ScarcityIndicator.onScarcityChange].
  now rewrite Ha, He, !str_eqb_refl.
Qed.

End ScarcityCache.

(** ** Form validation *)

Section Validation.

Import Index.

Lemma truthy_str_false (s : jsstring) : truthy_str s = false <-> s = [].
Proof. destruct s; simpl; split; congruence. Qed.

(** *** The cache and the trimmed prompt, in the words of the claim *)

Import ValidationSpec.

Lemma find_cached (a e : jsstring) (combos : list CombinationScarcityAPI)
    (info : ScarcityInfo) :
  option_map scarcity_info (find (is_combination a e) combos) = Some info
  <-> cached a e combos info.
Proof.
  split.
  - induction combos as [|c rest IH]; cbn [find]; [discriminate|].
    destruct (is_combination a e c) eqn:Ec.
    + apply is_combination_iff in Ec as [Ha He].
      intros [= <-]. now constructor.
    + apply is_combination_false in Ec. intros H.
      apply cached_later; [exact Ec | now apply IH].
  - induction 1 as [c rest Ha He|c rest info' Hn _ IH]; cbn [find].
    + now rewrite (proj2 (is_combination_iff a e c) (conj Ha He)).
    + now rewrite (proj2 (is_combination_false a e c) Hn).
Qed.

Lemma getScarcityForCombination_cached (a e : jsstring) (st : State)
    (info : ScarcityInfo) :
  getScarcityForCombination a e st = Some info
  <-> cached a e (allCombinationsScarcity st) info.
Proof.
  rewrite <- find_cached. unfold getScarcityForCombination.
  now destruct (allCombinationsScarcity st).
Qed.

Lemma getScarcityForCombination_not_loaded (a e : jsstring) (st : State) :
  not_loaded a e (allCombinationsScarcity st) ->
  getScarcityForCombination a e st = None.
Proof.
  intros Hn.
  destruct (getScarcityForCombination a e st) as [info|] eqn:E; [|reflexivity].
  apply getScarcityForCombination_cached in E. exfalso.
  induction E as [c rest Ha He|c rest info' _ _ IH].
  - apply (Hn c); [now left | now split].
  - apply IH. intros c' Hin. apply Hn. now right.
Qed.

Lemma trimStart_whitespace (before s : jsstring) :
  Forall (fun c => isWhiteSpace c = true) before ->
  trimStart (before ++ s) = trimStart s.
Proof.
  induction 1 as [|c before Hc _ IH]; [reflexivity|].
  cbn [app trimStart]. now rewrite Hc.
Qed.

Lemma trimStart_starts (s : jsstring) :
  (forall c rest, s = c :: rest -> isWhiteSpace c = false) ->
  trimStart s = s.
Proof.
  intros Hs. destruct s as [|c rest]; [reflexivity|].
  cbn [trimStart]. now rewrite (Hs c rest eq_refl).
Qed.

(** [trim] computes the trimmed string. *)
Lemma trim_trimmed (s t : jsstring) : trimmed s t -> trim s = t.
Proof.
  intros (before & after & -> & Hb & Ha & Hfirst & Hlast).
  unfold trim, trimEnd. rewrite trimStart_whitespace by exact Hb.
  assert (Hrev : trimStart (rev (t ++ after)) = rev t).
  { rewrite rev_app_distr, trimStart_whitespace by now apply Forall_rev.
    apply trimStart_starts. intros c rest Hr.
    apply (Hlast (rev rest) c).
    rewrite <- (rev_involutive t), Hr. reflexivity. }
  destruct t as [|c rest].
  - cbn [app]. rewrite <- (app_nil_r after) at 1.
    rewrite trimStart_whitespace by exact Ha. reflexivity.
  - rewrite (trimStart_starts ((c :: rest) ++ after)).
    + rewrite Hrev. apply rev_involutive.
    + intros c' rest' [= <- _]. exact (Hfirst c rest eq_refl).
Qed.

Lemma trimStart_split (s : jsstring) :
  exists before,
    s = before ++ trimStart s
    /\ Forall (fun c => isWhiteSpace c = true) before
    /\ (forall c rest, trimStart s = c :: rest -> isWhiteSpace c = false).
Proof.
  induction s as [|c s (before & Hs & Hb & Hfirst)].
  - exists []. repeat split; [constructor | discriminate].
  - cbn [trimStart]. destruct (isWhiteSpace c) eqn:Ec.
    + exists (c :: before). cbn [app]. rewrite <- Hs.
      repeat split; [now constructor | exact Hfirst].
    + exists []. repeat split; [constructor|]. now intros c' rest [= <- _].
Qed.

(** Every string has its trimmed string: the one [trim] computes. *)
Lemma trimmed_trim (s : jsstring) : trimmed s (trim s).
Proof.
  destruct (trimStart_split s) as (before & Hs & Hb & Hfirst).
  destruct (trimStart_split (rev (trimStart s))) as (after & Hr & Ha & Hlast).
  exists before, (rev after). unfold trim, trimEnd.
  assert (Hsplit : trimStart s
                   = rev (trimStart (rev (trimStart s))) ++ rev after).
  { rewrite <- rev_app_distr, <- Hr. symmetry. apply rev_involutive. }
  repeat split.
  - now rewrite <- Hsplit.
  - exact Hb.
  - now apply Forall_rev.
  - intros c rest Ht.
    destruct (trimStart s) as [|c0 rest0] eqn:E.
    + cbn in Ht. discriminate.
    + rewrite Ht in Hsplit. cbn [app] in Hsplit. injection Hsplit as Hc _.
      rewrite <- Hc. exact (Hfirst c0 rest0 eq_refl).
  - intros rest c Ht. apply (Hlast c (rev rest)).
    rewrite <- (rev_involutive (trimStart (rev (trimStart s)))), Ht.
    rewrite rev_app_distr. reflexivity.
Qed.

(** C4. [validateForm] returns a message exactly when the wallet is not
    connected, or the mode is basic and no artist is selected, no event is
    selected or the first cached combination with the selected artist and
    event type is sold out, or the mode is advanced and the prompt without
    its leading and trailing white space is empty, shorter than 10 or
    longer than 500 code units; it returns [null] in every other case, in
    particular in basic mode with a selection for which the cache holds no
    combination. A message it returns is never empty. *)
Theorem validateForm_characterised (st : State) (p : jsstring)
    (Hp : trimmed (customPrompt st) p) :
  (validateForm st <> None <->
   wallet st = None
   \/ (wallet st <> None /\ mode st = basic
       /\ (selectedArtist st = [] \/ selectedEvent st = []
           \/ exists info,
               cached (selectedArtist st) (selectedEvent st)
                 (allCombinationsScarcity st) info
               /\ is_sold_out info = true))
   \/ (wallet st <> None /\ mode st = advanced
       /\ (p = [] \/ len p < 10 \/ len p > 500)))
  /\ (wallet st <> None -> mode st = basic ->
      selectedArtist st <> [] -> selectedEvent st <> [] ->
      not_loaded (selectedArtist st) (selectedEvent st)
        (allCombinationsScarcity st) ->
      validateForm st = None)
  /\ (forall msg, validateForm st = Some msg -> msg <> []).
Proof.
  apply trim_trimmed in Hp. subst p.
  split; [|split].
  - unfold validateForm.
    destruct (wallet st) as [w|]; [|split; [now left | discriminate]].
    destruct (mode st).
    + destruct (selectedArtist st) as [|a0 sa] eqn:Ea; cbn [truthy_str negb].
      { split; [|discriminate].
        intros _. right; left. repeat split; try discriminate. now left. }
      destruct (selectedEvent st) as [|e0 se] eqn:Ee; cbn [truthy_str negb].
      { split; [|discriminate].
        intros _. right; left. repeat split; try discriminate. right; now left. }
      destruct (getScarcityForCombination (a0 :: sa) (e0 :: se) st)
        as [info|] eqn:El.
      * apply getScarcityForCombination_cached in El.
        destruct (is_sold_out info) eqn:Es.
        -- split; [|discriminate].
           intros _. right; left. repeat split; try discriminate.
           right; right. now exists info.
        -- split; [congruence|].
           intros [H|[(_ & _ & [H|[H|(i & Hi & Hs)]])|(_ & H & _)]];
             try discriminate.
           apply getScarcityForCombination_cached in El, Hi. congruence.
      * split; [congruence|].
        intros [H|[(_ & _ & [H|[H|(i & Hi & Hs)]])|(_ & H & _)]];
          try discriminate.
        apply getScarcityForCombination_cached in Hi. congruence.
    + destruct (truthy_str (trim (customPrompt st))) eqn:Et; cbn [negb].
      2:{ apply truthy_str_false in Et. split; [|discriminate].
          intros _. right; right. repeat split; try discriminate. now left. }
      apply truthy_str_iff in Et.
      destruct (Z.ltb_spec (len (trim (customPrompt st))) 10).
      { split; [|discriminate].
        intros _. right; right. repeat split; try discriminate.
        right; now left. }
      destruct (Z.ltb_spec 500 (len (trim (customPrompt st)))).
      { split; [|discriminate].
        intros _. right; right. repeat split; try discriminate.
        right; right; lia. }
      split; [congruence|].
      intros [H'|[(_ & H' & _)|(_ & _ & [H'|[H'|H']])]];
        try discriminate; try contradiction; lia.
  - intros Hw Hm Ha He Hn. unfold validateForm.
    destruct (wallet st); [|congruence]. rewrite Hm.
    apply truthy_str_iff in Ha, He. rewrite Ha, He. cbn [negb].
    now rewrite (getScarcityForCombination_not_loaded _ _ _ Hn).
  - intros msg. unfold validateForm.
    destruct (wallet st); [|now intros [= <-]].
    destruct (mode st).
    + destruct (negb (truthy_str (selectedArtist st))); [now intros [= <-]|].
      destruct (negb (truthy_str (selectedEvent st))); [now intros [= <-]|].
      destruct (getScarcityForCombination _ _ st) as [info|]; [|discriminate].
      destruct (is_sold_out info); [now intros [= <-]|discriminate].
    + destruct (negb (truthy_str (trim (customPrompt st)))); [now intros [= <-]|].
      destruct (len (trim (customPrompt st)) <? 10); [now intros [= <-]|].
      destruct (500 <? len (trim (customPrompt st)));
        [now intros [= <-]|discriminate].
Qed.

(** On the sample pages: five letters between blanks block the advanced
    form, and a sold-out first combination blocks the basic form. *)
Lemma validateForm_characterised_witness :
  let sold_out :=
    handleScarcityUpdate
      {| su_artist := lit "Da Vinci"; su_event_type := lit "architecture";
         su_remaining_slots := 0; su_total_supply := 10;
         su_is_available := false; su_timestamp := 0 |}
      Samples.ready_page in
  trimmed (customPrompt Samples.advanced_page) (lit "a cat")
  /\ trimmed (customPrompt sold_out) []
  /\ validateForm Samples.advanced_page <> None
  /\ validateForm sold_out <> None.
Proof.
  intros sold_out.
  assert (Hadv : trimmed (customPrompt Samples.advanced_page) (lit "a cat")).
  { exists (lit "      "), (lit "      ").
    split; [reflexivity|]. split; [repeat constructor|].
    split; [repeat constructor|]. split.
    - intros c rest [= <- _]. reflexivity.
    - intros rest c H.
      change (lit "a cat") with (lit "a ca" ++ [116%N]) in H.
      apply app_inj_tail in H as [_ <-]. reflexivity. }
  assert (Hsold : trimmed (customPrompt sold_out) []).
  { exists [], []. split; [reflexivity|]. split; [constructor|].
    split; [constructor|]. split; [discriminate|].
    intros rest c H. now destruct rest. }
  split; [exact Hadv|]. split; [exact Hsold|]. split.
  - destruct (validateForm_characterised Samples.advanced_page (lit "a cat") Hadv)
      as [Hiff _].
    apply Hiff. right; right.
    split; [discriminate|]. split; [reflexivity|]. right; left. reflexivity.
  - destruct (validateForm_characterised sold_out [] Hsold) as [Hiff _].
    apply Hiff. right; left.
    split; [discriminate|]. split; [reflexivity|]. right; right.
    eexists. split; [apply cached_here; reflexivity | reflexivity].
Defined.

(** The form of the sample page: valid as it is; blocked once the selected
    combination is sold out; blocked in advanced mode by a short prompt
    however much white space surrounds it. *)
Lemma validateForm_samples :
  validateForm Samples.ready_page = None
  /\ validateForm
       (handleScarcityUpdate
          {| su_artist := lit "Da Vinci"; su_event_type := lit "architecture";
             su_remaining_slots := 0; su_total_supply := 10;
             su_is_available := false; su_timestamp := 0 |}
          Samples.ready_page)
     = Some (lit "The Da Vinci - architecture combination is currently sold out.")
  /\ validateForm initialState
     = Some (lit "Please connect your wallet to generate NFTs")
  /\ validateForm Samples.advanced_page
     = Some (lit "Custom prompt must be at least 10 characters long").
Proof. repeat split. Qed.

End Validation.

(** ** Retry of the initial fetch *)

Section Retry.

Import Index RetrySpec.

Lemma retryCount_handle (st : State) (ev : PageEvent) (n : nat) :
  retryCount st = Z.of_nat n ->
  retryCount (handle st ev) = Z.of_nat (count_press n ev).
Proof.
  intros Hn. destruct ev as [|isRetry|outcome|data|data]; simpl.
  - cbn. rewrite Hn. lia.
  - unfold fetchInitialData_start. now destruct isRetry.
  - unfold fetchInitialData_settle, fetchInitialData_try, fetchInitialData_catch.
    destruct outcome as [responses|e]; simpl.
    + destruct (fetched_artists responses), (fetched_events responses); simpl;
        try reflexivity; exact Hn.
    + destruct (axios_code_is (lit "ECONNABORTED") e); exact Hn.
  - exact Hn.
  - unfold handleScarcityUpdate.
    destruct (su_remaining_slots data <=? 0); [exact Hn|].
    destruct ((su_remaining_slots data <? 50) && (0 <? su_remaining_slots data));
      exact Hn.
Qed.

Lemma retryCount_run (trace : list PageEvent) (st : State) (n : nat) :
  retryCount st = Z.of_nat n ->
  retryCount (run trace st) = Z.of_nat (fold_left count_press trace n).
Proof.
  revert st n. induction trace as [|ev trace IH]; intros st n Hn; simpl.
  - exact Hn.
  - apply IH. now apply retryCount_handle.
Qed.

(** C5. After any history of the page, the press of the retry button that
    is the [n]-th since the last successful fetch schedules exactly one
    timer, the re-fetch, with delay [min(1000 * 2^(n-1), 5000)]
    milliseconds and stores [n] as the retry count; and a fetch that
    succeeds stores 0. *)
Theorem retry_backs_off_exponentially (trace : list PageEvent) :
  let st := run trace initialState in
  let n := Z.of_nat (presses_since_success trace) + 1 in
  timers (retryFetchInitialData st)
  = timers st ++ [ {| delay := backoff n; callback := RefetchInitialData |} ]
  /\ retryCount (retryFetchInitialData st) = n
  /\ forall (outcome : completion FetchedLists) (st' : State),
      succeeds outcome = true ->
      retryCount (fetchInitialData_settle outcome st') = 0.
Proof.
  intros st n.
  assert (Hc : retryCount st = Z.of_nat (presses_since_success trace))
    by (apply retryCount_run; reflexivity).
  split; [|split].
  - unfold retryFetchInitialData, backoff, Math_pow2; cbn.
    rewrite Hc. reflexivity.
  - cbn. rewrite Hc. reflexivity.
  - intros outcome st' Hs. unfold fetchInitialData_settle, fetchInitialData_try.
    destruct outcome as [responses|e]; [|discriminate]. simpl in Hs.
    destruct (fetched_artists responses), (fetched_events responses);
      try discriminate. reflexivity.
Qed.

(** The first five delays. *)
Lemma backoff_values :
  map backoff [1; 2; 3; 4; 5] = [1000; 2000; 4000; 5000; 5000].
Proof. reflexivity. Qed.

(** From the fourth retry on the delay is the cap. *)
Lemma backoff_capped (n : Z) : 4 <= n -> backoff n = 5000.
Proof.
  intros Hn. unfold backoff. apply Z.min_r.
  assert (2 ^ 3 <= 2 ^ (n - 1)) by (apply Z.pow_le_mono_r; lia).
  change (2 ^ 3) with 8 in H. lia.
Qed.

(** Two failed attempts, then a third press: 4 seconds. *)
Lemma retry_third_press :
  let failure := Throw (ThrownError (lit "Network Error")) in
  map delay
    (timers (run [PressRetry; FetchStarts true; FetchSettles failure;
                  PressRetry; FetchStarts true; FetchSettles failure;
                  PressRetry] initialState))
  = [1000; 2000; 4000].
Proof. reflexivity. Qed.

End Retry.

(** ** Failure of the NFT generation *)

Section GenerationFailure.

Import Index GenerationSpec.

Lemma validateForm_setErrors (f : Errors -> Errors) (st : State) :
  validateForm (setErrors f st) = validateForm st.
Proof. reflexivity. Qed.

(** The tests of the [catch] clause, in the words of the claim. *)
Lemma axios_code_is_timed_out (error : thrown) :
  axios_code_is (lit "ECONNABORTED") error = true <-> timed_out error.
Proof.
  unfold axios_code_is, timed_out. split.
  - destruct error as [e| |]; try discriminate.
    destruct (ax_code e) as [c|] eqn:Ec; [|discriminate].
    intros H%str_eqb_eq. subst c. now exists e.
  - intros (e & -> & ->). apply str_eqb_refl.
Qed.

Lemma axios_status_is_answered (n : Z) (error : thrown) :
  axios_status_is n error = true <-> answered_with n error.
Proof.
  unfold axios_status_is, answered_with. split.
  - destruct error as [e| |]; try discriminate.
    destruct (ax_response e) as [r|] eqn:Er; [|discriminate].
    intros H%Z.eqb_eq. now exists e, r.
  - intros (e & r & -> & -> & Hs). now apply Z.eqb_eq.
Qed.

Lemma test_false_iff (b : bool) (A : Prop) :
  (b = true <-> A) -> (b = false <-> ~ A).
Proof. intros H. rewrite <- H. destruct b; split; congruence. Qed.

(** What [createAPIError] builds for the context of the generation. *)
Lemma createAPIError_generic (error : thrown) :
  generic error (createAPIError error (lit "generating NFT")).
Proof.
  unfold generic. split; [|split; [|split]].
  - destruct error as [e|text|]; cbn [createAPIError message].
    + unfold opt_str_or, str_or.
      repeat match goal with
             | |- context [match ?x with Some _ => _ | None => _ end] =>
                 destruct x
             | |- context [if truthy_str ?x then _ else _] =>
                 let E := fresh "E" in
                 destruct (truthy_str x) eqn:E;
                 [now apply truthy_str_iff in E|]
             end; discriminate.
    + intros H. apply app_eq_nil in H as [_ H]. discriminate.
    + discriminate.
  - intros e ->. cbn [createAPIError message err_status code].
    split; [|split; reflexivity].
    unfold body_text, opt_str_or, str_or.
    destruct (ax_response e) as [r|]; [destruct (data r) as [body|]|];
      cbn [first_text];
      repeat match goal with
             | |- context [match ?x with Some _ => _ | None => _ end] =>
                 destruct x as [[|? ?]|]
             end; cbn [truthy_str first_text];
      try reflexivity; now destruct (ax_message e).
  - now intros text ->.
  - now intros ->.
Qed.

(** The error stored by the [catch] clause. *)
Lemma catch_stores (error : thrown) (st : State) :
  exists stored,
    err_nftGeneration (errors (handleUpdatePreview_catch error st)) = Some stored
    /\ (timed_out error -> stored = timeout_stored)
    /\ (~ timed_out error -> answered_with 429 error ->
        stored = rate_limit_stored)
    /\ (~ timed_out error -> ~ answered_with 429 error ->
        answered_with 500 error -> stored = server_error_stored)
    /\ (~ timed_out error -> ~ answered_with 429 error ->
        ~ answered_with 500 error -> generic error stored).
Proof.
  pose proof (axios_code_is_timed_out error) as Ht.
  pose proof (axios_status_is_answered 429 error) as H429.
  pose proof (axios_status_is_answered 500 error) as H500.
  pose proof (test_false_iff _ _ Ht) as Ht'.
  pose proof (test_false_iff _ _ H429) as H429'.
  pose proof (test_false_iff _ _ H500) as H500'.
  unfold handleUpdatePreview_catch.
  destruct error as [e|text|].
  - destruct (axios_code_is (lit "ECONNABORTED") (ThrownAxios e)) eqn:Ec.
    { eexists; split; [reflexivity|].
      pose proof (proj1 Ht eq_refl).
      repeat split; intros; first [reflexivity | tauto]. }
    destruct (axios_status_is 429 (ThrownAxios e)) eqn:E429.
    { eexists; split; [reflexivity|].
      pose proof (proj1 Ht' eq_refl). pose proof (proj1 H429 eq_refl).
      repeat split; intros; first [reflexivity | tauto]. }
    destruct (axios_status_is 500 (ThrownAxios e)) eqn:E500.
    { eexists; split; [reflexivity|].
      pose proof (proj1 Ht' eq_refl). pose proof (proj1 H429' eq_refl).
      pose proof (proj1 H500 eq_refl).
      repeat split; intros; first [reflexivity | tauto]. }
    eexists; split; [reflexivity|].
    pose proof (proj1 Ht' eq_refl). pose proof (proj1 H429' eq_refl).
    pose proof (proj1 H500' eq_refl).
    split; [tauto|]. split; [tauto|]. split; [tauto|].
    intros _ _ _. apply createAPIError_generic.
  - eexists; split; [reflexivity|].
    pose proof (proj1 Ht' eq_refl). pose proof (proj1 H429' eq_refl).
    pose proof (proj1 H500' eq_refl).
    split; [tauto|]. split; [tauto|]. split; [tauto|].
    intros _ _ _. apply createAPIError_generic.
  - eexists; split; [reflexivity|].
    pose proof (proj1 Ht' eq_refl). pose proof (proj1 H429' eq_refl).
    pose proof (proj1 H500' eq_refl).
    split; [tauto|]. split; [tauto|]. split; [tauto|].
    intros _ _ _. apply createAPIError_generic.
Qed.

Lemma catch_toasts (error : thrown) (st : State) :
  toasts (handleUpdatePreview_catch error st) = toasts st ++ [failure_toast].
Proof.
  unfold handleUpdatePreview_catch.
  destruct error as [e|m|]; try reflexivity.
  destruct (axios_code_is (lit "ECONNABORTED") (ThrownAxios e)); [reflexivity|].
  destruct (axios_status_is 429 (ThrownAxios e)); [reflexivity|].
  destruct (axios_status_is 500 (ThrownAxios e)); reflexivity.
Qed.

(** C6. When the [try] block of [handleUpdatePreview] throws, the handler
    completes normally and stores an error for [nftGeneration]: the
    timeout error, with code TIMEOUT, for an axios error whose code is
    ECONNABORTED; otherwise the rate-limit error, with code RATE_LIMIT and
    status 429, for an axios error whose response has status 429;
    otherwise the server error, with code SERVER_ERROR and status 500, for
    one whose response has status 500; and otherwise a generic error,
    whose message is never empty and is built from the response or from
    the exception message. In every case the failure toast is shown last
    and the [nftGeneration] loading flag is false. *)
Theorem generation_failure_classified
    (post : RequestData -> completion ResponseData) (st : State)
    (w : WalletInfo) (P : Platform) (k k' : nat) (error : thrown)
    (Hwallet : wallet st = Some w)
    (Hvalid : validateForm st = None)
    (Hthrows : handleUpdatePreview_try w post (entry_state st) P k
               = (Throw error, k')) :
  exists final stored,
    handleUpdatePreview post st P k = (Normal final, k')
    /\ err_nftGeneration (errors final) = Some stored
    /\ (timed_out error -> stored = timeout_stored)
    /\ (~ timed_out error -> answered_with 429 error ->
        stored = rate_limit_stored)
    /\ (~ timed_out error -> ~ answered_with 429 error ->
        answered_with 500 error -> stored = server_error_stored)
    /\ (~ timed_out error -> ~ answered_with 429 error ->
        ~ answered_with 500 error -> generic error stored)
    /\ toasts final = toasts st ++ [failure_toast]
    /\ nftGeneration (loadingStates final) = false.
Proof.
  destruct (catch_stores error (entry_state st)) as [stored [Hs Hclass]].
  exists (setLoadingStates (set_loading_nftGeneration false)
            (handleUpdatePreview_catch error (entry_state st))), stored.
  split.
  - unfold handleUpdatePreview.
    change (wallet (clearErrors_validation (clearErrors_nftGeneration st)))
      with (wallet st).
    rewrite Hwallet.
    change (validateForm (clearErrors_validation (clearErrors_nftGeneration st)))
      with (validateForm st).
    rewrite Hvalid.
    unfold bind, try_catch. fold (entry_state st). rewrite Hthrows.
    reflexivity.
  - split; [exact Hs|].
    destruct Hclass as (H1 & H2 & H3 & H4).
    split; [exact H1|]. split; [exact H2|]. split; [exact H3|].
    split; [exact H4|]. split; [|reflexivity].
    cbn [toasts setLoadingStates]. now rewrite catch_toasts.
Qed.

(** One press for each class: a timeout, a 429, a 500, and a 404 whose
    body has an empty [error] and a [message]. *)
Lemma generation_failure_classified_witness :
  let run := fun error =>
    handleUpdatePreview (fun _ => Throw error) Samples.ready_page
      Samples.platform 0%nat in
  let stored_by := fun error stored =>
    exists final,
      run error = (Normal final, 2%nat)
      /\ err_nftGeneration (errors final) = Some stored
      /\ toasts final = [failure_toast]
      /\ nftGeneration (loadingStates final) = false in
  wallet Samples.ready_page = Some Samples.wallet_full
  /\ validateForm Samples.ready_page = None
  /\ stored_by Samples.timeout_error timeout_stored
  /\ stored_by Samples.rate_limit_error rate_limit_stored
  /\ stored_by Samples.server_error server_error_stored
  /\ stored_by Samples.not_found_error
       {| message := lit "no such route";
          err_status := Some 404;
          code := Some (lit "ERR_BAD_REQUEST") |}.
Proof.
  intros run stored_by.
  assert (Hw : wallet Samples.ready_page = Some Samples.wallet_full)
    by reflexivity.
  assert (Hv : validateForm Samples.ready_page = None) by reflexivity.
  assert (Ht : forall error,
             handleUpdatePreview_try Samples.wallet_full
               (fun _ => Throw error)
               (entry_state Samples.ready_page) Samples.platform 0%nat
             = (Throw error, 2%nat)) by reflexivity.
  assert (Hno_timeout : forall e,
             ax_code e <> Some (lit "ECONNABORTED") ->
             ~ timed_out (ThrownAxios e)).
  { intros e Hc (e' & [= <-] & Hc'). contradiction. }
  assert (Hno_status : forall n e r,
             ax_response e = Some r -> status r <> n ->
             ~ answered_with n (ThrownAxios e)).
  { intros n e r Hr Hs (e' & r' & [= <-] & Hr' & Hs'). congruence. }
  split; [exact Hw|]. split; [exact Hv|].
  split; [|split; [|split]].
  - destruct (generation_failure_classified _ Samples.ready_page
                Samples.wallet_full Samples.platform 0%nat 2%nat
                Samples.timeout_error Hw Hv (Ht _))
      as (final & stored & Hrun & Hs & Hclass & _ & _ & _ & Htoast & Hload).
    exists final. rewrite <- Hclass; [now repeat split|].
    eexists. split; reflexivity.
  - destruct (generation_failure_classified _ Samples.ready_page
                Samples.wallet_full Samples.platform 0%nat 2%nat
                Samples.rate_limit_error Hw Hv (Ht _))
      as (final & stored & Hrun & Hs & _ & Hclass & _ & _ & Htoast & Hload).
    exists final. rewrite <- Hclass; [now repeat split| |].
    + apply Hno_timeout. discriminate.
    + do 2 eexists. repeat split.
  - destruct (generation_failure_classified _ Samples.ready_page
                Samples.wallet_full Samples.platform 0%nat 2%nat
                Samples.server_error Hw Hv (Ht _))
      as (final & stored & Hrun & Hs & _ & _ & Hclass & _ & Htoast & Hload).
    exists final. rewrite <- Hclass; [now repeat split| | |].
    + apply Hno_timeout. discriminate.
    + eapply Hno_status; [reflexivity | discriminate].
    + do 2 eexists. repeat split.
  - destruct (generation_failure_classified _ Samples.ready_page
                Samples.wallet_full Samples.platform 0%nat 2%nat
                Samples.not_found_error Hw Hv (Ht _))
      as (final & stored & Hrun & Hs & _ & _ & _ & Hclass & Htoast & Hload).
    exists final.
    destruct Hclass as (_ & Haxios & _).
    + apply Hno_timeout. discriminate.
    + eapply Hno_status; [reflexivity | discriminate].
    + eapply Hno_status; [reflexivity | discriminate].
    + destruct (Haxios _ eq_refl) as (Hm & Hst & Hc).
      destruct stored as [m st c]. cbn in Hm, Hst, Hc. subst m st c.
      now repeat split.
Defined.

(** The same press with a 429 answer. *)
Lemma generation_rate_limited :
  let post := fun _ : RequestData => Throw Samples.rate_limit_error in
  exists final k',
    handleUpdatePreview post Samples.ready_page Samples.platform 0%nat
    = (Normal final, k')
    /\ err_nftGeneration (errors final)
       = Some {| message := lit "Too many requests. Please wait a moment before trying again.";
                 err_status := Some 429;
                 code := Some (lit "RATE_LIMIT") |}
    /\ toasts final = [failure_toast]
    /\ nftGeneration (loadingStates final) = false.
Proof.
  intros post. do 2 eexists.
  split; [lazy; reflexivity|]. split; [reflexivity|]. split; reflexivity.
Qed.

End GenerationFailure.

(** ** The NFT built from a create-nft response *)

Section NftDefaults.

Import Index.

Lemma bind_normal {A B : Type} (m : M A) (f : A -> M B)
    (P : Platform) (k : nat) (a : A) (k1 : nat) :
  m P k = (Normal a, k1) -> bind m f P k = f a P k1.
Proof. intros H. unfold bind. now rewrite H. Qed.

Lemma opt_str_orM_returns (a : option jsstring) (m : M jsstring)
    (P : Platform) (k : nat) :
  (forall k0, exists s k1, m P k0 = (Normal s, k1)) ->
  exists s k', opt_str_orM a m P k = (Normal s, k')
               /\ (forall v, a = Some v -> v <> [] -> s = v).
Proof.
  intros Hm. unfold opt_str_orM. destruct a as [[|c v]|]; simpl.
  - destruct (Hm k) as (s & k1 & ->). exists s, k1.
    split; [reflexivity|]. intros v [= <-] Hv. now destruct Hv.
  - exists (c :: v), k. split; [reflexivity|]. now intros v' [= <-].
  - destruct (Hm k) as (s & k1 & ->). exists s, k1.
    split; [reflexivity | discriminate].
Qed.

(** Every default of [nftData] except the one of [image_uri]: a response
    without [version], [timestamp], [genetic_traits], [scarcity_info],
    [evolution_history], [evolution_period_days] or [prompt] gets 1, the
    clock in seconds, the zero records, the empty history, the selected
    period and the prompt made from the form. *)
Lemma buildNftData_defaults (nft : ServerNft) (st : State)
    (P : Platform) (k : nat) :
  exists d k',
    buildNftData nft st P k = (Normal d, k')
    /\ (srv_version nft = None -> version d = 1)
    /\ (srv_timestamp nft = None -> exists j, timestamp d = date_now P j / 1000)
    /\ (srv_genetic_traits nft = None -> genetic_traits d = zero_traits)
    /\ (srv_scarcity_info nft = None ->
        nft_scarcity_info d = zero_scarcity
        /\ is_sold_out (nft_scarcity_info d) = false)
    /\ (srv_evolution_history nft = None -> evolution_history d = [])
    /\ (srv_evolution_period_days nft = None ->
        evolution_period_days d = evolutionPeriod st)
    /\ (srv_prompt nft = None ->
        prompt d = match mode st with
                   | advanced => customPrompt st
                   | basic => selectedArtist st ++ lit " style " ++ selectedEvent st
                   end)
    /\ image_uri d
       = lit "http://localhost:5000" ++ template_property (srv_image_url nft).
Proof.
  unfold buildNftData.
  destruct (opt_str_orM_returns (srv_nft_id nft)
              (now <- Date_now ;; ret (lit "nft-" ++ toString now)) P k)
    as (i & k1 & Hi & _).
  { intros k0. do 2 eexists. reflexivity. }
  rewrite (bind_normal _ _ _ _ _ _ Hi).
  assert (Ht : exists t k2,
             opt_num_orM (srv_timestamp nft)
               (now <- Date_now ;; ret (now / 1000)) P k1 = (Normal t, k2)
             /\ (srv_timestamp nft = None -> exists j, t = date_now P j / 1000)).
  { unfold opt_num_orM. destruct (srv_timestamp nft) as [t|].
    - destruct (truthy_num t); do 2 eexists; (split; [reflexivity|discriminate]).
    - do 2 eexists. split; [reflexivity|]. intros _. now exists k1. }
  destruct Ht as (t & k2 & Ht & Hnow).
  rewrite (bind_normal _ _ _ _ _ _ Ht).
  do 2 eexists. split; [reflexivity|]. cbn.
  repeat split; try (intros ->; reflexivity); try exact Hnow;
    match goal with H : _ = None |- _ => now rewrite H end.
Qed.

(** C7, at the failing input. For a response with an [nft_id] and no
    [image_url] the built [image_uri] is the base URL followed by the text
    undefined: it is not the response's [image_uri], and it is not the
    empty string when the response has none either. *)
Theorem image_uri_default_unreachable :
  (exists d k',
      buildNftData Samples.nft_with_image_uri Samples.ready_page
        Samples.platform 0%nat = (Normal d, k')
      /\ image_uri d = lit "http://localhost:5000undefined"
      /\ image_uri d <> lit "ipfs://bafy42")
  /\ (exists d k',
         buildNftData Samples.bare_nft Samples.ready_page
           Samples.platform 0%nat = (Normal d, k')
         /\ image_uri d = lit "http://localhost:5000undefined"
         /\ image_uri d <> []).
Proof.
  split; do 2 eexists; (split; [lazy; reflexivity|]);
    (split; [reflexivity | discriminate]).
Qed.

(** Whatever the response, without [image_url] the two fallbacks of
    [image_uri] are never taken. *)
Lemma image_uri_without_image_url (nft : ServerNft) (st : State)
    (P : Platform) (k : nat) :
  srv_image_url nft = Absent ->
  exists d k',
    buildNftData nft st P k = (Normal d, k')
    /\ image_uri d = lit "http://localhost:5000undefined".
Proof.
  intros Hu.
  destruct (buildNftData_defaults nft st P k) as (d & k' & Hb & H).
  exists d, k'. split; [exact Hb|].
  destruct H as (_ & _ & _ & _ & _ & _ & _ & ->). now rewrite Hu.
Qed.

(** A response whose [image_url] is [null] gets the base URL followed by
    the text null. *)
Lemma image_uri_with_null_image_url (nft : ServerNft) (st : State)
    (P : Platform) (k : nat) :
  srv_image_url nft = Null ->
  exists d k',
    buildNftData nft st P k = (Normal d, k')
    /\ image_uri d = lit "http://localhost:5000null".
Proof.
  intros Hu.
  destruct (buildNftData_defaults nft st P k) as (d & k' & Hb & H).
  exists d, k'. split; [exact Hb|].
  destruct H as (_ & _ & _ & _ & _ & _ & _ & ->). now rewrite Hu.
Qed.

End NftDefaults.

(** ** Cleanup of the socket listeners *)

Section Cleanup.

Lemma same_refl (h : ScarcityIndicator.Listener) : ScarcityIndicator.same h h = true.
Proof.
  destruct h; simpl; try reflexivity.
  now rewrite Nat.eqb_refl, !str_eqb_refl.
Qed.

Section RemoveListener.

Variable H : Type.
Variable same : H -> H -> bool.
Hypothesis same_refl' : forall h, same h h = true.

(** Removing a listener that was registered last, and only once, gives
    back the listeners from before its registration. *)
Lemma remove_listener_last (ev : jsstring) (h : H) (l : list (jsstring * H)) :
  existsb (fun r => str_eqb (fst r) ev && same (snd r) h) l = false ->
  Socket.remove_listener H same ev h (l ++ [(ev, h)]) = l.
Proof.
  induction l as [|[ev' h'] l IH]; simpl; intros Hfresh.
  - now rewrite str_eqb_refl, same_refl'.
  - apply orb_false_iff in Hfresh as [Hhd Htl].
    rewrite Hhd. f_equal. now apply IH.
Qed.

End RemoveListener.

(** C8, amended. The cleanup of the page's WebSocket effect leaves the
    socket disconnected and without the three listeners [handleNewMint],
    [handleScarcityUpdate] and [handleEvolutionUpdate]. The cleanup of a run
    of the [ScarcityIndicator] effect exists only when the run subscribed
    (a socket, and [isConnected] true) with its new listener closure;
    called on a connected socket it
    removes the run's [scarcity_update] listener and emits
    [leave_scarcity_room] for the run's combination, and called on a
    socket that is not connected it does nothing. *)
Theorem cleanup_unsubscribes
    (socketRef : option (Socket.t IndexSocket.Listener))
    (page_socket : Socket.t IndexSocket.Listener)
    (page_cleanup : Socket.t IndexSocket.Listener -> Socket.t IndexSocket.Listener)
    (at_unmount : Socket.t IndexSocket.Listener)
    (props : ScarcityIndicator.Props) (n : nat)
    (s0 s1 s : Socket.t ScarcityIndicator.Listener) (isConnected : bool)
    (cl : Socket.t ScarcityIndicator.Listener -> Socket.t ScarcityIndicator.Listener)
    (Hpage : IndexSocket.webSocketEffect socketRef = Some (page_socket, page_cleanup))
    (Hsame : Socket.listeners at_unmount = Socket.listeners page_socket)
    (Heffect : ScarcityIndicator.subscriptionEffect props n (Some s0) isConnected
               = (Some s1, Some cl))
    (Hfresh : Socket.listening ScarcityIndicator.same (lit "scarcity_update")
                (ScarcityIndicator.listener props n) s0 = false)
    (Hlisteners : Socket.listeners s = Socket.listeners s1) :
  (Socket.connected (page_cleanup at_unmount) = false
   /\ Socket.listeners (page_cleanup at_unmount)
      = [(lit "connect", IndexSocket.onConnect);
         (lit "disconnect", IndexSocket.onDisconnect);
         (lit "connect_error", IndexSocket.onConnectError)]
   /\ Socket.listening IndexSocket.same (lit "new_mint")
        IndexSocket.handleNewMint (page_cleanup at_unmount) = false
   /\ Socket.listening IndexSocket.same (lit "scarcity_update")
        IndexSocket.handleScarcityUpdate (page_cleanup at_unmount) = false
   /\ Socket.listening IndexSocket.same (lit "evolution_update")
        IndexSocket.handleEvolutionUpdate (page_cleanup at_unmount) = false)
  /\ isConnected = true
  /\ (Socket.connected s = true ->
      Socket.listeners (cl s) = Socket.listeners s0
      /\ Socket.listening ScarcityIndicator.same (lit "scarcity_update")
           (ScarcityIndicator.listener props n) (cl s) = false
      /\ Socket.emitted (cl s)
         = Socket.emitted s
           ++ [(lit "leave_scarcity_room",
                Socket.RoomData (ScarcityIndicator.artist props)
                  (ScarcityIndicator.eventType props))])
  /\ (Socket.connected s = false -> cl s = s).
Proof.
  split.
  - assert (Hc : page_socket = IndexSocket.subscribed
                 /\ page_cleanup = IndexSocket.cleanup).
    { unfold IndexSocket.webSocketEffect in Hpage.
      destruct socketRef as [current|];
        [destruct (Socket.connected current); [discriminate|]|];
        now inversion Hpage. }
    destruct Hc as [-> ->].
    unfold IndexSocket.cleanup, Socket.listening, Socket.off, Socket.disconnect.
    cbn [Socket.listeners Socket.connected]. rewrite Hsame.
    repeat split.
  - unfold ScarcityIndicator.subscriptionEffect in Heffect.
    destruct isConnected; [|discriminate]. inversion Heffect; subst s1 cl.
    split; [reflexivity|].
    unfold ScarcityIndicator.cleanup. split; intros Hconn; rewrite Hconn;
      [|reflexivity].
    unfold Socket.listening, Socket.emit, Socket.off, Socket.on in *.
    cbn [Socket.listeners Socket.emitted Socket.connected] in *.
    rewrite Hlisteners.
    rewrite (remove_listener_last _ _ same_refl _ _ _ Hfresh).
    repeat split. exact Hfresh.
Qed.

Lemma cleanup_unsubscribes_witness :
  let props := ScarcityIndicator.pageProps Samples.ready_page in
  let s0 := Socket.connect ScarcityIndicator.useWebSocket_socket in
  let s1 :=
    Socket.on (lit "scarcity_update") (ScarcityIndicator.listener props 0)
      (Socket.emit (lit "join_scarcity_room")
         (Socket.RoomData (lit "Da Vinci") (lit "architecture")) s0) in
  IndexSocket.webSocketEffect None
  = Some (IndexSocket.subscribed, IndexSocket.cleanup)
  /\ ScarcityIndicator.subscriptionEffect props 0 (Some s0) true
     = (Some s1, Some (ScarcityIndicator.cleanup props 0))
  /\ Socket.listening ScarcityIndicator.same (lit "scarcity_update")
       (ScarcityIndicator.listener props 0) s0 = false
  /\ Socket.connected (IndexSocket.cleanup (Socket.connect IndexSocket.subscribed))
     = false
  /\ Socket.listeners (ScarcityIndicator.cleanup props 0 s1)
     = Socket.listeners s0.
Proof.
  intros props s0 s1.
  assert (Hp : IndexSocket.webSocketEffect None
               = Some (IndexSocket.subscribed, IndexSocket.cleanup))
    by reflexivity.
  assert (He : ScarcityIndicator.subscriptionEffect props 0 (Some s0) true
               = (Some s1, Some (ScarcityIndicator.cleanup props 0)))
    by reflexivity.
  assert (Hf : Socket.listening ScarcityIndicator.same (lit "scarcity_update")
                 (ScarcityIndicator.listener props 0) s0 = false)
    by reflexivity.
  split; [exact Hp|]. split; [exact He|]. split; [exact Hf|].
  destruct (cleanup_unsubscribes None IndexSocket.subscribed IndexSocket.cleanup
              (Socket.connect IndexSocket.subscribed) props 0 s0 s1 s1 true
              (ScarcityIndicator.cleanup props 0) Hp eq_refl He Hf eq_refl)
    as [[Hd _] [_ [Hconn _]]].
  split; [exact Hd|]. exact (proj1 (Hconn eq_refl)).
Defined.

(** C8 as stated fails for [ScarcityIndicator]: the run subscribed on a
    connected socket, the transport dropped, and the cleanup then leaves
    the [scarcity_update] listener registered and emits nothing. *)
Lemma cleanup_skipped_when_disconnected :
  let props := ScarcityIndicator.pageProps Samples.ready_page in
  let s0 := Socket.connect ScarcityIndicator.useWebSocket_socket in
  exists s1 cl,
    ScarcityIndicator.subscriptionEffect props 0 (Some s0) true
    = (Some s1, Some cl)
    /\ Socket.listening ScarcityIndicator.same (lit "scarcity_update")
         (ScarcityIndicator.listener props 0) (cl (Socket.disconnect s1)) = true
    /\ Socket.emitted (cl (Socket.disconnect s1))
       = [(lit "join_scarcity_room",
           Socket.RoomData (lit "Da Vinci") (lit "architecture"))].
Proof.
  intros props s0. do 2 eexists.
  split; [reflexivity|]. split; reflexivity.
Qed.

End Cleanup.

(** ** [scarcity_update] messages on the page and in the indicator *)

Section ScarcityMessages.

Import Index.

Import SubscriptionSpec.












End ScarcityMessages.

(** ** Random hex strings *)

Section RandomHex.

Import Index PlatformSpec.

Lemma max_string_length_at_least (P : Platform) :
  shortest_string_limit <= max_string_length P.
Proof. unfold max_string_length. lia. Qed.

Lemma padEnd_checked_within (s fill : jsstring) (n : Z) (P : Platform) (k : nat) :
  n <= max_string_length P ->
  padEnd_checked s n fill P k = (Normal (padEnd s n fill), k).
Proof.
  intros Hn. unfold padEnd_checked.
  destruct (Z.ltb_spec (max_string_length P) n); [lia|].
  now rewrite andb_false_r.
Qed.

Lemma padEnd_checked_short (s fill : jsstring) (n : Z) (P : Platform) (k : nat) :
  n <= len s ->
  padEnd_checked s n fill P k = (Normal (padEnd s n fill), k).
Proof.
  intros Hn. unfold padEnd_checked.
  destruct (Z.ltb_spec (len s) n); [lia|]. reflexivity.
Qed.

Lemma padEnd_checked_beyond (s : jsstring) (n : Z) (P : Platform) (k : nat) :
  len s < n -> max_string_length P < n ->
  padEnd_checked s n (lit "0") P k = (Throw invalid_string_length, k).
Proof.
  intros Hs Hn. unfold padEnd_checked.
  destruct (Z.ltb_spec (len s) n); [|lia].
  destruct (Z.ltb_spec (max_string_length P) n); [|lia]. reflexivity.
Qed.

(** The [catch] block of [generateRandomHex]: one call of [Math.random],
    then the [padEnd]. *)
Lemma generateRandomHex_catch (n : Z) (P : Platform) (k : nat) :
  (r <- Math_random_toString16 ;;
   padEnd_checked (substring r 2 (n + 2)) n (lit "0")) P k
  = padEnd_checked (substring (random_toString16 P k) 2 (n + 2)) n (lit "0")
      P (S k).
Proof. reflexivity. Qed.

(** [generateRandomHex] completes normally on every platform for every
    integer up to the longest string of the platform: what its [try] block
    throws is caught, and the [padEnd] of the fallback stays within the
    limit. *)
Lemma generateRandomHex_returns (n : Z) (P : Platform) (k : nat) :
  n <= max_string_length P ->
  exists s k', generateRandomHex n P k = (Normal s, k').
Proof.
  intros Hn. unfold generateRandomHex, try_catch.
  destruct ((n <=? 0) || negb (Z.rem n 2 =? 0)).
  - cbn [throw]. rewrite generateRandomHex_catch, padEnd_checked_within by exact Hn.
    do 2 eexists. reflexivity.
  - unfold bind at 1. unfold crypto_getRandomValues.
    destruct (getRandomValues P k (Z.to_nat (n / 2))) as [bytes|e].
    + unfold join_empty.
      destruct (max_string_length P <? len (concat (map hex_pair bytes))).
      * rewrite generateRandomHex_catch, padEnd_checked_within by exact Hn.
        do 2 eexists. reflexivity.
      * do 2 eexists. reflexivity.
    + rewrite generateRandomHex_catch, padEnd_checked_within by exact Hn.
      do 2 eexists. reflexivity.
Qed.

(** The lengths the page asks for are within every limit. *)
Lemma generateRandomHex_16 (P : Platform) (k : nat) :
  exists s k', generateRandomHex 16 P k = (Normal s, k').
Proof.
  apply generateRandomHex_returns.
  pose proof (max_string_length_at_least P). unfold shortest_string_limit in *.
  lia.
Qed.

Lemma hex_pair_table :
  forallb (fun i => let s := hex_pair (N.of_nat i) in
                    Nat.eqb (length s) 2 && forallb isLowerHex s)
    (seq 0 256) = true.
Proof. vm_compute. reflexivity. Qed.

Lemma hex_pair_ok (b : N) :
  (b < 256)%N ->
  length (hex_pair b) = 2%nat /\ Forall (fun c => isLowerHex c = true) (hex_pair b).
Proof.
  intros Hb.
  assert (Hin : In (N.to_nat b) (seq 0 256)) by (apply in_seq; lia).
  pose proof (proj1 (forallb_forall _ _) hex_pair_table _ Hin) as Ht.
  cbv beta zeta in Ht. rewrite N2Nat.id in Ht.
  apply andb_true_iff in Ht as [Hl Hh].
  split; [now apply Nat.eqb_eq|].
  apply Forall_forall. now apply forallb_forall.
Qed.

Lemma concat_hex_pairs (bytes : list N) :
  Forall (fun b => (b < 256)%N) bytes ->
  length (concat (map hex_pair bytes)) = (2 * length bytes)%nat
  /\ Forall (fun c => isLowerHex c = true) (concat (map hex_pair bytes)).
Proof.
  induction 1 as [|b bytes Hb _ [IHl IHh]]; simpl.
  - split; [reflexivity | constructor].
  - destruct (hex_pair_ok b Hb) as [Hl Hh].
    rewrite length_app, Hl, IHl. split; [lia|].
    apply Forall_app. now split.
Qed.

Lemma filler_zero (m : nat) : filler (lit "0") m = repeat 48%N m.
Proof.
  unfold filler.
  assert (Hc : forall j, concat (repeat (lit "0") j) = repeat 48%N j).
  { induction j; simpl; [reflexivity | now f_equal]. }
  rewrite Hc. rewrite <- (repeat_length 48%N m) at 1. apply firstn_all.
Qed.

Lemma padEnd_zero_length (s : jsstring) (n : Z) :
  len s <= n -> len (padEnd s n (lit "0")) = n.
Proof.
  intros Hs. unfold padEnd. simpl truthy_str. simpl negb. rewrite orb_false_r.
  destruct (Z.leb_spec n (len s)); [lia|].
  rewrite filler_zero. unfold len in *.
  rewrite length_app, repeat_length. lia.
Qed.

Lemma padEnd_zero_hex (s : jsstring) (n : Z) :
  Forall (fun c => isLowerHex c = true) s ->
  Forall (fun c => isLowerHex c = true) (padEnd s n (lit "0")).
Proof.
  intros Hs. unfold padEnd. simpl truthy_str. simpl negb. rewrite orb_false_r.
  destruct (n <=? len s); [exact Hs|].
  rewrite filler_zero. apply Forall_app. split; [exact Hs|].
  apply Forall_forall. intros c Hc. apply repeat_spec in Hc. now subst.
Qed.

Lemma substring_length (s : jsstring) (n : Z) :
  0 <= n -> len (substring s 2 (n + 2)) <= n.
Proof.
  intros Hn. unfold substring, len, clamp.
  rewrite length_firstn. lia.
Qed.

Lemma substring_random_hex (r : jsstring) (n : Z) :
  (r = lit "0"
   \/ exists digits, r = lit "0." ++ digits
                     /\ Forall (fun c => isLowerHex c = true) digits) ->
  0 <= n ->
  Forall (fun c => isLowerHex c = true) (substring r 2 (n + 2)).
Proof.
  intros Hr Hn. unfold substring.
  apply Forall_forall. intros c Hc. apply In_firstn in Hc.
  destruct Hr as [-> | (digits & -> & Hd)].
  - unfold clamp, len in Hc. simpl length in Hc.
    replace (Z.to_nat _) with 1%nat in Hc by lia. destruct Hc.
  - unfold clamp, len in Hc. rewrite length_app in Hc. simpl length in Hc.
    replace (Z.to_nat _) with 2%nat in Hc by lia.
    simpl in Hc. rewrite Forall_forall in Hd. now apply Hd.
Qed.

Lemma substring_at_most (s : jsstring) (a b : Z) :
  len (substring s a b) <= len s.
Proof.
  unfold substring, len. rewrite length_firstn, length_skipn. lia.
Qed.

(** Beyond the longest string of the platform the function throws: the
    [try] block cannot produce the string, and the [padEnd] of the [catch]
    block throws in its turn. *)
Lemma generateRandomHex_throws (P : Platform) (n : Z) (k : nat) :
  bytes_ok P ->
  (forall j, len (random_toString16 P j) <= max_string_length P) ->
  max_string_length P < n ->
  exists k', generateRandomHex n P k = (Throw invalid_string_length, k').
Proof.
  intros Hbytes Hfit Hn.
  assert (Hcatch : forall j,
             (r <- Math_random_toString16 ;;
              padEnd_checked (substring r 2 (n + 2)) n (lit "0")) P j
             = (Throw invalid_string_length, S j)).
  { intros j. rewrite generateRandomHex_catch.
    apply padEnd_checked_beyond; [|exact Hn].
    pose proof (substring_at_most (random_toString16 P j) 2 (n + 2)).
    specialize (Hfit j). lia. }
  pose proof (max_string_length_at_least P) as Hmin.
  unfold shortest_string_limit in Hmin.
  unfold generateRandomHex, try_catch.
  destruct ((n <=? 0) || negb (Z.rem n 2 =? 0)) eqn:Ec.
  - cbn [throw]. rewrite Hcatch. now eexists.
  - apply orb_false_iff in Ec as [_ Hrem].
    apply negb_false_iff, Z.eqb_eq in Hrem.
    rewrite Z.rem_mod_nonneg in Hrem by lia.
    pose proof (Z.div_mod n 2 ltac:(lia)) as Hdiv.
    unfold bind at 1. unfold crypto_getRandomValues.
    destruct (getRandomValues P k (Z.to_nat (n / 2))) as [bytes|e] eqn:Eb.
    + destruct (Hbytes _ _ _ Eb) as [Hl Hlt].
      destruct (concat_hex_pairs bytes Hlt) as [Hcl _].
      unfold join_empty.
      destruct (Z.ltb_spec (max_string_length P)
                  (len (concat (map hex_pair bytes)))) as [_|Hle].
      * rewrite Hcatch. now eexists.
      * unfold len in Hle. rewrite Hcl, Hl in Hle. lia.
    + rewrite Hcatch. now eexists.
Qed.

(** C10, amended. [generateRandomHex] completes normally on every platform
    for every integer up to the longest string of the platform; on a
    platform whose [crypto] fills arrays with bytes and whose [Math.random]
    is in [0, 1), for a positive even [n] up to that limit the result has
    exactly [n] code units, each a lowercase hexadecimal digit; and for an
    [n] beyond the limit the function throws the RangeError of the
    [padEnd] in its [catch] block. *)
Theorem generateRandomHex_total_and_hex (P : Platform) (n : Z) (k : nat)
    (Hbytes : bytes_ok P) (Hrandom : random16_ok P) :
  (forall (m : Z) (Q : Platform) (j : nat),
      m <= max_string_length Q ->
      exists s j', generateRandomHex m Q j = (Normal s, j'))
  /\ (0 < n -> Z.even n = true -> n <= max_string_length P ->
      exists s k',
        generateRandomHex n P k = (Normal s, k')
        /\ len s = n
        /\ Forall (fun c => isLowerHex c = true) s)
  /\ (max_string_length P < n ->
      (forall j, len (random_toString16 P j) <= max_string_length P) ->
      exists k', generateRandomHex n P k = (Throw invalid_string_length, k')).
Proof.
  split; [intros m Q j; apply generateRandomHex_returns|].
  split; [|intros Hn Hfit; now apply generateRandomHex_throws].
  intros Hpos Heven Hmax.
  assert (Hrem : Z.rem n 2 = 0).
  { rewrite Z.rem_mod_nonneg by lia. rewrite Zmod_even, Heven. reflexivity. }
  assert (Hhalf : n = 2 * (n / 2)).
  { rewrite Z.rem_mod_nonneg in Hrem by lia.
    pose proof (Z.div_mod n 2 ltac:(lia)). lia. }
  unfold generateRandomHex, try_catch.
  destruct (Z.leb_spec n 0); [lia|]. rewrite Hrem. cbn [Z.eqb negb orb].
  unfold bind at 1. unfold crypto_getRandomValues.
  destruct (getRandomValues P k (Z.to_nat (n / 2))) as [bytes|e] eqn:Eb.
  - destruct (Hbytes _ _ _ Eb) as [Hl Hlt].
    destruct (concat_hex_pairs bytes Hlt) as [Hcl Hch].
    assert (Hlen : len (concat (map hex_pair bytes)) = n).
    { unfold len. rewrite Hcl, Hl. lia. }
    unfold join_empty. rewrite Hlen.
    destruct (Z.ltb_spec (max_string_length P) n); [lia|].
    do 2 eexists. split; [reflexivity|]. split; [exact Hlen | exact Hch].
  - rewrite generateRandomHex_catch, padEnd_checked_within by exact Hmax.
    do 2 eexists. split; [reflexivity|]. split.
    + apply padEnd_zero_length. apply substring_length. lia.
    + apply padEnd_zero_hex. apply substring_random_hex; [apply Hrandom | lia].
Qed.

Lemma sample_platform_bytes_ok : bytes_ok Samples.platform.
Proof.
  intros k n bytes. cbn [getRandomValues Samples.platform].
  destruct (Z.of_nat n <=? 65536); [|discriminate].
  intros [= <-]. split; [apply repeat_length|].
  apply Forall_forall. intros b Hb. apply repeat_spec in Hb. now subst.
Qed.

Lemma sample_platform_random16_ok : random16_ok Samples.platform.
Proof.
  intros k. right. exists (lit "8f3a"). split; [reflexivity|].
  repeat constructor.
Qed.

Lemma generateRandomHex_total_and_hex_witness :
  bytes_ok Samples.platform /\ random16_ok Samples.platform
  /\ exists s k',
      generateRandomHex 16 Samples.platform 0%nat = (Normal s, k')
      /\ len s = 16
      /\ Forall (fun c => isLowerHex c = true) s.
Proof.
  split; [exact sample_platform_bytes_ok|].
  split; [exact sample_platform_random16_ok|].
  assert (Hmax : 16 <= max_string_length Samples.platform) by discriminate.
  exact (proj1 (proj2 (generateRandomHex_total_and_hex Samples.platform 16 0%nat
                         sample_platform_bytes_ok sample_platform_random16_ok))
           eq_refl eq_refl Hmax).
Defined.

(** C10 as stated fails: on the sample platform, whose strings have at
    most [2^29 - 24] code units, [generateRandomHex(2147483648)] throws.
    [crypto] refuses the array, and the [padEnd] of the [catch] block
    cannot build the string. *)
Lemma generateRandomHex_throws_on_long :
  bytes_ok Samples.platform /\ random16_ok Samples.platform
  /\ exists k',
      generateRandomHex 2147483648 Samples.platform 0%nat
      = (Throw invalid_string_length, k').
Proof.
  split; [exact sample_platform_bytes_ok|].
  split; [exact sample_platform_random16_ok|].
  apply generateRandomHex_throws.
  - exact sample_platform_bytes_ok.
  - intros j. discriminate.
  - reflexivity.
Qed.

(** The two paths on samples: sixteen digits from eight bytes, and the
    fallback for an odd length. *)
Lemma generateRandomHex_samples :
  generateRandomHex 16 Samples.platform 0%nat
  = (Normal (lit "abababababababab"), 1%nat)
  /\ generateRandomHex 7 Samples.platform 0%nat
     = (Normal (lit "8f3a000"), 1%nat)
  /\ generateRandomHex 8 Samples.platform_without_crypto 0%nat
     = (Normal (lit "8f3a0000"), 2%nat)
  /\ generateRandomHex (-5) Samples.platform 0%nat
     = (Normal (lit "0."), 1%nat).
Proof. repeat split. Qed.

End RandomHex.

(** ** Uniqueness factors *)

Section UniquenessFactors.

Import Index PlatformSpec.

Lemma slice_last16 (p : jsstring) : slice_from p (-16) = last16 p.
Proof.
  unfold slice_from, last16, len. cbn [Z.ltb Z.compare].
  f_equal. lia.
Qed.

Lemma last16_length (p : jsstring) : length (last16 p) = Nat.min 16 (length p).
Proof. unfold last16. rewrite length_skipn. lia. Qed.

Lemma padStart_last16 (p : jsstring) :
  padStart (last16 p) 16 (lit "0") = padded_last16 p.
Proof.
  unfold padStart, padded_last16. simpl truthy_str. simpl negb.
  rewrite orb_false_r. pose proof (last16_length p) as Hl.
  destruct (Z.leb_spec 16 (len (last16 p))) as [Hge|Hlt]; unfold len in *.
  - replace (16 - length (last16 p))%nat with 0%nat by lia. reflexivity.
  - rewrite filler_zero. do 2 f_equal. lia.
Qed.

Lemma padded_last16_length (p : jsstring) : length (padded_last16 p) = 16%nat.
Proof.
  unfold padded_last16. rewrite length_app, repeat_length, last16_length. lia.
Qed.

(** One call for a wallet with a principal: the [try] block completes, so
    the wallet part of the result is the one it computes. *)
Lemma generateUniquenessFactors_wallet (w : WalletInfo) (P : Platform) (k : nat) :
  principal w <> [] ->
  exists u k',
    generateUniquenessFactors (Some w) P k = (Normal u, k')
    /\ wallet_entropy u = padded_last16 (principal w)
    /\ wallet_principal u = Some (principal w)
    /\ wallet_account_id u = str_or_null (accountId w)
    /\ biometric_opt_in u = false
    /\ biometric_hash u = None.
Proof.
  intros Hp. apply truthy_str_iff in Hp.
  unfold generateUniquenessFactors, try_catch.
  destruct (generateRandomHex_16 P k) as (h & k1 & Hh).
  rewrite (bind_normal _ _ _ _ _ _ Hh).
  unfold bind, Date_now, ret. rewrite Hp.
  do 2 eexists. split; [reflexivity|]. cbn.
  rewrite slice_last16, padStart_last16. unfold str_or_null. rewrite Hp.
  repeat split.
Qed.

(** Whatever the wallet, the call completes with the biometric fields
    off. *)
Lemma generateUniquenessFactors_biometric (walletInfo : option WalletInfo)
    (P : Platform) (k : nat) :
  exists u k',
    generateUniquenessFactors walletInfo P k = (Normal u, k')
    /\ biometric_opt_in u = false
    /\ biometric_hash u = None.
Proof.
  unfold generateUniquenessFactors, try_catch.
  destruct (generateRandomHex_16 P k) as (h & k1 & Hh).
  rewrite (bind_normal _ _ _ _ _ _ Hh).
  unfold bind at 1. unfold Date_now at 1.
  assert (He : exists e k2,
             match walletInfo with
             | Some w =>
                 if truthy_str (principal w)
                 then ret (padStart (slice_from (principal w) (-16)) 16 (lit "0"))
                 else generateRandomHex 16
             | None => generateRandomHex 16
             end P (S k1) = (Normal e, k2)).
  { destruct walletInfo as [w|]; [destruct (truthy_str (principal w))|];
      try apply generateRandomHex_16. do 2 eexists. reflexivity. }
  destruct He as (e & k2 & He).
  rewrite (bind_normal _ _ _ _ _ _ He).
  do 2 eexists. split; [reflexivity|]. split; reflexivity.
Qed.

(** C9, amended. For a wallet with a non-empty principal, two calls of
    [generateUniquenessFactors], on any platforms, complete with the same
    [wallet_entropy]: the last 16 code units of the principal left-padded
    with 0 to length 16; with [wallet_principal] the principal; and with
    [wallet_account_id] the account id when that is not empty and [null]
    when it is. For every wallet, [biometric_opt_in] is false and
    [biometric_hash] is [null]. *)
Theorem wallet_factors_deterministic (w : WalletInfo)
    (P1 P2 : Platform) (k1 k2 : nat)
    (Hprincipal : principal w <> []) :
  (exists u1 u2 j1 j2,
      generateUniquenessFactors (Some w) P1 k1 = (Normal u1, j1)
      /\ generateUniquenessFactors (Some w) P2 k2 = (Normal u2, j2)
      /\ wallet_entropy u1 = wallet_entropy u2
      /\ wallet_entropy u1 = padded_last16 (principal w)
      /\ length (wallet_entropy u1) = 16%nat
      /\ wallet_principal u1 = Some (principal w)
      /\ wallet_principal u2 = Some (principal w)
      /\ wallet_account_id u1 = wallet_account_id u2
      /\ (accountId w <> [] -> wallet_account_id u1 = Some (accountId w))
      /\ (accountId w = [] -> wallet_account_id u1 = None))
  /\ (forall (walletInfo : option WalletInfo) (Q : Platform) (j : nat),
         exists u j',
           generateUniquenessFactors walletInfo Q j = (Normal u, j')
           /\ biometric_opt_in u = false
           /\ biometric_hash u = None).
Proof.
  split; [|apply generateUniquenessFactors_biometric].
  destruct (generateUniquenessFactors_wallet w P1 k1 Hprincipal)
    as (u1 & j1 & H1 & He1 & Hp1 & Ha1 & _).
  destruct (generateUniquenessFactors_wallet w P2 k2 Hprincipal)
    as (u2 & j2 & H2 & He2 & Hp2 & Ha2 & _).
  exists u1, u2, j1, j2.
  repeat split; try assumption; try congruence.
  - rewrite He1. apply padded_last16_length.
  - rewrite Ha1. unfold str_or_null.
    destruct (accountId w); [congruence | reflexivity].
  - intros Ha. rewrite Ha1, Ha. reflexivity.
Qed.

Lemma wallet_factors_deterministic_witness :
  principal Samples.wallet_full <> []
  /\ exists u1 u2 j1 j2,
      generateUniquenessFactors (Some Samples.wallet_full)
        Samples.platform 0%nat = (Normal u1, j1)
      /\ generateUniquenessFactors (Some Samples.wallet_full)
           Samples.platform_without_crypto 5%nat = (Normal u2, j2)
      /\ wallet_entropy u1 = wallet_entropy u2
      /\ wallet_entropy u1 = padded_last16 (principal Samples.wallet_full).
Proof.
  assert (Hp : principal Samples.wallet_full <> []) by discriminate.
  split; [exact Hp|].
  destruct (wallet_factors_deterministic Samples.wallet_full
              Samples.platform Samples.platform_without_crypto 0%nat 5%nat Hp)
    as [(u1 & u2 & j1 & j2 & H1 & H2 & He & Hl & _) _].
  exists u1, u2, j1, j2. repeat split; assumption.
Defined.

(** The entropy of the sample wallets: the last 16 code units of a long
    principal, and a short principal behind seven zeros. *)
Lemma padded_long_principal :
  padded_last16 (principal Samples.wallet_full) = lit "-aaaaa-aaaaq-cai".
Proof. reflexivity. Qed.

Lemma padded_short_principal :
  padded_last16 (principal Samples.wallet_principal_only) = lit "00000002vxsx-fae".
Proof. reflexivity. Qed.

(** C9 as stated fails: for a wallet with a principal and an empty account
    id, [wallet_account_id] is [null], not the account id. *)
Lemma empty_account_id_becomes_null :
  principal Samples.wallet_principal_only <> []
  /\ exists u k',
      generateUniquenessFactors (Some Samples.wallet_principal_only)
        Samples.platform 0%nat = (Normal u, k')
      /\ wallet_account_id u = None
      /\ wallet_account_id u <> Some (accountId Samples.wallet_principal_only).
Proof.
  split; [discriminate|]. do 2 eexists.
  split; [lazy; reflexivity|]. split; [reflexivity | discriminate].
Qed.

End UniquenessFactors.

(** ** Lookups in the scarcity cache *)

Section CacheLookup.

Import Index IndexForm.

Lemma find_map_preserving {A : Type} (p : A -> bool) (f : A -> A) (l : list A) :
  (forall x, p (f x) = p x) ->
  find p (map f l) = option_map f (find p l).
Proof.
  intros Hp. induction l as [|x l IH]; simpl; [reflexivity|].
  rewrite Hp. now destruct (p x).
Qed.

Lemma is_combination_newMint (a e : jsstring) (data : NewMintMessage)
    (combo : CombinationScarcityAPI) :
  is_combination a e (newMint_combo data combo) = is_combination a e combo.
Proof.
  unfold newMint_combo.
  now destruct (is_combination (nm_artist data) (nm_event_type data) combo).
Qed.

Lemma lookup_handleNewMint (a e : jsstring) (data : NewMintMessage) (st : State) :
  getScarcityForCombination a e (handleNewMint data st)
  = option_map (fun c => scarcity_info (newMint_combo data c))
      (find (is_combination a e) (allCombinationsScarcity st)).
Proof.
  unfold getScarcityForCombination. rewrite allCombinations_handleNewMint.
  destruct (allCombinationsScarcity st) as [|c l] eqn:E; [reflexivity|].
  cbn [map]. rewrite <- (map_cons (newMint_combo data) c l).
  rewrite find_map_preserving by (intros x; apply is_combination_newMint).
  now destruct (find (is_combination a e) (c :: l)).
Qed.

Lemma lookup_find (a e : jsstring) (st : State) :
  getScarcityForCombination a e st
  = option_map scarcity_info
      (find (is_combination a e) (allCombinationsScarcity st)).
Proof.
  unfold getScarcityForCombination.
  now destruct (allCombinationsScarcity st).
Qed.

(** X1. After a [new_mint] message, looking up the message's combination
    gives the info found before with one more minted, the remaining slots
    and the sold-out flag recomputed from the limit; looking up any other
    combination gives what it gave before; and a combination that was not
    cached is still not cached. *)
Theorem lookup_after_new_mint (data : NewMintMessage) (st : State)
    (a e : jsstring) :
  (a = nm_artist data /\ e = nm_event_type data ->
   forall info, getScarcityForCombination a e st = Some info ->
     exists info',
       getScarcityForCombination a e (handleNewMint data st) = Some info'
       /\ minted_count info' = minted_count info + 1
       /\ total_limit info' = total_limit info
       /\ remaining_slots info'
          = Some (total_limit info - (minted_count info + 1))
       /\ is_sold_out info'
          = (total_limit info - (minted_count info + 1) <=? 0))
  /\ (~ (a = nm_artist data /\ e = nm_event_type data) ->
      getScarcityForCombination a e (handleNewMint data st)
      = getScarcityForCombination a e st)
  /\ (getScarcityForCombination a e st = None ->
      getScarcityForCombination a e (handleNewMint data st) = None).
Proof.
  rewrite lookup_handleNewMint, lookup_find.
  destruct (find (is_combination a e) (allCombinationsScarcity st))
    as [c|] eqn:Ef; simpl.
  2:{ repeat split; intros; try reflexivity; discriminate. }
  apply find_some in Ef as [_ Hc]. apply is_combination_iff in Hc as [Ha He].
  split; [|split; [|discriminate]].
  - intros [-> ->] info [= <-]. unfold newMint_combo.
    rewrite (proj2 (is_combination_iff _ _ _) (conj Ha He)).
    eexists. split; [reflexivity|]. cbn. rewrite !num_or_zero.
    repeat split.
  - intros Hn. unfold newMint_combo.
    destruct (is_combination (nm_artist data) (nm_event_type data) c) eqn:E;
      [|reflexivity].
    apply is_combination_iff in E as [Ha' He']. destruct Hn. split; congruence.
Qed.

Lemma lookup_after_new_mint_witness :
  getScarcityForCombination (lit "Da Vinci") (lit "architecture")
    Samples.ready_page
  = Some (scarcity_info ScarcitySpec.sample_combo)
  /\ exists info',
      getScarcityForCombination (lit "Da Vinci") (lit "architecture")
        (handleNewMint ScarcitySpec.sample_mint Samples.ready_page)
      = Some info'
      /\ minted_count info' = 4
  /\ getScarcityForCombination (lit "Monet") (lit "nature")
       (handleNewMint ScarcitySpec.sample_mint Samples.ready_page)
     = getScarcityForCombination (lit "Monet") (lit "nature") Samples.ready_page.
Proof.
  pose proof (lookup_after_new_mint ScarcitySpec.sample_mint Samples.ready_page
                (lit "Da Vinci") (lit "architecture")) as [H1 _].
  pose proof (lookup_after_new_mint ScarcitySpec.sample_mint Samples.ready_page
                (lit "Monet") (lit "nature")) as [_ [H2 _]].
  split; [reflexivity|].
  destruct (H1 (conj eq_refl eq_refl) _ eq_refl) as (info' & Hl & Hm & _).
  exists info'. split; [exact Hl|]. split; [exact Hm|].
  apply H2. intros [Ha _]. discriminate Ha.
Defined.

(** X2. With a connected wallet, in basic mode, when the selected
    combination is cached, a [new_mint] for it makes [validateForm] block
    with the sold-out message exactly when at most one slot was left
    before the mint; the flag is recomputed from the counts, so an earlier
    sold-out flag does not survive a mint that leaves slots. *)
Theorem new_mint_sells_out_selection (data : NewMintMessage) (st : State)
    (info : ScarcityInfo)
    (Hwallet : wallet st <> None)
    (Hmode : mode st = basic)
    (Hartist : selectedArtist st = nm_artist data)
    (Hevent : selectedEvent st = nm_event_type data)
    (Ha : selectedArtist st <> [])
    (He : selectedEvent st <> [])
    (Hcached : getScarcityForCombination (selectedArtist st) (selectedEvent st) st
               = Some info) :
  (total_limit info - minted_count info <= 1 ->
   validateForm (handleNewMint data st)
   = Some (lit "The " ++ selectedArtist st ++ lit " - " ++ selectedEvent st
           ++ lit " combination is currently sold out."))
  /\ (1 < total_limit info - minted_count info ->
      validateForm (handleNewMint data st) = None).
Proof.
  destruct (lookup_after_new_mint data st (selectedArtist st) (selectedEvent st))
    as [Hup _].
  destruct (Hup (conj Hartist Hevent) info Hcached)
    as (info' & Hl & _ & _ & _ & Hs).
  unfold validateForm.
  change (wallet (handleNewMint data st)) with (wallet st).
  change (mode (handleNewMint data st)) with (mode st).
  change (selectedArtist (handleNewMint data st)) with (selectedArtist st).
  change (selectedEvent (handleNewMint data st)) with (selectedEvent st).
  destruct (wallet st); [|contradiction]. rewrite Hmode.
  apply truthy_str_iff in Ha, He. rewrite Ha, He. cbn [negb].
  rewrite Hl, Hs. split; intros Hle.
  - destruct (Z.leb_spec (total_limit info - (minted_count info + 1)) 0);
      [reflexivity | lia].
  - destruct (Z.leb_spec (total_limit info - (minted_count info + 1)) 0);
      [lia | reflexivity].
Qed.

End CacheLookup.

Section CacheLookupWitness.

Import Index IndexForm.

Lemma new_mint_sells_out_selection_witness :
  wallet MoreSamples.monet_page <> None
  /\ getScarcityForCombination (lit "Monet") (lit "nature") MoreSamples.monet_page
     = Some (scarcity_info ScarcitySpec.other_combo)
  /\ validateForm MoreSamples.monet_page = None
  /\ validateForm (handleNewMint MoreSamples.monet_mint MoreSamples.monet_page)
     = Some (lit "The Monet - nature combination is currently sold out.").
Proof.
  assert (Hw : wallet MoreSamples.monet_page <> None) by discriminate.
  split; [exact Hw|]. split; [reflexivity|]. split; [reflexivity|].
  refine (proj1 (new_mint_sells_out_selection MoreSamples.monet_mint
                   MoreSamples.monet_page (scarcity_info ScarcitySpec.other_combo)
                   Hw eq_refl eq_refl eq_refl _ _ eq_refl) _).
  - discriminate.
  - discriminate.
  - cbn. lia.
Defined.

End CacheLookupWitness.

(** ** The generate button and the validation *)

Section GenerateButton.

Import Index IndexForm GenerationSpec.

(** X3. In basic mode an enabled generate button means a press passes
    [validateForm]: the wallet is connected, nothing is loading, and the
    selected combination is cached and not sold out. *)
Theorem enabled_button_passes_validation (st : State)
    (Hmode : mode st = basic)
    (Henabled : generateDisabled st = false) :
  validateForm st = None
  /\ wallet st <> None
  /\ initialData (loadingStates st) = false
  /\ nftGeneration (loadingStates st) = false
  /\ exists info,
      getScarcityForCombination (selectedArtist st) (selectedEvent st) st
      = Some info
      /\ is_sold_out info = false.
Proof.
  unfold generateDisabled in Henabled. unfold validateForm.
  rewrite Hmode in *.
  destruct (wallet st); [|discriminate].
  destruct (initialData (loadingStates st)); [discriminate|].
  destruct (nftGeneration (loadingStates st)); [discriminate|].
  destruct (truthy_str (selectedArtist st)); [|discriminate].
  destruct (truthy_str (selectedEvent st)); [|discriminate].
  cbn [negb orb] in *.
  destruct (getScarcityForCombination (selectedArtist st) (selectedEvent st) st)
    as [info|]; [|discriminate].
  destruct (is_sold_out info) eqn:Es; [discriminate|].
  repeat split; try discriminate. now exists info.
Qed.

Lemma enabled_button_passes_validation_witness :
  mode Samples.ready_page = basic
  /\ generateDisabled Samples.ready_page = false
  /\ validateForm Samples.ready_page = None.
Proof.
  split; [reflexivity|]. split; [reflexivity|].
  exact (proj1 (enabled_button_passes_validation Samples.ready_page
                  eq_refl eq_refl)).
Defined.

(** X4. In basic mode, with a connected wallet and an artist selected, an
    event for whose combination nothing is cached is offered as an enabled
    option; once it is selected, [validateForm] lets the form pass but the
    generate button is disabled. *)
Theorem uncached_event_selectable_but_not_generable (st : State)
    (event : jsstring)
    (Hwallet : wallet st <> None)
    (Hmode : mode st = basic)
    (Hartist : selectedArtist st <> [])
    (Hevent : event <> [])
    (Huncached : getScarcityForCombination (selectedArtist st) event st = None) :
  eventOptionDisabled event st = false
  /\ validateForm (onEventChange event st) = None
  /\ generateDisabled (onEventChange event st) = true.
Proof.
  assert (Hl : getScarcityForCombination (selectedArtist st) event
                 (onEventChange event st) = None) by exact Huncached.
  split; [|split].
  - unfold eventOptionDisabled. now rewrite Huncached.
  - unfold validateForm.
    change (wallet (onEventChange event st)) with (wallet st).
    change (mode (onEventChange event st)) with (mode st).
    change (selectedArtist (onEventChange event st)) with (selectedArtist st).
    change (selectedEvent (onEventChange event st)) with event.
    destruct (wallet st); [|contradiction]. rewrite Hmode.
    apply truthy_str_iff in Hartist, Hevent. rewrite Hartist, Hevent.
    cbn [negb]. now rewrite Hl.
  - unfold generateDisabled.
    change (wallet (onEventChange event st)) with (wallet st).
    change (mode (onEventChange event st)) with (mode st).
    change (selectedArtist (onEventChange event st)) with (selectedArtist st).
    change (selectedEvent (onEventChange event st)) with event.
    rewrite Hmode, Hl. rewrite !orb_true_r. reflexivity.
Qed.

Lemma uncached_event_selectable_but_not_generable_witness :
  getScarcityForCombination (lit "Da Vinci") (lit "portrait") Samples.ready_page
  = None
  /\ eventOptionDisabled (lit "portrait") Samples.ready_page = false
  /\ validateForm MoreSamples.uncached_page = None
  /\ generateDisabled MoreSamples.uncached_page = true.
Proof.
  split; [reflexivity|].
  refine (uncached_event_selectable_but_not_generable Samples.ready_page
            (lit "portrait") _ eq_refl _ _ eq_refl); discriminate.
Defined.

(** Every message of [validateForm] is a non-empty string. *)
Lemma validateForm_message_nonempty (st : State) (msg : jsstring) :
  validateForm st = Some msg -> truthy_str msg = true.
Proof.
  unfold validateForm.
  destruct (wallet st); [|now intros [= <-]].
  destruct (mode st).
  - destruct (negb (truthy_str (selectedArtist st))); [now intros [= <-]|].
    destruct (negb (truthy_str (selectedEvent st))); [now intros [= <-]|].
    destruct (getScarcityForCombination _ _ st) as [info|]; [|discriminate].
    destruct (is_sold_out info); [|discriminate]. now intros [= <-].
  - destruct (negb (truthy_str (trim (customPrompt st)))); [now intros [= <-]|].
    destruct (len (trim (customPrompt st)) <? 10); [now intros [= <-]|].
    destruct (500 <? len (trim (customPrompt st))); [now intros [= <-]|].
    discriminate.
Qed.

(** X5. When [validateForm] returns a message, [handleUpdatePreview] makes
    no platform call and does not depend on the network: it completes with
    the state it was called in, except that the validation error is that
    message and the [nftGeneration] error is cleared. No toast is shown, no
    loading flag is set and the NFT on display is kept. *)
Theorem invalid_form_sends_nothing
    (post post' : RequestData -> completion ResponseData) (st : State)
    (P P' : Platform) (k : nat) (msg : jsstring)
    (Hinvalid : validateForm st = Some msg) :
  handleUpdatePreview post st P k
  = (Normal (setErrors (set_err_validation (Some msg))
               (clearErrors_nftGeneration st)), k)
  /\ handleUpdatePreview post' st P' k = handleUpdatePreview post st P k.
Proof.
  assert (H : forall q Q,
             handleUpdatePreview q st Q k
             = (Normal (setErrors (set_err_validation (Some msg))
                          (clearErrors_nftGeneration st)), k)).
  { intros q Q. unfold handleUpdatePreview.
    change (wallet (clearErrors_validation (clearErrors_nftGeneration st)))
      with (wallet st).
    change (validateForm (clearErrors_validation (clearErrors_nftGeneration st)))
      with (validateForm st).
    rewrite Hinvalid. rewrite (validateForm_message_nonempty st msg Hinvalid).
    destruct (wallet st) eqn:Ew.
    - reflexivity.
    - unfold validateForm in Hinvalid. rewrite Ew in Hinvalid.
      injection Hinvalid as <-. reflexivity. }
  split; [apply H|]. now rewrite !H.
Qed.

Lemma invalid_form_sends_nothing_witness :
  let post := fun _ : RequestData => Normal (DataNft MoreSamples.full_nft) in
  validateForm Samples.advanced_page
  = Some (lit "Custom prompt must be at least 10 characters long")
  /\ generateDisabled Samples.advanced_page = false
  /\ exists final,
      handleUpdatePreview post Samples.advanced_page Samples.platform 0%nat
      = (Normal final, 0%nat)
      /\ nftResult final = None
      /\ toasts final = []
      /\ err_validation (errors final)
         = Some (lit "Custom prompt must be at least 10 characters long").
Proof.
  intros post.
  assert (Hv : validateForm Samples.advanced_page
               = Some (lit "Custom prompt must be at least 10 characters long"))
    by reflexivity.
  split; [exact Hv|]. split; [reflexivity|].
  eexists. split.
  - exact (proj1 (invalid_form_sends_nothing post post Samples.advanced_page
                    Samples.platform Samples.platform 0%nat _ Hv)).
  - split; [reflexivity|]. split; reflexivity.
Defined.

End GenerateButton.

(** ** Success of the NFT generation *)

Section GenerationSuccess.

Import Index IndexForm GenerationSpec ResponseSpec.

Lemma str_or_truthy (a b : jsstring) :
  truthy_str b = true -> truthy_str (str_or a b) = true.
Proof. intros Hb. unfold str_or. now destruct (truthy_str a) eqn:Ea. Qed.

Lemma buildNftData_id (nft : ServerNft) (st : State) (P : Platform) (k : nat)
    (i : jsstring) :
  srv_nft_id nft = Some i -> i <> [] ->
  exists d k', buildNftData nft st P k = (Normal d, k') /\ id d = i.
Proof.
  intros Hi Hne. apply truthy_str_iff in Hne.
  unfold buildNftData. rewrite Hi. unfold opt_str_orM at 1. rewrite Hne.
  unfold bind at 1. unfold ret at 1.
  assert (Ht : exists t k2,
             opt_num_orM (srv_timestamp nft)
               (now <- Date_now ;; ret (now / 1000)) P k = (Normal t, k2)).
  { unfold opt_num_orM. destruct (srv_timestamp nft) as [t|];
      [destruct (truthy_num t)|]; do 2 eexists; reflexivity. }
  destruct Ht as (t & k2 & Ht). rewrite (bind_normal _ _ _ _ _ _ Ht).
  do 2 eexists. split; reflexivity.
Qed.

Lemma parseResponse_carries (resp : ResponseData) (nft : ServerNft)
    (P : Platform) (k : nat) :
  carries resp nft -> parseResponse resp P k = (Normal nft, k).
Proof.
  intros [->|[(d & r & keys & ->)|[(r & keys & ->)|(keys & ->)]]]; reflexivity.
Qed.

(** X6. With a valid form and a wallet that has a principal or an account
    id, when the request is answered by a body that carries an NFT object
    with a non-empty [nft_id], [handleUpdatePreview] completes normally:
    the NFT on display has that id, the success toast is the one toast
    added, no [nftGeneration] or validation error is left and the
    [nftGeneration] loading flag is false. The check for missing request
    fields never fires. *)
Theorem generation_success
    (post : RequestData -> completion ResponseData) (st : State)
    (w : WalletInfo) (P : Platform) (k : nat)
    (resp : ResponseData) (nft : ServerNft) (i : jsstring)
    (Hwallet : wallet st = Some w)
    (Hvalid : validateForm st = None)
    (Howner : principal w <> [] \/ accountId w <> [])
    (Hpost : forall request, post request = Normal resp)
    (Hcarries : carries resp nft)
    (Hid : srv_nft_id nft = Some i)
    (Hnonempty : i <> []) :
  exists final d k',
    handleUpdatePreview post st P k = (Normal final, k')
    /\ nftResult final = Some d
    /\ id d = i
    /\ toasts final
       = toasts st ++ [ {| kind := toast_success;
                           title := lit "NFT generated successfully!" |} ]
    /\ err_nftGeneration (errors final) = None
    /\ err_validation (errors final) = None
    /\ nftGeneration (loadingStates final) = false.
Proof.
  unfold handleUpdatePreview.
  change (wallet (clearErrors_validation (clearErrors_nftGeneration st)))
    with (wallet st).
  change (validateForm (clearErrors_validation (clearErrors_nftGeneration st)))
    with (validateForm st).
  rewrite Hwallet, Hvalid. fold (entry_state st).
  assert (Ho : truthy_str (str_or (principal w) (accountId w)) = true).
  { unfold str_or. destruct (truthy_str (principal w)) eqn:Ep; [exact Ep|].
    apply truthy_str_false in Ep. destruct Howner as [H|H]; [congruence|].
    now apply truthy_str_iff. }
  destruct (generateUniquenessFactors_biometric (Some w) P k)
    as (u & k1 & Hu & _).
  destruct (buildNftData_id nft (entry_state st) P k1 i Hid Hnonempty)
    as (d & k2 & Hd & Hdi).
  assert (Htry : handleUpdatePreview_try w post (entry_state st) P k
                 = (Normal (showToast toast_success
                              (lit "NFT generated successfully!")
                              (setNftResult (Some d) (entry_state st))), k2)).
  { unfold handleUpdatePreview_try. rewrite Ho. cbn [negb].
    rewrite (bind_normal _ _ _ _ _ _ Hu). cbn [req_artist req_event_type].
    rewrite !str_or_truthy by reflexivity. cbn [negb orb].
    unfold bind at 1. rewrite Hpost.
    rewrite (bind_normal _ _ _ _ _ _ (parseResponse_carries resp nft P k1 Hcarries)).
    rewrite (bind_normal _ _ _ _ _ _ Hd). reflexivity. }
  unfold bind, try_catch. rewrite Htry.
  do 3 eexists. split; [reflexivity|].
  repeat split. exact Hdi.
Qed.

Lemma generation_success_witness :
  let post := fun _ : RequestData => Normal (DataNft MoreSamples.full_nft) in
  validateForm Samples.ready_page = None
  /\ exists final d k',
      handleUpdatePreview post Samples.ready_page Samples.platform 0%nat
      = (Normal final, k')
      /\ nftResult final = Some d
      /\ id d = lit "nft-77".
Proof.
  intros post.
  assert (Hw : wallet Samples.ready_page = Some Samples.wallet_full)
    by reflexivity.
  assert (Hv : validateForm Samples.ready_page = None) by reflexivity.
  assert (Ho : principal Samples.wallet_full <> []
               \/ accountId Samples.wallet_full <> [])
    by (left; discriminate).
  assert (Hp : forall request, post request = Normal (DataNft MoreSamples.full_nft))
    by reflexivity.
  assert (Hc : carries (DataNft MoreSamples.full_nft) MoreSamples.full_nft)
    by (left; reflexivity).
  assert (Hi : srv_nft_id MoreSamples.full_nft = Some (lit "nft-77"))
    by reflexivity.
  assert (Hn : lit "nft-77" <> []) by discriminate.
  split; [exact Hv|].
  destruct (generation_success post Samples.ready_page Samples.wallet_full
              Samples.platform 0%nat (DataNft MoreSamples.full_nft)
              MoreSamples.full_nft (lit "nft-77") Hw Hv Ho Hp Hc Hi Hn)
    as (final & d & k' & Hrun & Hres & Hid & _).
  exists final, d, k'. split; [exact Hrun|]. split; [exact Hres | exact Hid].
Defined.

(** ** Error objects *)

Lemma createAPIError_nonempty (error : thrown) (context : jsstring) :
  message (createAPIError error context) <> [].
Proof.
  destruct error as [e|m|]; cbn.
  - assert (Hlast : truthy_str
                      (str_or (ax_message e)
                         (lit "Network error occurred while " ++ context))
                    = true) by (apply str_or_truthy; reflexivity).
    assert (Hopt : forall o s, truthy_str s = true ->
                     truthy_str (opt_str_or o s) = true).
    { intros [t|] s Hs; cbn; [now apply str_or_truthy | exact Hs]. }
    apply truthy_str_iff. now apply Hopt, Hopt.
  - destruct m; discriminate.
  - discriminate.
Qed.

(** X7. [createAPIError] never builds an empty message. For an axios error
    the message is the body's [error] text when that is present and not
    empty, else the body's [message], else the error's own message, else a
    network-error sentence; the status is the response's and the code the
    error's. *)
Theorem createAPIError_message (error : thrown) (context : jsstring) :
  message (createAPIError error context) <> []
  /\ forall (e : AxiosError),
      error = ThrownAxios e ->
      err_status (createAPIError error context)
      = option_map status (ax_response e)
      /\ code (createAPIError error context) = ax_code e
      /\ (forall (r : AxiosResponse) (body : AxiosResponseData),
          ax_response e = Some r -> data r = Some body ->
          (forall text, data_error body = Some text -> text <> [] ->
             message (createAPIError error context) = text)
          /\ (forall text,
                (data_error body = None \/ data_error body = Some []) ->
                data_message body = Some text -> text <> [] ->
                message (createAPIError error context) = text))
      /\ (ax_response e = None -> ax_message e <> [] ->
          message (createAPIError error context) = ax_message e).
Proof.
  split; [apply createAPIError_nonempty|].
  intros e ->. cbn. split; [reflexivity|]. split; [reflexivity|]. split.
  - intros r body -> ->. split.
    + intros text -> Hne. cbn. unfold str_or.
      apply truthy_str_iff in Hne. now rewrite Hne.
    + intros text Hnone -> Hne. apply truthy_str_iff in Hne.
      destruct Hnone as [-> | ->]; cbn; unfold str_or; now rewrite Hne.
  - intros -> Hne. cbn. unfold str_or.
    apply truthy_str_iff in Hne. now rewrite Hne.
Qed.

End GenerationSuccess.

(** ** The initial fetch *)

Section InitialFetch.

Import Index IndexForm RetrySpec.

Lemma fetchInitialData_try_succeeds (outcome : completion FetchedLists) (st : State) :
  succeeds outcome = true ->
  exists fa fe,
    outcome = Normal {| fetched_artists := Some fa; fetched_events := Some fe |}
    /\ fetchInitialData_try outcome st
       = Normal (setRetryCount 0 (setFetchedLists fa fe st)).
Proof.
  destruct outcome as [[[fa|] [fe|]]|e]; try discriminate.
  intros _. exists fa, fe. split; reflexivity.
Qed.

Lemma fetchInitialData_try_fails (outcome : completion FetchedLists) (st : State) :
  succeeds outcome = false ->
  exists error, fetchInitialData_try outcome st = Throw error.
Proof.
  destruct outcome as [[[fa|] [fe|]]|e]; try discriminate; intros _;
    eexists; reflexivity.
Qed.

(** X8. A fetch of the initial data that fails (a request rejected, or a
    body without its array) leaves the artists, the events, the selection
    and the retry count as they were; it stores an initialization error
    with a non-empty message, whose code is TIMEOUT when the failure is an
    axios error with code ECONNABORTED; and it ends with the [initialData]
    loading flag false. *)
Theorem failed_fetch_keeps_form (isRetry : bool)
    (outcome : completion FetchedLists) (st : State)
    (Hfails : succeeds outcome = false) :
  let st' := fetchInitialData_settle outcome (fetchInitialData_start isRetry st) in
  artists st' = artists st
  /\ events st' = events st
  /\ selectedArtist st' = selectedArtist st
  /\ selectedEvent st' = selectedEvent st
  /\ retryCount st' = retryCount st
  /\ initialData (loadingStates st') = false
  /\ exists err,
      err_initialization (errors st') = Some err
      /\ message err <> []
      /\ (forall e, outcome = Throw e ->
            axios_code_is (lit "ECONNABORTED") e = true ->
            code err = Some (lit "TIMEOUT")).
Proof.
  intros st'. subst st'. unfold fetchInitialData_settle.
  destruct (fetchInitialData_try_fails outcome (fetchInitialData_start isRetry st)
              Hfails) as [error Ht].
  rewrite Ht. unfold fetchInitialData_catch.
  assert (Hsame : forall e, outcome = Throw e -> error = e).
  { intros e ->. simpl in Ht. congruence. }
  destruct (axios_code_is (lit "ECONNABORTED") error) eqn:Ec;
    unfold fetchInitialData_start; destruct isRetry; cbn;
    do 6 (split; [reflexivity|]);
    eexists; (split; [reflexivity|]); split.
  all: try discriminate.
  all: try apply createAPIError_nonempty.
  all: intros e He Hc; rewrite <- (Hsame e He) in Hc.
  all: first
         [ reflexivity
         | exfalso; revert Hc;
           change (axios_code_is (lit "ECONNABORTED") error = true -> False);
           rewrite Ec; discriminate ].
Qed.

Lemma failed_fetch_keeps_form_witness :
  let outcome :=
    Normal {| fetched_artists := None; fetched_events := Some [lit "nature"] |} in
  let st' :=
    fetchInitialData_settle outcome
      (fetchInitialData_start false Samples.ready_page) in
  succeeds outcome = false
  /\ artists st' = artists Samples.ready_page
  /\ option_map message (err_initialization (errors st'))
     = Some (lit "Invalid artists data received from server while loading initial data").
Proof.
  intros outcome st'.
  split; [reflexivity|].
  split; [|reflexivity].
  exact (proj1 (failed_fetch_keeps_form false outcome Samples.ready_page eq_refl)).
Defined.

(** X9. A fetch of the initial data that succeeds stores the two lists,
    selects the first artist and the first event (and keeps the selection
    for a list that is empty), resets the retry count, and leaves no
    initialization error and the [initialData] loading flag false. The
    scarcity cache and the wallet are not touched. *)
Theorem successful_fetch_selects_first (isRetry : bool)
    (fa fe : list jsstring) (st : State) :
  let outcome :=
    Normal {| fetched_artists := Some fa; fetched_events := Some fe |} in
  let st' := fetchInitialData_settle outcome (fetchInitialData_start isRetry st) in
  artists st' = fa
  /\ events st' = fe
  /\ selectedArtist st' = hd (selectedArtist st) fa
  /\ selectedEvent st' = hd (selectedEvent st) fe
  /\ retryCount st' = 0
  /\ err_initialization (errors st') = None
  /\ initialData (loadingStates st') = false
  /\ allCombinationsScarcity st' = allCombinationsScarcity st
  /\ wallet st' = wallet st.
Proof.
  intros outcome st'. subst outcome st'.
  unfold fetchInitialData_settle, fetchInitialData_start; cbn.
  destruct isRetry, fa, fe; cbn; repeat split.
Qed.

End InitialFetch.

(** ** The wallet and the X account across reloads *)

Section Persistence.

Import Index IndexForm Session.

Lemma mount_restores_stored_wallet (w : WalletInfo) (now : Z) (quota : bool)
    (storage : Storage) :
  principal w <> [] \/ accountId w <> [] ->
  connected_wallet storage = Some (Parsed w) ->
  wallet (page (mount now quota storage no_params)) = Some w.
Proof.
  intros Hidentified Hstored.
  unfold mount, checkWalletState. cbn. rewrite Hstored.
  assert (Ht : truthy_str (principal w) || truthy_str (accountId w) = true).
  { destruct Hidentified as [H|H]; apply truthy_str_iff in H; rewrite H;
      [reflexivity | apply orb_true_r]. }
  rewrite Ht. cbn.
  destruct (x_auth_status storage) as [[a|]|]; cbn;
    [destruct (stored_isConnected a && truthy_str (stored_username a)
               && truthy_str (stored_userId a))|..]; reflexivity.
Qed.

(** X10. A wallet handed to [handleWalletConnected] is the page's wallet
    at once, whether or not it could be stored. When it was stored and has
    a principal or an account id, a reload of the page restores that very
    wallet; when storing failed, an error toast is shown and the storage
    is as before, so a reload does not know the wallet. *)
Theorem connected_wallet_survives_reload (w : WalletInfo) (s : t) (now : Z)
    (quota : bool)
    (Hidentified : principal w <> [] \/ accountId w <> []) :
  wallet (page (handleWalletConnected w true s)) = Some w
  /\ wallet (page (mount now quota
                    (localStorage (handleWalletConnected w true s))
                    no_params)) = Some w
  /\ wallet (page (handleWalletConnected w false s)) = Some w
  /\ localStorage (handleWalletConnected w false s) = localStorage s
  /\ toasts (page (handleWalletConnected w false s))
     = toasts (page s)
       ++ [ {| kind := toast_error;
               title := lit "Failed to save wallet connection. Please try again." |} ].
Proof.
  split; [reflexivity|]. split; [|repeat split].
  now apply mount_restores_stored_wallet.
Qed.

Lemma connected_wallet_survives_reload_witness :
  let s := fresh {| connected_wallet := None; x_auth_status := None |} no_params in
  (principal Samples.wallet_principal_only <> []
   \/ accountId Samples.wallet_principal_only <> [])
  /\ wallet (page (mount 0 true
                    (localStorage
                       (handleWalletConnected Samples.wallet_principal_only
                          true s)) no_params))
     = Some Samples.wallet_principal_only.
Proof.
  intros s.
  assert (H : principal Samples.wallet_principal_only <> []
              \/ accountId Samples.wallet_principal_only <> [])
    by (left; discriminate).
  split; [exact H|].
  exact (proj1 (proj2 (connected_wallet_survives_reload
                         Samples.wallet_principal_only s 0 true H))).
Defined.

(** A stored wallet without principal and account id, or an item that does
    not parse, is not restored. *)
Lemma anonymous_wallet_not_restored (now : Z) (quota : bool)
    (x : option (Item XAuthStatus))
    (isConnected : bool) (balance : option Q) :
  wallet (page (mount now quota
                  {| connected_wallet :=
                       Some (Parsed {| principal := []; accountId := [];
                                       isConnected := isConnected;
                                       balance := balance |});
                     x_auth_status := x |} no_params)) = None
  /\ wallet (page (mount now quota {| connected_wallet := Some Unparsable;
                                      x_auth_status := x |} no_params)) = None.
Proof.
  unfold mount, checkWalletState; cbn.
  split; destruct x as [[a|]|]; cbn;
    try destruct (stored_isConnected a && truthy_str (stored_username a)
                  && truthy_str (stored_userId a)); reflexivity.
Qed.

(** X11. [handleWalletDisconnected] forgets the wallet and the X account
    together, in the page and in the storage: whatever the session was, the
    form is then blocked by the missing wallet, and a reload restores
    neither the wallet nor the X connection. *)
Theorem disconnect_forgets_wallet_and_x (s : t) (now : Z) (quota : bool) :
  let s' := handleWalletDisconnected s in
  let reloaded := mount now quota (localStorage s') no_params in
  wallet (page s') = None
  /\ isXConnected s' = false /\ xUsername s' = None /\ xUserId s' = None
  /\ localStorage s' = {| connected_wallet := None; x_auth_status := None |}
  /\ validateForm (page s')
     = Some (lit "Please connect your wallet to generate NFTs")
  /\ generateDisabled (page s') = true
  /\ wallet (page reloaded) = None
  /\ isXConnected reloaded = false.
Proof. intros s' reloaded. repeat split. Qed.

Lemma checkWalletState_keeps (s : t) :
  search (checkWalletState s) = search s
  /\ localStorage (checkWalletState s) = localStorage s
  /\ isXConnected (checkWalletState s) = isXConnected s
  /\ effect_threw (checkWalletState s) = effect_threw s.
Proof.
  unfold checkWalletState.
  destruct (connected_wallet (localStorage s)) as [[w|]|];
    [destruct (truthy_str (principal w) || truthy_str (accountId w))|..];
    repeat split.
Qed.

(** The effect on a successful redirect, for both outcomes of [setItem]. *)
Lemma oauthEffect_success (s : t) (now : Z) (u i p : jsstring) :
  auth_status (search s) = Some (lit "success") ->
  platform (search s) = Some (lit "x") ->
  username (search s) = Some u -> u <> [] ->
  user_id (search s) = Some i -> i <> [] ->
  wallet_principal (search s) = Some p -> p <> [] ->
  oauthEffect now true s
  = clearSearch
      (onPage (showToast toast_success
                 (lit "Connected to X as @" ++ u ++ lit "!"))
         (setStorage
            (store_x_auth
               (Some (Parsed {| stored_isConnected := true;
                                stored_username := u;
                                stored_userId := i;
                                stored_walletPrincipal := p;
                                stored_timestamp := now |})))
            (setX true (Some u) (Some i) s)))
  /\ oauthEffect now false s = throwInEffect (setX true (Some u) (Some i) s).
Proof.
  intros Hstatus Hplatform Hu Hune Hi Hine Hp Hpne.
  apply truthy_str_iff in Hune, Hine, Hpne.
  unfold oauthEffect. rewrite Hstatus, Hplatform, Hu, Hi, Hp.
  cbn [is_str truthy_opt template_null]. rewrite !str_eqb_refl, Hune, Hine, Hpne.
  split; reflexivity.
Qed.

(** A page loaded without query string restores a stored X connection. *)
Lemma mount_restores_x (now : Z) (quota : bool) (storage : Storage)
    (u i p : jsstring) (stored_at : Z) :
  u <> [] -> i <> [] ->
  x_auth_status storage
  = Some (Parsed {| stored_isConnected := true; stored_username := u;
                    stored_userId := i; stored_walletPrincipal := p;
                    stored_timestamp := stored_at |}) ->
  isXConnected (mount now quota storage no_params) = true
  /\ xUsername (mount now quota storage no_params) = Some u
  /\ xUserId (mount now quota storage no_params) = Some i.
Proof.
  intros Hune Hine Hx. apply truthy_str_iff in Hune, Hine.
  unfold mount, oauthEffect.
  destruct (checkWalletState_keeps (fresh storage no_params))
    as (Hs & Hl & _ & _).
  rewrite Hs, Hl. cbn [fresh search localStorage no_params auth_status
                        platform is_str andb].
  rewrite Hx. cbn [stored_isConnected stored_username stored_userId andb].
  rewrite Hune, Hine. repeat split.
Qed.

(** X12. After an OAuth redirect that reports success for platform x with
    a user name, a user id and a wallet principal: when the storage takes
    the item, the page is connected to X under that name and id, has
    stored the connection and has dropped the query string, and a reload
    then restores the same name and id, whether or not a wallet is stored.
    When [setItem] throws, the effect throws: nothing is stored, no toast
    is shown and the query string stays, so that the next load, with a
    storage that takes the item, handles the redirect again. *)
Theorem x_connection_survives_reload (s : t) (now now' : Z) (quota : bool)
    (u i p : jsstring)
    (Hstatus : auth_status (search s) = Some (lit "success"))
    (Hplatform : platform (search s) = Some (lit "x"))
    (Hu : username (search s) = Some u) (Hune : u <> [])
    (Hi : user_id (search s) = Some i) (Hine : i <> [])
    (Hp : wallet_principal (search s) = Some p) (Hpne : p <> []) :
  let s' := oauthEffect now true s in
  let reloaded := mount now' quota (localStorage s') (search s') in
  let failed := oauthEffect now false s in
  let retried := mount now' true (localStorage failed) (search failed) in
  (isXConnected s' = true /\ xUsername s' = Some u /\ xUserId s' = Some i
   /\ search s' = no_params
   /\ x_auth_status (localStorage s')
      = Some (Parsed {| stored_isConnected := true; stored_username := u;
                        stored_userId := i; stored_walletPrincipal := p;
                        stored_timestamp := now |})
   /\ connected_wallet (localStorage s') = connected_wallet (localStorage s)
   /\ effect_threw s' = effect_threw s
   /\ isXConnected reloaded = true
   /\ xUsername reloaded = Some u /\ xUserId reloaded = Some i)
  /\ (effect_threw failed = true
      /\ localStorage failed = localStorage s
      /\ search failed = search s
      /\ toasts (page failed) = toasts (page s)
      /\ isXConnected retried = true
      /\ xUsername retried = Some u
      /\ search retried = no_params
      /\ effect_threw retried = false).
Proof.
  intros s' reloaded failed retried.
  destruct (oauthEffect_success s now u i p
              Hstatus Hplatform Hu Hune Hi Hine Hp Hpne) as [Hok Hfail].
  split.
  - subst reloaded. subst s'. rewrite Hok.
    cbn [clearSearch onPage setStorage setX store_x_auth isXConnected
         xUsername xUserId search localStorage x_auth_status
         connected_wallet effect_threw].
    destruct (mount_restores_x now' quota
                (store_x_auth
                   (Some (Parsed {| stored_isConnected := true;
                                    stored_username := u;
                                    stored_userId := i;
                                    stored_walletPrincipal := p;
                                    stored_timestamp := now |}))
                   (localStorage s)) u i p now Hune Hine eq_refl)
      as (Hc & Hn & Hid).
    repeat split; assumption.
  - subst retried. subst failed. rewrite Hfail.
    cbn [throwInEffect setX effect_threw localStorage search page].
    split; [reflexivity|]. split; [reflexivity|]. split; [reflexivity|].
    split; [reflexivity|].
    unfold mount.
    destruct (checkWalletState_keeps (fresh (localStorage s) (search s)))
      as (Hs & _ & _ & Ht).
    cbn [fresh search effect_threw] in Hs, Ht.
    destruct (oauthEffect_success
                (checkWalletState (fresh (localStorage s) (search s)))
                now' u i p) as [Hagain _];
      try (rewrite Hs; assumption); try assumption.
    rewrite Hagain.
    cbn [clearSearch onPage setStorage setX isXConnected xUsername search
         effect_threw].
    repeat split. exact Ht.
Qed.

End Persistence.

Section PersistenceMore.

Import Index IndexForm Session.

Lemma x_connection_survives_reload_witness :
  let s' := oauthEffect 1700000000000 true SessionSamples.redirected in
  let failed := oauthEffect 1700000000000 false SessionSamples.redirected in
  auth_status (search SessionSamples.redirected) = Some (lit "success")
  /\ isXConnected s' = true
  /\ xUsername (mount 1700000000500 false (localStorage s') (search s'))
     = Some (lit "picha_fan")
  /\ effect_threw failed = true
  /\ search failed = SessionSamples.success_params.
Proof.
  intros s' failed.
  assert (Hs : auth_status (search SessionSamples.redirected)
               = Some (lit "success")) by reflexivity.
  assert (Hx : platform (search SessionSamples.redirected) = Some (lit "x"))
    by reflexivity.
  assert (Hu : username (search SessionSamples.redirected)
               = Some (lit "picha_fan")) by reflexivity.
  assert (Hi : user_id (search SessionSamples.redirected) = Some (lit "4711"))
    by reflexivity.
  assert (Hp : wallet_principal (search SessionSamples.redirected)
               = Some (lit "2vxsx-fae")) by reflexivity.
  assert (Hune : lit "picha_fan" <> []) by discriminate.
  assert (Hine : lit "4711" <> []) by discriminate.
  assert (Hpne : lit "2vxsx-fae" <> []) by discriminate.
  split; [exact Hs|].
  destruct (x_connection_survives_reload SessionSamples.redirected
              1700000000000 1700000000500 false
              (lit "picha_fan") (lit "4711") (lit "2vxsx-fae")
              Hs Hx Hu Hune Hi Hine Hp Hpne)
    as [(Hc & _ & _ & _ & _ & _ & _ & _ & Hn & _) (Ht & _ & Hq & _)].
  split; [exact Hc|]. split; [exact Hn|]. split; [exact Ht | exact Hq].
Defined.

(** X13. After an OAuth redirect that reports an error for platform x, the
    page is not connected to X, the stored X connection is removed, the X
    error is the redirect's message (a default sentence when it has none)
    followed by its details when it has any, and the query string is
    dropped; a reload leaves X disconnected, whatever was stored before. *)
Theorem x_error_forgets_connection (s : t) (now now' : Z) (quota quota' : bool)
    (Hstatus : auth_status (search s) = Some (lit "error"))
    (Hplatform : platform (search s) = Some (lit "x")) :
  let s' := oauthEffect now quota s in
  let text :=
    opt_str_or (error_message (search s))
      (lit "Unknown error during X authentication.") in
  isXConnected s' = false /\ xUsername s' = None /\ xUserId s' = None
  /\ x_auth_status (localStorage s') = None
  /\ search s' = no_params
  /\ (forall d, details (search s) = Some d -> d <> [] ->
        err_xAuth (errors (page s'))
        = Some (text ++ lit " Details: " ++ d))
  /\ (details (search s) = None \/ details (search s) = Some [] ->
      err_xAuth (errors (page s')) = Some text)
  /\ isXConnected (mount now' quota' (localStorage s') (search s')) = false.
Proof.
  intros s' text. subst s' text.
  unfold mount, oauthEffect. rewrite Hstatus, Hplatform.
  cbn [is_str]. rewrite str_eqb_refl.
  change (str_eqb (lit "error") (lit "success")) with false.
  cbn [andb]. cbn.
  repeat split.
  - intros d -> Hd. apply truthy_str_iff in Hd. cbn. now rewrite Hd.
  - intros [-> | ->]; reflexivity.
  - unfold checkWalletState; cbn.
    destruct (connected_wallet (localStorage s)) as [[w|]|]; cbn;
      [destruct (truthy_str (principal w) || truthy_str (accountId w))|..];
      reflexivity.
Qed.

Lemma x_error_forgets_connection_witness :
  let s := fresh SessionSamples.linked_storage SessionSamples.error_params in
  auth_status (search s) = Some (lit "error")
  /\ isXConnected (mount 0 true SessionSamples.linked_storage no_params) = true
  /\ err_xAuth (errors (page (oauthEffect 0 true s)))
     = Some (lit "access_denied Details: user cancelled")
  /\ isXConnected (mount 1 true (localStorage (oauthEffect 0 true s))
                     (search (oauthEffect 0 true s))) = false.
Proof.
  intros s.
  assert (Hs : auth_status (search s) = Some (lit "error")) by reflexivity.
  split; [exact Hs|]. split; [reflexivity|].
  destruct (x_error_forgets_connection s 0 1 true true Hs eq_refl)
    as (_ & _ & _ & _ & _ & Hd & _ & Hr).
  split; [|exact Hr].
  exact (Hd (lit "user cancelled") eq_refl ltac:(discriminate)).
Defined.

(** ** The WebSocket status of the page *)

Lemma page_event_keeps_websocket_error (st : State) (ev : RetrySpec.PageEvent) :
  err_websocket (errors (RetrySpec.handle st ev)) = err_websocket (errors st).
Proof.
  destruct ev as [|isRetry|outcome|data|data]; simpl.
  - reflexivity.
  - unfold fetchInitialData_start. now destruct isRetry.
  - unfold fetchInitialData_settle, fetchInitialData_try, fetchInitialData_catch.
    destruct outcome as [responses|e]; simpl.
    + now destruct (fetched_artists responses), (fetched_events responses).
    + now destruct (axios_code_is (lit "ECONNABORTED") e).
  - reflexivity.
  - unfold handleScarcityUpdate.
    destruct (su_remaining_slots data <=? 0); [reflexivity|].
    now destruct ((su_remaining_slots data <? 50) && (0 <? su_remaining_slots data)).
Qed.

End PersistenceMore.

Section SocketStatus.

Import Index IndexForm Session SocketStatusSpec.

Lemma run_cons (ev : Event) (trace : list Event) (s : t) :
  run (ev :: trace) s = run trace (handle s ev).
Proof. reflexivity. Qed.

Lemma shows_onSocketEvent (ev : SocketEvent) (s : t) :
  shows ev (onSocketEvent ev s).
Proof. destruct ev; split; reflexivity. Qed.

(** X14. After any history of connection events of the page's socket,
    fetches, retries and scarcity messages, the WebSocket flag and the
    WebSocket error of the page are those of the last connection event:
    connected and no error after [connect], not connected and the error
    sentence after [disconnect] or [connect_error]; without a connection
    event they are as at the start. So the page is never connected with a
    WebSocket error on display if it did not start so. *)
Theorem socket_status_follows_last_event (trace : list Event) (s : t) :
  match last_socket_event trace with
  | Some ev => shows ev (run trace s)
  | None =>
      isWebSocketConnected (run trace s) = isWebSocketConnected s
      /\ err_websocket (errors (page (run trace s)))
         = err_websocket (errors (page s))
  end.
Proof.
  revert s. induction trace as [|ev trace IH]; intros s.
  - split; reflexivity.
  - rewrite run_cons. specialize (IH (handle s ev)).
    destruct ev as [e|e]; cbn [last_socket_event];
      destruct (last_socket_event trace) as [e'|]; try exact IH.
    + destruct IH as [Hc He]. cbn [handle] in *.
      pose proof (shows_onSocketEvent e s) as Hs.
      destruct e; destruct Hs as [Hs1 Hs2]; split; congruence.
    + destruct IH as [Hc He]. cbn [handle] in *. split; [exact Hc|].
      rewrite He. cbn. apply page_event_keeps_websocket_error.
Qed.

(** On a freshly loaded page: connected exactly when no WebSocket error is
    on display, once a connection event has happened. *)
Lemma connected_iff_no_socket_error (trace : list Event)
    (storage : Storage) (params : SearchParams) :
  last_socket_event trace <> None ->
  let s := run trace (fresh storage params) in
  isWebSocketConnected s = true <-> err_websocket (errors (page s)) = None.
Proof.
  intros Hsome s. subst s.
  pose proof (socket_status_follows_last_event trace (fresh storage params)) as H.
  destruct (last_socket_event trace) as [[|reason|m]|]; [..|contradiction];
    destruct H as [H1 H2]; rewrite H1, H2; split; congruence.
Qed.

(** ** The evolution room *)

(** X15. For the NFT on display with a non-empty id: when the page knows
    its socket as connected, the effect emits [join_evolution_room] for
    that id and its cleanup emits [leave_evolution_room] for the same id;
    when it does not, the effect emits nothing and the cleanup still emits
    the leave. Without an NFT on display, neither emits. *)
Theorem evolution_room_left_when_joined (H : Type) (s : t)
    (socket at_cleanup : Socket.t H) :
  (forall nft_id, displayed_id (page s) = Some nft_id ->
     (isWebSocketConnected s = true ->
      evolutionRoomEffect s (Some socket)
      = Some (Socket.emit (lit "join_evolution_room")
                (Socket.NftRoom nft_id) socket))
     /\ (isWebSocketConnected s = false ->
         evolutionRoomEffect s (Some socket) = Some socket)
     /\ evolutionRoomCleanup s (Some at_cleanup)
        = Some (Socket.emit (lit "leave_evolution_room")
                  (Socket.NftRoom nft_id) at_cleanup)
     /\ nft_id <> [])
  /\ (displayed_id (page s) = None ->
      evolutionRoomEffect s (Some socket) = Some socket
      /\ evolutionRoomCleanup s (Some at_cleanup) = Some at_cleanup).
Proof.
  unfold evolutionRoomEffect, evolutionRoomCleanup. split.
  - intros nft_id Hid. rewrite Hid.
    repeat split; try (intros ->; reflexivity).
    unfold displayed_id, str_or_null in Hid.
    destruct (nftResult (page s)) as [nft|]; [|discriminate].
    destruct (truthy_str (Index.id nft)) eqn:E; [|discriminate].
    injection Hid as <-. now apply truthy_str_iff.
  - intros ->. split; reflexivity.
Qed.

End SocketStatus.

(** ** The mock principal *)

Section MockPrincipal.

Import WalletConnector.

Lemma charAt_drawn (draw : nat -> nat) (i : nat) :
  (draw i < 32)%nat -> charAt chars (draw i) = [drawn draw i].
Proof.
  intros Hi. unfold charAt, drawn.
  rewrite (nth_error_nth' chars 0%N) by exact Hi. reflexivity.
Qed.

Lemma drawn_in_chars (draw : nat -> nat) (i : nat) :
  (draw i < 32)%nat -> In (drawn draw i) chars.
Proof. intros Hi. unfold drawn. apply nth_In. exact Hi. Qed.

Lemma mockPrincipal_step_drawn (draw : nat -> nat) (result : jsstring) (i : nat) :
  (draw i < 32)%nat ->
  mockPrincipal_step draw result i
  = result ++ drawn draw i :: (if hyphen_after i then lit "-" else []).
Proof.
  intros Hi. unfold mockPrincipal_step. rewrite (charAt_drawn draw i Hi).
  destruct (hyphen_after i); [now rewrite <- app_assoc | reflexivity].
Qed.

Lemma mock_principal_shape_helper (draw : nat -> nat) :
  (forall i, (draw i < 32)%nat) ->
  generateMockPrincipal draw
  = group draw 0 5 ++ lit "-" ++ group draw 5 5 ++ lit "-"
    ++ group draw 10 5 ++ lit "-" ++ group draw 15 5 ++ lit "-"
    ++ group draw 20 5 ++ lit "-" ++ group draw 25 2 ++ lit "-cai"
  /\ length (generateMockPrincipal draw) = 36%nat.
Proof.
  intros Hdraw.
  assert (Heq : generateMockPrincipal draw
                = group draw 0 5 ++ lit "-" ++ group draw 5 5 ++ lit "-"
                  ++ group draw 10 5 ++ lit "-" ++ group draw 15 5 ++ lit "-"
                  ++ group draw 20 5 ++ lit "-" ++ group draw 25 2 ++ lit "-cai").
  { unfold generateMockPrincipal. cbn [seq fold_left].
    rewrite !mockPrincipal_step_drawn by apply Hdraw.
    cbn [hyphen_after Nat.eqb orb]. unfold group. cbn [seq map].
    rewrite <- !app_assoc. reflexivity. }
  split; [exact Heq|]. rewrite Heq. reflexivity.
Qed.

(** X16. When every draw is an index into the 32 characters, the mock
    principal is five groups of five drawn characters and one group of two,
    each followed by a hyphen, and then the text cai: 36 code units, of
    which 27 are drawn. *)
Theorem mock_principal_shape (draw : nat -> nat)
    (Hdraw : forall i, (draw i < 32)%nat) :
  generateMockPrincipal draw
  = group draw 0 5 ++ lit "-" ++ group draw 5 5 ++ lit "-"
    ++ group draw 10 5 ++ lit "-" ++ group draw 15 5 ++ lit "-"
    ++ group draw 20 5 ++ lit "-" ++ group draw 25 2 ++ lit "-cai"
  /\ length (generateMockPrincipal draw) = 36%nat
  /\ forall i, (i < 27)%nat -> In (drawn draw i) chars.
Proof.
  destruct (mock_principal_shape_helper draw Hdraw) as [Heq Hlen].
  split; [exact Heq|]. split; [exact Hlen|].
  intros i _. apply drawn_in_chars, Hdraw.
Qed.

Lemma mock_principal_shape_witness :
  (forall i : nat, ((fun j => Nat.modulo (7 * j) 32) i < 32)%nat)
  /\ generateMockPrincipal (fun j => Nat.modulo (7 * j) 32)
     = lit "ahov4-dkry7-gnu3c-jqx6f-mt2bi-pw-cai".
Proof.
  assert (H : forall i : nat, ((fun j => Nat.modulo (7 * j) 32) i < 32)%nat)
    by (intros i; apply Nat.mod_upper_bound; discriminate).
  split; [exact H|].
  rewrite (proj1 (mock_principal_shape _ H)). reflexivity.
Defined.

End MockPrincipal.

(** ** The wallet of the connector *)

Section ConnectorWallet.

Import WalletConnector.

Lemma substring_prefix (s : jsstring) (n : nat) :
  (n <= length s)%nat -> substring s 0 (Z.of_nat n) = firstn n s.
Proof.
  intros Hn. unfold substring, clamp, len.
  replace (Z.to_nat (Z.min _ _)) with 0%nat by lia.
  replace (Z.to_nat (_ - _)) with n by lia. reflexivity.
Qed.

Lemma substring_whole_prefix (s : jsstring) (n : nat) :
  (length s <= n)%nat -> substring s 0 (Z.of_nat n) = s.
Proof.
  intros Hn. unfold substring, clamp, len.
  replace (Z.to_nat (Z.min _ _)) with 0%nat by lia.
  replace (Z.to_nat (_ - _)) with (length s) by lia. apply firstn_all.
Qed.

Lemma substring_suffix (s : jsstring) (n : nat) :
  (n <= length s)%nat ->
  substring s (len s - Z.of_nat n) (len s) = skipn (length s - n) s.
Proof.
  intros Hn. unfold substring, clamp, len.
  replace (Z.to_nat (Z.min _ _)) with (length s - n)%nat by lia.
  replace (Z.to_nat (_ - _)) with n by lia.
  apply firstn_all2. rewrite length_skipn. lia.
Qed.

(** X17. [formatPrincipal] returns a principal of at most 12 code units
    as it is, and any longer one as its first 8 code units, three dots and
    its last 4 code units: 15 code units, which for a principal of 13 or
    14 code units is more than the principal has. *)
Theorem formatPrincipal_shape (p : jsstring) :
  (len p <= 12 -> formatPrincipal p = p)
  /\ (12 < len p ->
      formatPrincipal p
      = firstn 8 p ++ lit "..." ++ skipn (length p - 4) p
      /\ length (formatPrincipal p) = 15%nat
      /\ (len p < 15 -> (length p < length (formatPrincipal p))%nat)).
Proof.
  unfold formatPrincipal. split; intros Hl.
  - destruct (Z.leb_spec (len p) 12); [reflexivity | lia].
  - destruct (Z.leb_spec (len p) 12); [lia|].
    assert (Hn : (12 < length p)%nat) by (unfold len in Hl; lia).
    change 8 with (Z.of_nat 8). rewrite substring_prefix by lia.
    change 4 with (Z.of_nat 4). rewrite substring_suffix by lia.
    assert (Hlen : length (firstn 8 p ++ lit "..." ++ skipn (length p - 4) p)
                   = 15%nat).
    { rewrite !length_app, length_firstn, length_skipn. simpl length. lia. }
    split; [reflexivity|]. split; [exact Hlen|]. rewrite Hlen.
    unfold len. lia.
Qed.

(** A mock principal is displayed with its first seven drawn characters. *)
Lemma formatPrincipal_mock (draw : nat -> nat) :
  (forall i, (draw i < 32)%nat) ->
  formatPrincipal (generateMockPrincipal draw)
  = group draw 0 5 ++ lit "-" ++ group draw 5 2 ++ lit "...-cai".
Proof.
  intros Hdraw.
  destruct (mock_principal_shape_helper draw Hdraw) as [Heq Hlen].
  destruct (formatPrincipal_shape (generateMockPrincipal draw)) as [_ Hlong].
  destruct Hlong as [-> _]; [unfold len; rewrite Hlen; lia|].
  rewrite Hlen, Heq. reflexivity.
Qed.

End ConnectorWallet.

Section ConnectorComposition.

Import WalletConnector.

Lemma mock_principal_nonempty (draw : nat -> nat) :
  generateMockPrincipal draw <> [].
Proof.
  unfold generateMockPrincipal. intros H. apply app_eq_nil in H as [_ H].
  discriminate H.
Qed.

(** X18. For the wallet that the connector builds from a mock principal,
    [generateUniquenessFactors] completes with the principal, with the
    account id made of the first 32 code units of the principal (never
    [null]), and with a [wallet_entropy] that needs no padding: the last
    16 code units of the principal, that is ten drawn characters, three
    hyphens and the text cai. *)
Theorem connector_wallet_entropy (draw : nat -> nat) (P : Platform) (k : nat)
    (Hdraw : forall i, (draw i < 32)%nat) :
  let p := generateMockPrincipal draw in
  exists u k',
    Index.generateUniquenessFactors (Some (walletInfoOf p)) P k = (Normal u, k')
    /\ Index.wallet_principal u = Some p
    /\ Index.wallet_account_id u = Some (firstn 32 p)
    /\ p = firstn 32 p ++ lit "-cai"
    /\ Index.wallet_entropy u
       = group draw 17 3 ++ lit "-" ++ group draw 20 5 ++ lit "-"
         ++ group draw 25 2 ++ lit "-cai".
Proof.
  intros p.
  destruct (mock_principal_shape_helper draw Hdraw) as [Heq Hlen].
  destruct (generateUniquenessFactors_wallet (walletInfoOf p) P k
              (mock_principal_nonempty draw))
    as (u & k' & Hu & He & Hp & Ha & _).
  exists u, k'. split; [exact Hu|]. split; [exact Hp|].
  cbn [walletInfoOf Index.principal Index.accountId] in *.
  assert (Hacc : generateAccountId p = firstn 32 p).
  { unfold generateAccountId. change 32 with (Z.of_nat 32).
    apply substring_prefix. subst p. rewrite Hlen. lia. }
  split; [|split].
  - rewrite Ha, Hacc. subst p. rewrite Heq. reflexivity.
  - subst p. rewrite Heq. reflexivity.
  - rewrite He. subst p. rewrite Heq. reflexivity.
Qed.

Lemma connector_wallet_entropy_witness :
  let draw := fun j => Nat.modulo (7 * j) 32 in
  (forall i : nat, (draw i < 32)%nat)
  /\ exists u k',
      Index.generateUniquenessFactors
        (Some (walletInfoOf (generateMockPrincipal draw))) Samples.platform 0%nat
      = (Normal u, k')
      /\ Index.wallet_entropy u = lit "x6f-mt2bi-pw-cai".
Proof.
  intros draw.
  assert (H : forall i : nat, (draw i < 32)%nat)
    by (intros i; apply Nat.mod_upper_bound; discriminate).
  split; [exact H|].
  destruct (connector_wallet_entropy draw Samples.platform 0%nat H)
    as (u & k' & Hu & _ & _ & _ & He).
  exists u, k'. split; [exact Hu|]. rewrite He. reflexivity.
Defined.

End ConnectorComposition.

Section ConnectorSession.

Import WalletConnector.

Lemma mounted_fresh (draw : nat -> nat) (quota : bool) (s : Session.t) :
  mounted draw quota s
  = ({| authClient := Some create;
        authState := {| isConnected := false; principal := None;
                        loading := false; error := None |} |}, s).
Proof. reflexivity. Qed.

Lemma hasWallet_connected (w : Index.WalletInfo) (quota : bool)
    (s : Session.t) :
  hasWallet (Session.handleWalletConnected w quota s) = true
  /\ Index.wallet (Session.page (Session.handleWalletConnected w quota s))
     = Some w.
Proof. destruct quota; split; reflexivity. Qed.

Lemma mock_principal_truthy (draw : nat -> nat) :
  truthy_str (generateMockPrincipal draw) = true.
Proof. apply truthy_str_iff, mock_principal_nonempty. Qed.

(** X19. A connect always makes the drawn principal's wallet the wallet of
    the page. On a page that had a wallet the component then shows itself
    connected under that principal and offers to disconnect. On a page
    that had none, the wallet appears, so the page mounts a new component
    in place of the one that connected: it holds a new client that is not
    authenticated, shows itself disconnected and offers to connect again.
    A disconnect of a connected component leaves the page without wallet
    and without X connection and the storage without both items, and the
    page again mounts a new component. Without a client, a connect only
    reports CLIENT_NOT_READY and the page is not told anything. *)
Theorem connect_then_disconnect (draw draw' : nat -> nat) (quota : bool)
    (c : t) (s : Session.t) :
  let p := generateMockPrincipal draw in
  let unmounted :=
    {| authClient := Some create;
       authState := {| isConnected := false; principal := None;
                       loading := false; error := None |} |} in
  (forall client, authClient c = Some client ->
     let connected := connect draw quota c s in
     Index.wallet (Session.page (snd connected)) = Some (walletInfoOf p)
     /\ (hasWallet s = true ->
         authState (fst connected)
         = {| isConnected := true; principal := Some p;
              loading := false; error := None |}
         /\ showsDisconnect (fst connected) = true
         /\ let disconnected :=
              disconnect draw' quota (fst connected) (snd connected) in
            fst disconnected = unmounted
            /\ Index.wallet (Session.page (snd disconnected)) = None
            /\ Session.isXConnected (snd disconnected) = false
            /\ Session.localStorage (snd disconnected)
               = {| Session.connected_wallet := None;
                    Session.x_auth_status := None |})
     /\ (hasWallet s = false ->
         fst connected = unmounted
         /\ showsDisconnect (fst connected) = false
         /\ let again :=
              connect draw' quota (fst connected) (snd connected) in
            authState (fst again)
            = {| isConnected := true;
                 principal := Some (generateMockPrincipal draw');
                 loading := false; error := None |}
            /\ Index.wallet (Session.page (snd again))
               = Some (walletInfoOf (generateMockPrincipal draw'))))
  /\ (authClient c = None ->
      snd (connect draw quota c s) = s
      /\ option_map error_code (error (authState (fst (connect draw quota c s))))
         = Some (lit "CLIENT_NOT_READY")
      /\ isConnected (authState (fst (connect draw quota c s)))
         = isConnected (authState c)).
Proof.
  intros p unmounted. split.
  - intros client Hc connected.
    assert (Hpage : forall d q c0 s0 cl,
               authClient c0 = Some cl ->
               Index.wallet
                 (Session.page
                    (snd (handleConnect
                            (fun w => Session.handleWalletConnected w q)
                            d c0 s0)))
               = Some (walletInfoOf (generateMockPrincipal d))).
    { intros d q c0 s0 cl H0. unfold handleConnect. rewrite H0.
      cbn. now destruct q. }
    assert (Hhas : forall d q c0 s0 cl,
               authClient c0 = Some cl ->
               hasWallet
                 (snd (handleConnect
                         (fun w => Session.handleWalletConnected w q)
                         d c0 s0)) = true).
    { intros d q c0 s0 cl H0. unfold hasWallet.
      now rewrite (Hpage d q c0 s0 cl H0). }
    assert (Hstate : forall d q c0 s0 cl,
               authClient c0 = Some cl ->
               authState
                 (fst (handleConnect
                         (fun w => Session.handleWalletConnected w q)
                         d c0 s0))
               = {| isConnected := true;
                    principal := Some (generateMockPrincipal d);
                    loading := false; error := None |}
               /\ exists cl',
                   authClient
                     (fst (handleConnect
                             (fun w => Session.handleWalletConnected w q)
                             d c0 s0)) = Some cl').
    { intros d q c0 s0 cl H0. unfold handleConnect. rewrite H0. cbn.
      split; [reflexivity | now eexists]. }
    split; [|split].
    + subst connected. unfold connect, rerender.
      rewrite (Hhas _ _ _ _ _ Hc).
      destruct (hasWallet s); cbn [Bool.eqb];
        [|rewrite mounted_fresh; cbn [snd]]; now apply (Hpage _ _ _ _ client).
    + intros Hw. subst connected. unfold connect at 1 2 3, rerender.
      rewrite (Hhas _ _ _ _ _ Hc), Hw. cbn [Bool.eqb].
      destruct (Hstate draw quota c s client Hc) as [Hst (cl' & Hcl')].
      split; [exact Hst|]. split.
      { unfold showsDisconnect. rewrite Hst. cbn.
        apply mock_principal_truthy. }
      unfold disconnect, rerender, handleDisconnect.
      unfold connect, rerender. rewrite (Hhas _ _ _ _ _ Hc), Hw.
      cbn [Bool.eqb]. rewrite Hcl'. cbn [snd].
      rewrite (Hhas _ _ _ _ _ Hc).
      change (hasWallet (Session.handleWalletDisconnected ?x)) with false.
      cbn [Bool.eqb]. rewrite mounted_fresh. cbn [fst snd].
      repeat split.
    + intros Hw. subst connected. unfold connect at 1 2 3, rerender.
      rewrite (Hhas _ _ _ _ _ Hc), Hw. cbn [Bool.eqb].
      rewrite mounted_fresh. cbn [fst snd].
      split; [reflexivity|]. split; [reflexivity|].
      unfold connect, rerender.
      rewrite (Hhas _ _ _ _ _ Hc), Hw. cbn [Bool.eqb].
      rewrite mounted_fresh. cbn [fst snd].
      rewrite (Hhas draw' quota unmounted _ create eq_refl).
      rewrite (Hhas _ _ _ _ _ Hc). cbn [Bool.eqb].
      split.
      * exact (proj1 (Hstate draw' quota unmounted _ create eq_refl)).
      * exact (Hpage draw' quota unmounted _ create eq_refl).
  - intros Hc. unfold connect, rerender, handleConnect. rewrite Hc.
    cbn [snd fst]. rewrite Bool.eqb_reflx. cbn. repeat split.
Qed.

Lemma connect_then_disconnect_witness :
  let draw := fun j => Nat.modulo (7 * j) 32 in
  let s := Session.fresh SessionSamples.empty_storage Session.no_params in
  let c := fst (mounted draw true s) in
  authClient c = Some create
  /\ hasWallet s = false
  /\ Index.wallet (Session.page (snd (connect draw true c s)))
     = Some (walletInfoOf (lit "ahov4-dkry7-gnu3c-jqx6f-mt2bi-pw-cai"))
  /\ showsDisconnect (fst (connect draw true c s)) = false.
Proof.
  intros draw s c.
  assert (Hc : authClient c = Some create) by reflexivity.
  assert (Hw : hasWallet s = false) by reflexivity.
  split; [exact Hc|]. split; [exact Hw|].
  pose proof (connect_then_disconnect draw draw true c s) as H.
  cbv zeta in H. destruct H as [H _].
  destruct (H create Hc) as (Hpage & _ & Hnone).
  destruct (Hnone Hw) as (_ & Hshow & _).
  split; [|exact Hshow]. rewrite Hpage. reflexivity.
Defined.

(** X20. After a connect that stored the wallet, a reload restores the
    wallet of the page, but the connector starts with a new client that is
    not authenticated: it tells the page nothing and shows itself
    disconnected, with nothing loading and no error. A connect on the
    reloaded page then replaces the restored wallet by the wallet of the
    principal drawn by that connect. *)
Theorem reload_restores_wallet_not_connector (draw draw' draw'' : nat -> nat)
    (quota quota' : bool) (now : Z) (c : t) (client : MockAuthClient)
    (s : Session.t)
    (Hclient : authClient c = Some client) :
  let stored := Session.localStorage (snd (connect draw true c s)) in
  let reloaded := Session.mount now quota' stored Session.no_params in
  let remounted := mounted draw' quota reloaded in
  let reconnected := connect draw'' quota (fst remounted) (snd remounted) in
  Index.wallet (Session.page reloaded)
  = Some (walletInfoOf (generateMockPrincipal draw))
  /\ snd remounted = reloaded
  /\ authState (fst remounted)
     = {| isConnected := false; principal := None;
          loading := false; error := None |}
  /\ Index.wallet (Session.page (snd reconnected))
     = Some (walletInfoOf (generateMockPrincipal draw'')).
Proof.
  intros stored reloaded remounted reconnected.
  assert (Hstored : Session.connected_wallet stored
                    = Some (Session.Parsed
                              (walletInfoOf (generateMockPrincipal draw)))).
  { subst stored. unfold connect, rerender, handleConnect.
    rewrite Hclient. cbn [snd].
    change (hasWallet (Session.handleWalletConnected ?w true s)) with true.
    destruct (hasWallet s); reflexivity. }
  assert (Hreloaded : Index.wallet (Session.page reloaded)
                      = Some (walletInfoOf (generateMockPrincipal draw))).
  { apply mount_restores_stored_wallet; [|exact Hstored].
    left. apply mock_principal_nonempty. }
  split; [exact Hreloaded|]. split; [reflexivity|]. split; [reflexivity|].
  subst reconnected remounted. rewrite mounted_fresh. cbn [fst snd].
  unfold connect, rerender, handleConnect. cbn [authClient snd].
  cbn [getIdentity login identity snd fst].
  unfold hasWallet at 1. rewrite Hreloaded.
  rewrite (proj1 (hasWallet_connected _ quota reloaded)).
  cbn [Bool.eqb snd]. apply hasWallet_connected.
Qed.

Lemma reload_restores_wallet_not_connector_witness :
  let draw := fun j => Nat.modulo (7 * j) 32 in
  let draw'' := fun j => Nat.modulo (5 * j) 32 in
  let c := fst (mounted draw true
                  (Session.fresh SessionSamples.empty_storage Session.no_params)) in
  let s := Session.fresh SessionSamples.empty_storage Session.no_params in
  authClient c = Some create
  /\ Index.wallet
       (Session.page
          (Session.mount 0 true
             (Session.localStorage (snd (connect draw true c s)))
             Session.no_params))
     = Some (walletInfoOf (lit "ahov4-dkry7-gnu3c-jqx6f-mt2bi-pw-cai")).
Proof.
  intros draw draw'' c s.
  assert (Hc : authClient c = Some create) by reflexivity.
  split; [exact Hc|].
  rewrite (proj1 (reload_restores_wallet_not_connector draw draw draw'' true
                    true 0 c create s Hc)).
  reflexivity.
Defined.

End ConnectorSession.

(** ** Random hex strings of any length *)

Section RandomHexEdges.

Import Index PlatformSpec.

Lemma generateRandomHex_fallback (n : Z) (P : Platform) (k : nat) :
  (n <=? 0) || negb (Z.rem n 2 =? 0) = true ->
  n <= max_string_length P ->
  generateRandomHex n P k
  = (Normal (padEnd (substring (random_toString16 P k) 2 (n + 2)) n (lit "0")),
     S k).
Proof.
  intros Hc Hmax. unfold generateRandomHex, try_catch. rewrite Hc.
  cbn [throw]. rewrite generateRandomHex_catch.
  now apply padEnd_checked_within.
Qed.

Lemma generateRandomHex_nonneg (n : Z) (P : Platform) (k : nat) :
  bytes_ok P -> random16_ok P -> 0 <= n -> n <= max_string_length P ->
  exists s k',
    generateRandomHex n P k = (Normal s, k')
    /\ len s = n
    /\ Forall (fun c => isLowerHex c = true) s.
Proof.
  intros Hbytes Hrandom Hn Hmax.
  assert (Hfb : forall j,
             len (padEnd (substring (random_toString16 P j) 2 (n + 2)) n (lit "0"))
             = n
             /\ Forall (fun c => isLowerHex c = true)
                  (padEnd (substring (random_toString16 P j) 2 (n + 2)) n (lit "0"))).
  { intros j. split.
    - apply padEnd_zero_length. now apply substring_length.
    - apply padEnd_zero_hex. apply substring_random_hex; [apply Hrandom | exact Hn]. }
  destruct ((n <=? 0) || negb (Z.rem n 2 =? 0)) eqn:Ec.
  - rewrite (generateRandomHex_fallback n P k Ec Hmax).
    do 2 eexists. split; [reflexivity|]. apply Hfb.
  - apply orb_false_iff in Ec as [Hpos Hrem].
    apply Z.leb_gt in Hpos. apply negb_false_iff, Z.eqb_eq in Hrem.
    assert (Hhalf : n = 2 * (n / 2)).
    { rewrite Z.rem_mod_nonneg in Hrem by lia.
      pose proof (Z.div_mod n 2 ltac:(lia)). lia. }
    unfold generateRandomHex, try_catch.
    destruct (Z.leb_spec n 0); [lia|]. rewrite Hrem. cbn [Z.eqb negb orb].
    unfold bind at 1. unfold crypto_getRandomValues.
    destruct (getRandomValues P k (Z.to_nat (n / 2))) as [bytes|e] eqn:Eb.
    + destruct (Hbytes _ _ _ Eb) as [Hl Hlt].
      destruct (concat_hex_pairs bytes Hlt) as [Hcl Hch].
      assert (Hlen : len (concat (map hex_pair bytes)) = n).
      { unfold len. rewrite Hcl, Hl. lia. }
      unfold join_empty. rewrite Hlen.
      destruct (Z.ltb_spec (max_string_length P) n); [lia|].
      do 2 eexists. split; [reflexivity|]. split; [exact Hlen | exact Hch].
    + rewrite generateRandomHex_catch, padEnd_checked_within by exact Hmax.
      do 2 eexists. split; [reflexivity|]. apply Hfb.
Qed.

(** X21. On a platform whose [crypto] fills arrays with bytes and whose
    [Math.random] is in [0, 1), [generateRandomHex] gives exactly [n]
    lowercase hexadecimal digits for every [n] from 0 to the longest
    string of the platform, odd lengths and 0 included (they take the
    fallback). For [n <= -2] it gives the first two code units of the text
    of [Math.random()], which is not a hex string when that text has a
    fraction. *)
Theorem generateRandomHex_any_length (P : Platform) (n : Z) (k : nat)
    (Hbytes : bytes_ok P) (Hrandom : random16_ok P) :
  (0 <= n -> n <= max_string_length P ->
   exists s k',
     generateRandomHex n P k = (Normal s, k')
     /\ len s = n
     /\ Forall (fun c => isLowerHex c = true) s)
  /\ (n <= -2 ->
      generateRandomHex n P k
      = (Normal (firstn 2 (random_toString16 P k)), S k)
      /\ forall digits,
          random_toString16 P k = lit "0." ++ digits ->
          generateRandomHex n P k = (Normal (lit "0."), S k)
          /\ ~ Forall (fun c => isLowerHex c = true) (lit "0.")).
Proof.
  split; [now apply generateRandomHex_nonneg|].
  intros Hneg.
  assert (Hc : (n <=? 0) || negb (Z.rem n 2 =? 0) = true).
  { destruct (Z.leb_spec n 0); [reflexivity | lia]. }
  assert (Hs : forall r, padEnd (substring r 2 (n + 2)) n (lit "0") = firstn 2 r).
  { intros r. unfold padEnd.
    destruct (Z.leb_spec n (len (substring r 2 (n + 2)))) as [_|Hlt];
      [|unfold len in Hlt; lia].
    cbn [orb]. unfold substring, clamp, len.
    replace (Z.to_nat (Z.min _ _)) with 0%nat by lia. cbn [skipn].
    destruct (Nat.le_gt_cases 2 (length r)).
    - replace (Z.to_nat (_ - _)) with 2%nat by lia. reflexivity.
    - replace (Z.to_nat (_ - _)) with (length r) by lia.
      rewrite firstn_all. symmetry. apply firstn_all2. lia. }
  assert (Hmax : n <= max_string_length P).
  { pose proof (max_string_length_at_least P) as Hmin.
    unfold shortest_string_limit in Hmin. lia. }
  rewrite (generateRandomHex_fallback n P k Hc Hmax), Hs.
  split; [reflexivity|]. intros digits ->. split; [reflexivity|].
  intros H. inversion H as [|c l _ H2]; subst. inversion H2; subst. discriminate.
Qed.

Lemma generateRandomHex_any_length_witness :
  bytes_ok Samples.platform /\ random16_ok Samples.platform
  /\ (exists s k',
        generateRandomHex 7 Samples.platform 0%nat = (Normal s, k')
        /\ len s = 7 /\ Forall (fun c => isLowerHex c = true) s)
  /\ generateRandomHex (-4) Samples.platform 0%nat = (Normal (lit "0."), 1%nat).
Proof.
  split; [exact sample_platform_bytes_ok|].
  split; [exact sample_platform_random16_ok|].
  pose proof (generateRandomHex_any_length Samples.platform 7 0%nat
                sample_platform_bytes_ok sample_platform_random16_ok) as [H7 _].
  pose proof (generateRandomHex_any_length Samples.platform (-4) 0%nat
                sample_platform_bytes_ok sample_platform_random16_ok) as [_ H4].
  split; [apply H7; [lia | discriminate]|].
  destruct (H4 ltac:(lia)) as [_ Hd].
  exact (proj1 (Hd (lit "8f3a") eq_refl)).
Defined.

(** X22. Without a wallet, or with a wallet whose principal is empty, on
    such a platform [generateUniquenessFactors] completes with a
    [location_hash] and a [wallet_entropy] of 16 lowercase hexadecimal
    digits each, with [wallet_principal] [null] and with the clock in whole
    seconds as [timestamp_seed]. The base-36 fallback of its [catch]
    clause is never used. *)
Theorem demo_uniqueness_factors (walletInfo : option WalletInfo)
    (P : Platform) (k : nat)
    (Hbytes : bytes_ok P) (Hrandom : random16_ok P)
    (Hdemo : principal_or_null walletInfo = None) :
  exists u k' j,
    generateUniquenessFactors walletInfo P k = (Normal u, k')
    /\ len (location_hash u) = 16
    /\ Forall (fun c => isLowerHex c = true) (location_hash u)
    /\ len (wallet_entropy u) = 16
    /\ Forall (fun c => isLowerHex c = true) (wallet_entropy u)
    /\ wallet_principal u = None
    /\ timestamp_seed u = toString (date_now P j / 1000).
Proof.
  assert (Hmax : 16 <= max_string_length P).
  { pose proof (max_string_length_at_least P) as Hmin.
    unfold shortest_string_limit in Hmin. lia. }
  destruct (generateRandomHex_nonneg 16 P k Hbytes Hrandom ltac:(lia) Hmax)
    as (h & k1 & Hh & Hhl & Hhh).
  destruct (generateRandomHex_nonneg 16 P (S k1) Hbytes Hrandom ltac:(lia) Hmax)
    as (e & k2 & He & Hel & Heh).
  unfold generateUniquenessFactors, try_catch.
  rewrite (bind_normal _ _ _ _ _ _ Hh).
  unfold bind at 1. unfold Date_now at 1.
  assert (Hentropy :
            match walletInfo with
            | Some w =>
                if truthy_str (principal w)
                then ret (padStart (slice_from (principal w) (-16)) 16 (lit "0"))
                else generateRandomHex 16
            | None => generateRandomHex 16
            end = generateRandomHex 16).
  { destruct walletInfo as [w|]; [|reflexivity].
    unfold principal_or_null, str_or_null in Hdemo.
    destruct (truthy_str (principal w)); [discriminate | reflexivity]. }
  rewrite Hentropy, (bind_normal _ _ _ _ _ _ He).
  exists {| location_hash := h;
            timestamp_seed := toString (date_now P k1 / 1000);
            wallet_entropy := e;
            wallet_principal := principal_or_null walletInfo;
            wallet_account_id := accountId_or_null walletInfo;
            biometric_opt_in := false;
            biometric_hash := None |}, k2, k1.
  split; [reflexivity|]. cbn. repeat split; assumption.
Qed.

Lemma demo_uniqueness_factors_witness :
  bytes_ok Samples.platform_without_crypto
  /\ random16_ok Samples.platform_without_crypto
  /\ exists u k',
      generateUniquenessFactors None Samples.platform_without_crypto 0%nat
      = (Normal u, k')
      /\ len (wallet_entropy u) = 16.
Proof.
  assert (Hb : bytes_ok Samples.platform_without_crypto)
    by (intros k n bytes H; discriminate H).
  assert (Hr : random16_ok Samples.platform_without_crypto).
  { intros k. right. exists (lit "8f3a"). split; [reflexivity|].
    repeat constructor. }
  split; [exact Hb|]. split; [exact Hr|].
  destruct (demo_uniqueness_factors None Samples.platform_without_crypto 0%nat
              Hb Hr eq_refl)
    as (u & k' & j & Hu & _ & _ & Hl & _).
  exists u, k'. split; [exact Hu | exact Hl].
Defined.

End RandomHexEdges.

(** ** The indicator and the page *)

Section IndicatorAndPage.

Import Index.

Lemma is_combination_scarcityChange (a e a' e' : jsstring) (remaining : Z)
    (combo : CombinationScarcityAPI) :
  is_combination a e (scarcityChange_combo a' e' remaining combo)
  = is_combination a e combo.
Proof.
  unfold scarcityChange_combo. now destruct (is_combination a' e' combo).
Qed.

Lemma lookup_onScarcityChange (a e : jsstring) (remaining : Z) (st : State)
    (info : ScarcityInfo) :
  getScarcityForCombination a e st = Some info ->
  exists info',
    getScarcityForCombination a e (onScarcityChange a e remaining st) = Some info'
    /\ remaining_slots info' = Some remaining
    /\ total_limit info' = total_limit info
    /\ minted_count info' = total_limit info - remaining
    /\ is_sold_out info' = (remaining <=? 0).
Proof.
  rewrite !lookup_find, allCombinations_onScarcityChange.
  rewrite find_map_preserving
    by (intros x; apply is_combination_scarcityChange).
  destruct (find (is_combination a e) (allCombinationsScarcity st))
    as [c|] eqn:Ef; [|discriminate].
  intros [= <-]. apply find_some in Ef as [_ Hc].
  cbn [option_map]. unfold scarcityChange_combo. rewrite Hc.
  eexists. split; [reflexivity|]. cbn. rewrite num_or_zero. repeat split.
Qed.

(** X23. When the selected combination is cached and a [scarcity_update]
    for it reaches the indicator, then after the callback and the next
    render the indicator and the page agree on the remaining slots: the
    indicator shows the message's [remaining_slots], and that is what the
    cache holds for the combination. The total that the indicator shows is
    the message's [total_supply] only if the remaining slots did not
    change; otherwise it is the cached limit again. *)
Theorem indicator_agrees_with_page (data : ScarcityUpdateMessage)
    (cs : ScarcityIndicator.State) (page : State) (info : ScarcityInfo)
    (Hartist : su_artist data = selectedArtist page)
    (Hevent : su_event_type data = selectedEvent page)
    (Hcached : getScarcityForCombination
                 (selectedArtist page) (selectedEvent page) page = Some info) :
  let result := ScarcityIndicatorSync.update_and_rerender data cs page in
  ScarcityIndicator.remainingSlots (fst result) = su_remaining_slots data
  /\ (exists info',
         getScarcityForCombination
           (selectedArtist page) (selectedEvent page) (snd result) = Some info'
         /\ remaining_slots info' = Some (su_remaining_slots data)
         /\ total_limit info' = total_limit info)
  /\ (opt_num_or (remaining_slots info) 0 = su_remaining_slots data ->
      ScarcityIndicator.totalSupply (fst result) = su_total_supply data)
  /\ (opt_num_or (remaining_slots info) 0 <> su_remaining_slots data ->
      ScarcityIndicator.totalSupply (fst result) = total_limit info).
Proof.
  intros result. subst result.
  unfold ScarcityIndicatorSync.update_and_rerender.
  unfold ScarcityIndicator.handleScarcityUpdate.
  cbn [ScarcityIndicator.pageProps ScarcityIndicator.artist
       ScarcityIndicator.eventType ScarcityIndicator.onScarcityChange].
  rewrite Hartist, Hevent, !str_eqb_refl. cbn [andb fst snd].
  destruct (lookup_onScarcityChange (selectedArtist page) (selectedEvent page)
              (su_remaining_slots data) page info Hcached)
    as (info' & Hl & Hr & Ht & _).
  unfold ScarcityIndicatorSync.syncInitial.
  cbn [ScarcityIndicator.pageProps ScarcityIndicator.initialRemainingSlots
       ScarcityIndicator.initialTotalSupply].
  change (selectedArtist (onScarcityChange (selectedArtist page)
            (selectedEvent page) (su_remaining_slots data) page))
    with (selectedArtist page).
  change (selectedEvent (onScarcityChange (selectedArtist page)
            (selectedEvent page) (su_remaining_slots data) page))
    with (selectedEvent page).
  rewrite Hcached, Hl, Hr, Ht.
  assert (Hsame : opt_num_or (Some (su_remaining_slots data)) 0
                  = su_remaining_slots data) by apply num_or_zero.
  rewrite Hsame, Z.eqb_refl, andb_true_r.
  destruct (Z.eqb_spec (opt_num_or (remaining_slots info) 0)
              (su_remaining_slots data)) as [Heq|Hne]; cbn.
  - repeat split; try congruence. exists info'. now repeat split.
  - rewrite num_or_zero. repeat split; try congruence.
    exists info'. now repeat split.
Qed.

Lemma indicator_agrees_with_page_witness :
  let result :=
    ScarcityIndicatorSync.update_and_rerender ScarcitySpec.sample_update_resized
      (ScarcityIndicator.initialState
         (ScarcityIndicator.pageProps Samples.ready_page))
      Samples.ready_page in
  getScarcityForCombination (lit "Da Vinci") (lit "architecture") Samples.ready_page
  = Some (scarcity_info ScarcitySpec.sample_combo)
  /\ ScarcityIndicator.remainingSlots (fst result) = 12
  /\ ScarcityIndicator.totalSupply (fst result) = 10.
Proof.
  intros result.
  assert (Hc : getScarcityForCombination (lit "Da Vinci") (lit "architecture")
                 Samples.ready_page
               = Some (scarcity_info ScarcitySpec.sample_combo)) by reflexivity.
  split; [exact Hc|].
  destruct (indicator_agrees_with_page ScarcitySpec.sample_update_resized
              (ScarcityIndicator.initialState
                 (ScarcityIndicator.pageProps Samples.ready_page))
              Samples.ready_page (scarcity_info ScarcitySpec.sample_combo)
              eq_refl eq_refl Hc)
    as (Hr & _ & _ & Ht).
  split; [exact Hr|]. apply Ht. discriminate.
Defined.

End IndicatorAndPage.

(** ** The evolution interval *)

Section EvolutionInterval.

Import Index IndexForm EvolutionSelect.

Lemma digits_aux_app (fuel : nat) (radix n : N) (acc : jsstring) :
  digits_aux fuel radix n acc = digits_aux fuel radix n [] ++ acc.
Proof.
  revert n acc. induction fuel as [|fuel IH]; intros n acc; cbn [digits_aux];
    [reflexivity|].
  destruct (n / radix =? 0)%N; [reflexivity|].
  rewrite IH, (IH _ [_]), <- app_assoc. reflexivity.
Qed.

Lemma digit_char_range (d : N) :
  (d < 10)%N -> (48 <= digit_char d <= 57)%N.
Proof.
  intros Hd. unfold digit_char.
  destruct (N.ltb_spec d 10); lia.
Qed.

Lemma digit_value_digit_char (d : N) :
  (d < 10)%N -> digit_value 10 (digit_char d) = Some d.
Proof.
  intros Hd. pose proof (digit_char_range d Hd) as Hr.
  unfold digit_value.
  destruct (N.leb_spec 48 (digit_char d)) as [_|H]; [|lia].
  destruct (N.leb_spec (digit_char d) 57) as [_|H]; [|lia].
  cbn [andb]. unfold digit_char in *.
  destruct (N.ltb_spec d 10) as [_|H]; [|lia].
  replace (48 + d - 48)%N with d by lia.
  destruct (N.ltb_spec d 10) as [_|H]; [reflexivity | lia].
Qed.

Lemma parse_one_digit (d : N) (rest : jsstring) (acc : option N) :
  (d < 10)%N ->
  parse_digits 10 (digit_char d :: rest) acc
  = parse_digits 10 rest (Some (acc_value acc * 10 + d)%N).
Proof.
  intros Hd. cbn [parse_digits]. rewrite (digit_value_digit_char d Hd).
  destruct acc; reflexivity.
Qed.

Lemma digits_aux_S (fuel : nat) (radix n : N) (acc : jsstring) :
  digits_aux (S fuel) radix n acc
  = if (n / radix =? 0)%N then digit_char (n mod radix) :: acc
    else digits_aux fuel radix (n / radix) (digit_char (n mod radix) :: acc).
Proof. reflexivity. Qed.

Lemma parse_digits_decimal (fuel : nat) (n : N) (rest : jsstring)
    (acc : option N) :
  (n < 10 ^ N.of_nat (S fuel))%N ->
  exists m,
    parse_digits 10 (digits_aux (S fuel) 10 n [] ++ rest) acc
    = parse_digits 10 rest (Some (acc_value acc * 10 ^ m + n)%N).
Proof.
  revert n rest acc. induction fuel as [|fuel IH]; intros n rest acc Hn.
  - change (10 ^ N.of_nat 1)%N with 10%N in Hn.
    exists 1%N. rewrite digits_aux_S. cbn [digits_aux].
    rewrite (N.mod_small n 10 Hn).
    destruct (n / 10 =? 0)%N; cbn [app];
      rewrite (parse_one_digit n rest acc Hn); now rewrite N.pow_1_r.
  - rewrite digits_aux_S. destruct (N.eqb_spec (n / 10) 0) as [Hz|Hnz].
    + assert (Hsmall : (n < 10)%N).
      { pose proof (N.div_mod n 10 ltac:(lia)).
        pose proof (N.mod_lt n 10 ltac:(lia)). lia. }
      exists 1%N. rewrite (N.mod_small n 10 Hsmall). cbn [app].
      rewrite (parse_one_digit n rest acc Hsmall). now rewrite N.pow_1_r.
    + assert (Hdiv : (n / 10 < 10 ^ N.of_nat (S fuel))%N).
      { apply N.Div0.div_lt_upper_bound.
        rewrite <- N.pow_succ_r'. now rewrite <- Nat2N.inj_succ. }
      rewrite digits_aux_app, <- app_assoc.
      destruct (IH (n / 10)%N ([digit_char (n mod 10)] ++ rest) acc Hdiv)
        as [m Hm].
      exists (N.succ m). rewrite Hm. cbn [app].
      rewrite parse_one_digit by (apply N.mod_lt; lia).
      cbn [acc_value]. do 2 f_equal.
      rewrite N.pow_succ_r'. pose proof (N.div_mod n 10 ltac:(lia)). lia.
Qed.

Lemma nat_toString_parse (n : N) :
  parse_digits 10 (nat_toString 10 n) None = Some n.
Proof.
  unfold nat_toString.
  assert (Hn : (n < 10 ^ N.of_nat (S (N.to_nat (N.log2 n))))%N).
  { rewrite Nat2N.inj_succ, N2Nat.id.
    apply N.lt_le_trans with (2 ^ N.succ (N.log2 n))%N.
    - destruct (N.eq_dec n 0) as [->|Hpos]; [reflexivity|].
      apply N.log2_spec. lia.
    - apply N.pow_le_mono_l. lia. }
  destruct (parse_digits_decimal _ n [] None Hn) as [m Hm].
  rewrite app_nil_r in Hm. rewrite Hm. cbn. reflexivity.
Qed.

Lemma digits_aux_digits (fuel : nat) (n : N) (acc : jsstring) :
  Forall (fun c => (48 <= c <= 57)%N) acc ->
  Forall (fun c => (48 <= c <= 57)%N) (digits_aux fuel 10 n acc).
Proof.
  revert n acc. induction fuel as [|fuel IH]; intros n acc Hacc;
    cbn [digits_aux]; [exact Hacc|].
  assert (Hd : (48 <= digit_char (n mod 10) <= 57)%N)
    by (apply digit_char_range, N.mod_lt; lia).
  destruct (n / 10 =? 0)%N; [|apply IH]; now constructor.
Qed.

Lemma nat_toString_digits (n : N) :
  exists c rest,
    nat_toString 10 n = c :: rest
    /\ Forall (fun c => (48 <= c <= 57)%N) (c :: rest).
Proof.
  pose proof (digits_aux_digits (S (N.to_nat (N.log2 n))) n [] (Forall_nil _))
    as H.
  unfold nat_toString in *.
  destruct (digits_aux (S (N.to_nat (N.log2 n))) 10 n []) as [|c rest] eqn:E.
  - exfalso. rewrite digits_aux_app in E. cbn [digits_aux] in E.
    destruct (n / 10 =? 0)%N;
      [discriminate E|].
    rewrite digits_aux_app in E. apply app_eq_nil in E as [E _].
    apply app_eq_nil in E as [_ E]. discriminate E.
  - now exists c, rest.
Qed.

Lemma digit_not_special (c : N) :
  (48 <= c <= 57)%N ->
  isWhiteSpace c = false /\ (c =? 45)%N = false /\ (c =? 43)%N = false
  /\ (c =? 120)%N = false /\ (c =? 88)%N = false.
Proof.
  intros Hc.
  assert (Hcases : (c = 48 \/ c = 49 \/ c = 50 \/ c = 51 \/ c = 52 \/ c = 53
                    \/ c = 54 \/ c = 55 \/ c = 56 \/ c = 57)%N) by lia.
  repeat destruct Hcases as [-> | Hcases]; try subst c; repeat split.
Qed.

Lemma parseInt_digits (s : jsstring) (negative : bool) :
  s <> [] -> Forall (fun c => (48 <= c <= 57)%N) s ->
  parseInt (if negative then 45%N :: s else s)
  = match parse_digits 10 s None with
    | Some n => Some (if negative then - Z.of_N n else Z.of_N n)
    | None => None
    end.
Proof.
  intros Hne Hd. destruct s as [|c1 s]; [contradiction|].
  inversion Hd as [|? ? H1 Hs]; subst.
  destruct (digit_not_special c1 H1) as (Hw & Hm & Hp & _).
  unfold parseInt. destruct negative.
  - change (trimStart (45%N :: c1 :: s)) with (45%N :: c1 :: s).
    cbv beta iota zeta. rewrite N.eqb_refl. cbv beta iota zeta.
    destruct s as [|c2 s]; [reflexivity|].
    inversion Hs as [|? ? H2 _]; subst.
    destruct (digit_not_special c2 H2) as (_ & _ & _ & Hx & HX).
    rewrite Hx, HX, andb_false_r. reflexivity.
  - cbn [trimStart]. rewrite Hw, Hm, Hp. cbv beta iota zeta.
    destruct s as [|c2 s]; [reflexivity|].
    inversion Hs as [|? ? H2 _]; subst.
    destruct (digit_not_special c2 H2) as (_ & _ & _ & Hx & HX).
    rewrite Hx, HX, andb_false_r. reflexivity.
Qed.

Lemma parseInt_toString (y : Z) : parseInt (toString y) = Some y.
Proof.
  unfold toString.
  destruct (Z.ltb_spec y 0) as [Hneg|Hpos].
  - destruct (nat_toString_digits (Z.to_N (- y))) as (c & rest & Hs & Hd).
    change (lit "-" ++ nat_toString 10 (Z.to_N (- y)))
      with (if true then 45%N :: nat_toString 10 (Z.to_N (- y))
            else nat_toString 10 (Z.to_N (- y))).
    rewrite parseInt_digits; [|rewrite Hs; discriminate|rewrite Hs; exact Hd].
    rewrite nat_toString_parse. f_equal. lia.
  - destruct (nat_toString_digits (Z.to_N y)) as (c & rest & Hs & Hd).
    change (nat_toString 10 (Z.to_N y))
      with (if false then 45%N :: nat_toString 10 (Z.to_N y)
            else nat_toString 10 (Z.to_N y)).
    rewrite parseInt_digits; [|rewrite Hs; discriminate|rewrite Hs; exact Hd].
    rewrite nat_toString_parse. f_equal. lia.
Qed.

(** X24. [parseInt] reads back what [String] prints: for an integer [x]
    that a number holds exactly, [parseInt(String(x))] is [x]. So the value
    that the evolution select shows parses to the stored period, and
    choosing any of its six options stores the number of days that the
    option's value spells, makes the select show that option and changes
    nothing else of the form. *)
Theorem parseInt_reads_String (x : Z) (st : State)
    (Hexact : - 2 ^ 53 < x < 2 ^ 53)
    (Hperiod : - 2 ^ 53 < evolutionPeriod st < 2 ^ 53) :
  parseInt (toString x) = Some x
  /\ parseInt (selectValue st) = Some (evolutionPeriod st)
  /\ Forall (fun value =>
               exists st',
                 onIntervalChange value st = Some st'
                 /\ selectValue st' = value
                 /\ mode st' = mode st
                 /\ selectedArtist st' = selectedArtist st
                 /\ selectedEvent st' = selectedEvent st
                 /\ allCombinationsScarcity st' = allCombinationsScarcity st)
       intervalOptions.
Proof.
  split; [apply parseInt_toString|]. split; [apply parseInt_toString|].
  repeat constructor; eexists; (split; [reflexivity|]); repeat split.
Qed.

Lemma parseInt_reads_String_witness :
  - 2 ^ 53 < 365 < 2 ^ 53
  /\ - 2 ^ 53 < evolutionPeriod Samples.ready_page < 2 ^ 53
  /\ parseInt (toString 365) = Some 365
  /\ parseInt (selectValue Samples.ready_page) = Some 30.
Proof.
  assert (H1 : - 2 ^ 53 < 365 < 2 ^ 53) by (cbn; lia).
  assert (H2 : - 2 ^ 53 < evolutionPeriod Samples.ready_page < 2 ^ 53)
    by (cbn; lia).
  split; [exact H1|]. split; [exact H2|].
  destruct (parseInt_reads_String 365 Samples.ready_page H1 H2) as (Ha & Hb & _).
  split; [exact Ha | exact Hb].
Defined.

(** What [parseInt] makes of other texts: digits up to the first other
    code unit, a sign, white space in front, a hexadecimal prefix, and
    nothing without a digit. *)
Lemma parseInt_samples :
  parseInt (lit "30 days") = Some 30
  /\ parseInt (lit "  -15") = Some (-15)
  /\ parseInt (lit "0x1f") = Some 31
  /\ parseInt (lit "") = None
  /\ parseInt (lit "days") = None.
Proof. repeat split. Qed.

End EvolutionInterval.

(** ** The NFT card *)

Section NftCard.

Import NFTPreview.

(** X25. Whatever the numbers and their comparison are, the label and the
    colour of a rarity score name the same tier: two scores get the same
    label exactly when they get the same colour. A score that compares
    with nothing (not a number) is Common and muted. *)
Theorem rarity_label_matches_color (number : Type)
    (ge : number -> number -> bool) (t8 t6 t4 t2 : number) (a b : number) :
  (getRarityLabel number ge t8 t6 t4 t2 a
   = getRarityLabel number ge t8 t6 t4 t2 b
   <-> getRarityColor number ge t8 t6 t4 t2 a
       = getRarityColor number ge t8 t6 t4 t2 b)
  /\ (ge a t8 = false -> ge a t6 = false -> ge a t4 = false ->
      ge a t2 = false ->
      getRarityLabel number ge t8 t6 t4 t2 a = lit "Common"
      /\ getRarityColor number ge t8 t6 t4 t2 a = lit "text-[--muted-text]").
Proof.
  unfold getRarityLabel, getRarityColor. split.
  - destruct (ge a t8), (ge a t6), (ge a t4), (ge a t2),
      (ge b t8), (ge b t6), (ge b t4), (ge b t2);
      split; intros H; first [ reflexivity | discriminate H ].
  - intros -> -> -> ->. split; reflexivity.
Qed.

Lemma replace_whitespace_runs_clean (in_run : bool) (s : jsstring) :
  Forall (fun c => isWhiteSpace c = false) (replace_whitespace_runs in_run s).
Proof.
  revert in_run. induction s as [|c s IH]; intros in_run; cbn; [constructor|].
  destruct (isWhiteSpace c) eqn:Ec.
  - destruct in_run; [apply IH|]. constructor; [reflexivity | apply IH].
  - constructor; [exact Ec | apply IH].
Qed.

Lemma replace_whitespace_runs_id (s : jsstring) :
  Forall (fun c => isWhiteSpace c = false) s ->
  forall in_run, replace_whitespace_runs in_run s = s.
Proof.
  induction 1 as [|c s Hc _ IH]; intros in_run; cbn; [reflexivity|].
  rewrite Hc. f_equal. apply IH.
Qed.

Lemma toString_clean (x : Z) :
  Forall (fun c => isWhiteSpace c = false) (toString x).
Proof.
  assert (Hd : forall n, Forall (fun c => isWhiteSpace c = false)
                           (nat_toString 10 n)).
  { intros n. destruct (nat_toString_digits n) as (c & rest & -> & Hd).
    revert Hd. apply Forall_impl. intros d Hr.
    now destruct (digit_not_special d Hr). }
  unfold toString. destruct (x <? 0); [|apply Hd].
  apply Forall_app. split; [repeat constructor | apply Hd].
Qed.

(** X26. [handleDownload] does nothing without an image address. With
    one, the file name it offers starts with nft- and ends with .jpg and
    contains no white space, whatever the artist style and the case
    mapping are; an artist style that has no white space after
    lower-casing appears in it as it is. *)
Theorem download_name_has_no_whitespace (toLowerCase : jsstring -> jsstring)
    (imageURI : option jsstring) (artistStyle : jsstring) (now : Z) :
  (imageURI = None \/ imageURI = Some [] ->
   handleDownload toLowerCase imageURI artistStyle now = None)
  /\ (forall uri, imageURI = Some uri -> uri <> [] ->
      exists name middle,
        handleDownload toLowerCase imageURI artistStyle now = Some (uri, name)
        /\ name = lit "nft-" ++ middle ++ lit ".jpg"
        /\ Forall (fun c => isWhiteSpace c = false) name
        /\ (Forall (fun c => isWhiteSpace c = false) (toLowerCase artistStyle) ->
            name = lit "nft-" ++ toLowerCase artistStyle ++ lit "-"
                   ++ toString now ++ lit ".jpg")).
Proof.
  split.
  - intros [-> | ->]; reflexivity.
  - intros uri -> Hne. apply truthy_str_iff in Hne.
    unfold handleDownload. rewrite Hne.
    exists (downloadName toLowerCase artistStyle now),
      (replace_whitespace_runs false (toLowerCase artistStyle)
       ++ lit "-" ++ toString now).
    split; [reflexivity|]. split.
    { unfold downloadName. now rewrite <- !app_assoc. }
    split.
    + unfold downloadName.
      repeat (apply Forall_app; split);
        first [ apply replace_whitespace_runs_clean
              | apply toString_clean
              | repeat constructor ].
    + intros Hclean. unfold downloadName.
      now rewrite (replace_whitespace_runs_id _ Hclean).
Qed.

(** With the identity as case mapping: runs of blanks and tabs collapse. *)
Lemma download_name_sample :
  handleDownload (fun s => s) (Some (lit "http://localhost:5000/i.png"))
    (lit "da  vinci 	 style") 1700000000000
  = Some (lit "http://localhost:5000/i.png",
          lit "nft-da-vinci-style-1700000000000.jpg").
Proof. reflexivity. Qed.

End NftCard.
